(** * HR payroll backend: employees, attendance marking and salary slips

    The repository holds four stand-alone variants of one Express/Mongoose
    service:

    - [Backend]  : [src/backend/index.js], e-mail identities, no
                   authentication gate on the routes;
    - [Username] : the username based service, with the [authenticate] and
                   [adminOnly] middlewares;
    - [Header]   : e-mail identities, caller resolved from the
                   [x-user-email] header;
    - [Cookie]   : e-mail identities, caller resolved from the [userEmail]
                   cookie.

    [Email] holds what the three e-mail based services declare alike,
    [Gated] the routes the header and cookie services share.

    Modelling conventions.
    - A JavaScript [Date] is its time value, an integer number of
      milliseconds since the epoch ([Z]).  Local time is UTC shifted by a
      fixed offset [LocalTZA] (no daylight saving changes).
    - A JavaScript [Number] is the rational it denotes ([Q]); the
      arithmetic on amounts of money is that of binary64: the exact result
      rounded to the nearest double, a tie going to the even one
      ([JS.fl]).  [Math.round x] is [floor (x + 1/2)], which is exact on a
      double.  Overflow to [Infinity], [NaN] and the sign of zero are
      outside the model.
    - A Mongoose collection is the list of its documents in insertion order.
      Object ids are natural numbers handed out by a counter of the store.
      The [createdAt]/[updatedAt]/[joiningDate] stamps are left out.
    - A request body is a record of optional fields; a handler reads the
      fields it destructures.  In a [Request] an id is a well-formed
      object id, a date is an instant already parsed by [new Date(date)]
      and a credential is a string; the logins and the marks of the e-mail
      based services are also written on the values of the body as they
      come ([loginBody], [authenticateBody], [postAttendanceBody], ...).
      Requests are handled one after the other. *)

From Stdlib Require Import ZArith QArith Qround Qabs Qpower Qreduction List
  String Bool Lia Lqa Permutation Floats Uint63.
Import ListNotations.

Open Scope Z_scope.

(* ------------------------------------------------------------------ *)
(** * ECMAScript dates *)

Module JSDate.

Definition msPerDay : Z := 86400000.

Definition Day (t : Z) : Z := t / msPerDay.
Definition TimeWithinDay (t : Z) : Z := t mod msPerDay.

Definition DayFromYear (y : Z) : Z :=
  365 * (y - 1970) + (y - 1969) / 4 - (y - 1901) / 100 + (y - 1601) / 400.

Definition InLeapYear (y : Z) : Z :=
  if (y mod 4 =? 0) && (negb (y mod 100 =? 0) || (y mod 400 =? 0))
  then 1 else 0.

(** The year holding day number [d]: the largest [y] with
    [DayFromYear y <= d], found from an estimate that is off by one at most. *)
Definition YearFromDay (d : Z) : Z :=
  let y := 1970 + (400 * d) / 146097 in
  if d <? DayFromYear y then y - 1
  else if DayFromYear (y + 1) <=? d then y + 1
  else y.

Definition DayWithinYear (d : Z) : Z := d - DayFromYear (YearFromDay d).

(** First day, within its year, of month [m] (0 = January). *)
Definition MonthStart (leap m : Z) : Z :=
  if m <=? 0 then 0
  else if m =? 1 then 31
  else if m =? 2 then 59 + leap
  else if m =? 3 then 90 + leap
  else if m =? 4 then 120 + leap
  else if m =? 5 then 151 + leap
  else if m =? 6 then 181 + leap
  else if m =? 7 then 212 + leap
  else if m =? 8 then 243 + leap
  else if m =? 9 then 273 + leap
  else if m =? 10 then 304 + leap
  else if m =? 11 then 334 + leap
  else 365 + leap.

Definition MonthFromDay (d : Z) : Z :=
  let leap := InLeapYear (YearFromDay d) in
  let n := DayWithinYear d in
  if n <? 31 then 0
  else if n <? 59 + leap then 1
  else if n <? 90 + leap then 2
  else if n <? 120 + leap then 3
  else if n <? 151 + leap then 4
  else if n <? 181 + leap then 5
  else if n <? 212 + leap then 6
  else if n <? 243 + leap then 7
  else if n <? 273 + leap then 8
  else if n <? 304 + leap then 9
  else if n <? 334 + leap then 10
  else 11.

Definition DateFromDay (d : Z) : Z :=
  DayWithinYear d - MonthStart (InLeapYear (YearFromDay d)) (MonthFromDay d) + 1.

(** [MakeDay]: a month outside 0..11 carries into the year. *)
Definition MakeDay (year month date : Z) : Z :=
  let ym := year + month / 12 in
  let mn := month mod 12 in
  DayFromYear ym + MonthStart (InLeapYear ym) mn + date - 1.

Definition MakeTime (h m s ms : Z) : Z :=
  h * 3600000 + m * 60000 + s * 1000 + ms.

Definition MakeDate (day time : Z) : Z := day * msPerDay + time.

(** [TimeClip]: a time value more than 8.64e15 ms away from the epoch is no
    date ([Invalid Date], of time value NaN).  The functions below compute
    the time value before the clip. *)
Definition maxTime : Z := 8640000000000000.

Definition TimeClip (t : Z) : option Z :=
  if Z.abs t <=? maxTime then Some t else None.

Definition isDate (t : Z) : bool :=
  match TimeClip t with
  | Some _ => true
  | None => false
  end.

Section Zone.

Variable LocalTZA : Z.

Definition LocalTime (t : Z) : Z := t + LocalTZA.
Definition UTC (t : Z) : Z := t - LocalTZA.

(** [new Date(y, m, d, h, mi, s, ms)]: a year from 0 to 99 stands for
    1900 + year. *)
Definition newDate (y m d h mi s ms : Z) : Z :=
  let yr := if (0 <=? y) && (y <=? 99) then 1900 + y else y in
  UTC (MakeDate (MakeDay yr m d) (MakeTime h mi s ms)).

Definition getFullYear (t : Z) : Z := YearFromDay (Day (LocalTime t)).
Definition getMonth (t : Z) : Z := MonthFromDay (Day (LocalTime t)).
Definition getDate (t : Z) : Z := DateFromDay (Day (LocalTime t)).

(** [d.setHours(h, mi, s, ms)]: the new time value of [d]. *)
Definition setHours (t h mi s ms : Z) : Z :=
  UTC (MakeDate (Day (LocalTime t)) (MakeTime h mi s ms)).

End Zone.

End JSDate.


Open Scope string_scope.

(* ------------------------------------------------------------------ *)
(** * JavaScript numbers and truthiness *)

Module JS.

(** [Math.round]: the nearest integer, a tie going up. *)
Definition Math_round (x : Q) : Q := inject_Z (Qfloor (x + (1 # 2))).

(** ** binary64

    A double is [m * 2 ^ e] for integers [m] and [e] with [|m| < 2 ^ 53]
    and [-1074 <= e].  [fl x] is the double nearest to [x], the one of even
    [m] when two are equally near; it is [x] scaled by the unit in its last
    place and rounded to an integer. *)
Definition pow2 (e : Z) : Q := Qpower 2 e.

(** [floor (log2 |x|)], for [x] other than 0: the difference of the
    logarithms of numerator and denominator, or one less. *)
Definition ilog2 (x : Q) : Z :=
  let k := (Z.log2 (Z.abs (Qnum x)) - Z.log2 (Zpos (Qden x)))%Z in
  if Qle_bool (pow2 k) (Qabs x) then k else (k - 1)%Z.

(** The nearest integer, a tie going to the even one. *)
Definition rne (x : Q) : Z :=
  let f := Qfloor x in
  match Qcompare (x - inject_Z f) (1 # 2) with
  | Lt => f
  | Gt => (f + 1)%Z
  | Eq => if Z.even f then f else (f + 1)%Z
  end.

(** The exponent of the unit in the last place of [x]: 52 binary places
    below its leading one, and no less than that of the subnormal doubles. *)
Definition ulpExp (x : Q) : Z := Z.max (ilog2 x - 52) (-1074).

Definition fl (x : Q) : Q :=
  if Qeq_bool x 0 then 0%Q
  else Qred (inject_Z (rne (x / pow2 (ulpExp x))) * pow2 (ulpExp x)).

(** [x * y], [x / y] and [x + y] on doubles. *)
Definition times (x y : Q) : Q := fl (x * y).
Definition over (x y : Q) : Q := fl (x / y).
Definition plus (x y : Q) : Q := fl (x + y).

Definition ofNat (n : nat) : Q := inject_Z (Z.of_nat n).

(** Truthiness of an optional string field: absent and empty are falsy. *)
Definition truthyStr (o : option string) : bool :=
  match o with
  | Some s => negb (s =? "")
  | None => false
  end.

(** Truthiness of an optional number field: absent and zero are falsy. *)
Definition truthyNum (o : option Q) : bool :=
  match o with
  | Some q => negb (Qeq_bool q 0)
  | None => false
  end.

Definition truthyInt (o : option Z) : bool :=
  match o with
  | Some z => negb (z =? 0)%Z
  | None => false
  end.

(** [a || b] on an optional string: the first truthy operand. *)
Definition orStr (o : option string) (dflt : string) : string :=
  match o with
  | Some s => if s =? "" then dflt else s
  | None => dflt
  end.

Definition orNum (o : option Q) (dflt : Q) : Q :=
  match o with
  | Some q => if Qeq_bool q 0 then dflt else q
  | None => dflt
  end.

(** A thrown exception or a returned value. *)
Inductive result (A : Type) : Type :=
| Return (a : A)
| Throw (message : string).
Arguments Return {A} a.
Arguments Throw {A} message.

(** A truthy value of the request body that the code hands over as an
    object id or as a date: one that is well formed, or one that is not (a
    string that is no object id, a string [new Date] reads as
    [Invalid Date]). *)
Inductive parsed (A : Type) : Type :=
| Valid (a : A)
| Invalid.
Arguments Valid {A} a.
Arguments Invalid {A}.

End JS.

(* ------------------------------------------------------------------ *)
(** * The primitive doubles

    Rocq's primitive binary64 floats (IEEE 754, rounding to the nearest
    with ties to even), to compare [JS.fl] with. *)

Module Float64.

(** The rational a finite double denotes. *)
Definition toQ (f : float) : option Q :=
  match Prim2SF f with
  | S754_zero _ => Some 0%Q
  | S754_finite s m e =>
    Some (Qred ((if s then -1 else 1) * inject_Z (Zpos m) * JS.pow2 e))%Q
  | _ => None
  end.

Definition ofZ (z : Z) : float := PrimFloat.of_uint63 (Uint63.of_Z z).

Definition agree (q : Q) (f : float) : bool :=
  match toQ f with
  | Some r => Qeq_bool q r
  | None => false
  end.

(** [S * (n / 30)] of [calcSalaryForMonth], [S / 30 * n * 100 / 100] of
    [calculateSalary] and a sum, for a salary of [cents] hundredths. *)
Definition salaryAgrees (cents n : Z) : bool :=
  let s := PrimFloat.div (ofZ cents) (ofZ 100) in
  let S := JS.over (inject_Z cents) (inject_Z 100) in
  let N := inject_Z n in
  agree (JS.times S (JS.over N (inject_Z 30)))
    (PrimFloat.mul s (PrimFloat.div (ofZ n) (ofZ 30)))
  && agree
       (JS.over (JS.times (JS.times (JS.over S (inject_Z 30)) N) (inject_Z 100))
          (inject_Z 100))
       (PrimFloat.div
          (PrimFloat.mul
             (PrimFloat.mul (PrimFloat.div s (ofZ 30)) (ofZ n)) (ofZ 100))
          (ofZ 100))
  && agree (JS.plus S (JS.over N (inject_Z 30)))
       (PrimFloat.add s (PrimFloat.div (ofZ n) (ofZ 30))).

(** The same on subnormal doubles: [a * 2 ^ -1070] divided by [b]. *)
Definition tinyAgrees (a b : Z) : bool :=
  agree (JS.over (inject_Z a * JS.pow2 (-1070)) (inject_Z b))
    (PrimFloat.div (Z.ldexp (ofZ a) (-1070)) (ofZ b)).

Definition range (a k step : Z) : list Z :=
  map (fun i => (a + Z.of_nat i * step)%Z) (seq 0 (Z.to_nat k)).

End Float64.

(* ------------------------------------------------------------------ *)
(** * Collections of documents *)

Module Mongo.

Definition ObjectId := nat.

(** The condition a query puts on a String path, as the request body gives
    it.  A string is compared for equality.  An object whose keys are
    operators is applied as such: [{ $ne: s }], [{ $in: l }], [{ $nin: l }]
    and [{ $exists: b }] are modelled (the comparison and pattern operators
    are not).  Any other object, or an array, is refused by the cast of the
    query, and by the cast of a document path, with a CastError. *)
Inductive Cond : Type :=
| Str (s : string)
| Ne (s : string)
| OneOf (l : list string)
| NoneOf (l : list string)
| Exists (b : bool)
| Uncastable.

Definition castable (c : Cond) : bool :=
  match c with
  | Uncastable => false
  | _ => true
  end.

(** Whether the stored string [v] satisfies the condition. *)
Definition matches (c : Cond) (v : string) : bool :=
  match c with
  | Str s => v =? s
  | Ne s => negb (v =? s)
  | OneOf l => existsb (String.eqb v) l
  | NoneOf l => negb (existsb (String.eqb v) l)
  | Exists b => b
  | Uncastable => false
  end.

(** Truthiness of such a value: of the strings the empty one is falsy, an
    object or an array never is. *)
Definition truthy (c : Cond) : bool :=
  match c with
  | Str s => negb (s =? "")
  | _ => true
  end.

(** The cast of a value to a String path of a document. *)
Definition castString (c : Cond) : option string :=
  match c with
  | Str s => Some s
  | _ => None
  end.

(** The message of a CastError.  Its text, which goes on with the value
    and the path, is not modelled: what is stated of an answer that carries
    it is its status. *)
Definition castError : string := "Cast to string failed".

Section Collection.

Context {A : Type}.

Definition findOne (p : A -> bool) (c : list A) : option A := find p c.

Definition findAll (p : A -> bool) (c : list A) : list A := filter p c.

Definition countDocuments (p : A -> bool) (c : list A) : nat :=
  List.length (filter p c).

Definition deleteMany (p : A -> bool) (c : list A) : list A :=
  filter (fun x => negb (p x)) c.

Fixpoint deleteFirst (p : A -> bool) (c : list A) : list A :=
  match c with
  | [] => []
  | x :: r => if p x then r else x :: deleteFirst p r
  end.

Fixpoint updateFirst (p : A -> bool) (u : A -> A) (c : list A) : list A :=
  match c with
  | [] => []
  | x :: r => if p x then u x :: r else x :: updateFirst p u r
  end.

(** [findOneAndDelete]: the removed document, if any, and what is left. *)
Definition findOneAndDelete (p : A -> bool) (c : list A) : option A * list A :=
  (find p c, deleteFirst p c).

(** [findOneAndUpdate(filter, update, { new: true })]: the first match is
    rewritten where it stands; the updated document is returned. *)
Definition findOneAndUpdate (p : A -> bool) (u : A -> A) (c : list A)
  : option A * list A :=
  match find p c with
  | Some x => (Some (u x), updateFirst p u c)
  | None => (None, c)
  end.

(** The same with [upsert: true]: without a match, [fresh] is appended.
    The boolean tells whether a document was inserted. *)
Definition findOneAndUpsert (p : A -> bool) (u : A -> A) (fresh : A)
  (c : list A) : A * list A * bool :=
  match find p c with
  | Some x => (u x, updateFirst p u c, false)
  | None => (fresh, (c ++ [fresh])%list, true)
  end.

End Collection.

End Mongo.

(* ------------------------------------------------------------------ *)
(** * JSON values and HTTP responses *)

Module Http.

#[local] Set Warnings "-register-all".

Inductive Json : Type :=
| JNull
| JBool (b : bool)
| JNum (q : Q)
| JStr (s : string)
| JId (n : Mongo.ObjectId)
| JDate (t : Z)
| JArr (l : list Json)
| JObj (fields : list (string * Json))
(** the PDF document drawn from a payslip *)
| JPdf (content : Json).

Fixpoint lookup (k : string) (fields : list (string * Json)) : option Json :=
  match fields with
  | [] => None
  | (k', v) :: r => if k' =? k then Some v else lookup k r
  end.

Definition field (k : string) (j : Json) : option Json :=
  match j with
  | JObj fields => lookup k fields
  | _ => None
  end.

Definition optStr (o : option string) : Json :=
  match o with
  | Some s => JStr s
  | None => JNull
  end.

Record Response : Type := mkResponse {
  status : Z;
  body : Json;
  (** cookies set ([Some v]) or cleared ([None]) by the response *)
  cookies : list (string * option string)
}.

(** [res.status(code).json(j)]; [res.json(j)] answers 200. *)
Definition json (code : Z) (j : Json) : Response :=
  {| status := code; body := j; cookies := [] |}.

Definition errorBody (msg : string) : Json := JObj [("error", JStr msg)].

Definition failBody (msg : string) : Json :=
  JObj [("ok", JBool false); ("error", JStr msg)].

End Http.

(* ------------------------------------------------------------------ *)
(** * The e-mail based schema

    [src/backend/index.js] and the header and cookie services declare the
    same two schemas and the same [startOfMonth], [endOfMonth] and
    [calcSalaryForMonth]; they are written once here. *)

Module Email.

Import Mongo Http JS.

Record Employee : Type := mkEmployee {
  _id : ObjectId;
  name : option string;
  email : string;
  password : string;
  role : string;
  monthlySalary : Q;
  designation : option string
}.

Record Attendance : Type := mkAttendance {
  a_id : ObjectId;
  employee : ObjectId;
  date : Z;
  status : string
}.

Record Store : Type := mkStore {
  employees : list Employee;
  attendance : list Attendance;
  nextId : ObjectId
}.

Record Request : Type := mkRequest {
  body_name : option string;
  body_email : option string;
  body_password : option string;
  body_role : option string;
  body_monthlySalary : option Q;
  body_designation : option string;
  body_employee : option ObjectId;
  body_date : option Z;
  body_status : option string;
  query_employeeId : option ObjectId;
  query_month : option Z;
  query_year : option Z;
  params_id : ObjectId;
  header_x_user_email : option string;
  cookie_userEmail : option string
}.

Definition noRequest : Request :=
  mkRequest None None None None None None None None None None None None
            0%nat None None.

Definition optField (k : string) (o : option string) : list (string * Json) :=
  match o with
  | Some s => [(k, JStr s)]
  | None => []
  end.

(** The JSON form of a stored employee: every stored path, the password
    among them. *)
Definition employeeJSON (e : Employee) : Json :=
  JObj ([("_id", JId (_id e))] ++ optField "name" (name e)
        ++ [("email", JStr (email e)); ("password", JStr (password e));
            ("role", JStr (role e)); ("monthlySalary", JNum (monthlySalary e))]
        ++ optField "designation" (designation e))%list.

Definition attendanceJSON (a : Attendance) : Json :=
  JObj [("_id", JId (a_id a)); ("employee", JId (employee a));
        ("date", JDate (date a)); ("status", JStr (status a))].

Definition findById (id : ObjectId) (c : list Employee) : option Employee :=
  findOne (fun e => (_id e =? id)%nat) c.

Definition roleEnum (r : string) : bool := (r =? "admin") || (r =? "employee").

(** [Employee.create] / [new Employee(..).save()]: the validators of the
    schema (required e-mail and password, role within its enum) and the
    unique index on the e-mail.  The texts of the errors stand for those of
    the library. *)
Definition saveEmployee (st : Store) (nm : option string)
  (em pw : option string) (rl : option string) (sal : option Q)
  (des : option string) : result (Employee * Store) :=
  match em, pw with
  | Some em, Some pw =>
    let rl := match rl with Some r => r | None => "employee" end in
    if (em =? "") || (pw =? "") || negb (roleEnum rl)
    then Throw "Employee validation failed"
    else if existsb (fun e => email e =? em) (employees st)
    then Throw "E11000 duplicate key error"
    else
      let emp := {| _id := nextId st; name := nm; email := em;
                    password := pw; role := rl;
                    monthlySalary := match sal with
                                     | Some q => q
                                     | None => inject_Z 30000
                                     end;
                    designation := des |} in
      Return (emp, {| employees := (employees st ++ [emp])%list;
                      attendance := attendance st;
                      nextId := S (nextId st) |})
  | _, _ => Throw "Employee validation failed"
  end.

Record SalarySlip : Type := mkSalarySlip {
  slip_employee : Employee;
  slip_year : Z;
  slip_month : Z;
  presentDays : nat;
  calculatedSalary : Q
}.

Definition salarySlipJSON (s : SalarySlip) : Json :=
  JObj [("employee", employeeJSON (slip_employee s));
        ("year", JNum (inject_Z (slip_year s)));
        ("month", JNum (inject_Z (slip_month s)));
        ("presentDays", JNum (ofNat (presentDays s)));
        ("calculatedSalary", JNum (calculatedSalary s))].

Section Zone.

Variable LocalTZA : Z.

Definition startOfMonth (y m : Z) : Z :=
  JSDate.newDate LocalTZA y (m - 1) 1 0 0 0 0.

Definition endOfMonth (y m : Z) : Z :=
  JSDate.newDate LocalTZA y m 0 23 59 59 999.

(** The filter [{ employee: id, date: { $gte: from, $lte: to },
    status: 'present' }]. *)
Definition presentIn (id : ObjectId) (from to : Z) (a : Attendance) : bool :=
  (employee a =? id)%nat && (from <=? date a)%Z && (date a <=? to)%Z
  && (status a =? "present").

Definition calcSalaryForMonth (st : Store) (id : ObjectId) (y m : Z)
  : result SalarySlip :=
  match findById id (employees st) with
  | None => Throw "Employee not found"
  | Some emp =>
    let from := startOfMonth y m in
    let to := endOfMonth y m in
    let presentCount := countDocuments (presentIn id from to) (attendance st) in
    let salary :=
      times (monthlySalary emp) (over (ofNat presentCount) (inject_Z 30)) in
    Return {| slip_employee := emp;
              slip_year := y;
              slip_month := m;
              presentDays := presentCount;
              calculatedSalary := Math_round salary |}
  end.

(** [GET /salary/generate] after the gate of the variant, if any. *)
Definition salaryGenerate (st : Store) (req : Request) : Response :=
  match query_employeeId req, query_month req, query_year req with
  | Some employeeId, Some month, Some year =>
    match calcSalaryForMonth st employeeId year month with
    | Return slip =>
      json 200 (JObj [("ok", JBool true); ("salarySlip", salarySlipJSON slip)])
    | Throw msg => json 500 (errorBody msg)
    end
  | _, _, _ => json 400 (errorBody "employeeId,month,year required")
  end.

(** [POST /auth/login] of the three services up to the cookie: the lookup
    [Employee.findOne({ email, password })].  A field the body lacks
    reaches the store as null and matches no employee, both paths being
    required ones. *)
Definition findByCredentials (st : Store) (req : Request) : option Employee :=
  match body_email req, body_password req with
  | Some em, Some pw =>
    findOne (fun e => (email e =? em) && (password e =? pw)) (employees st)
  | _, _ => None
  end.

(** The same lookup for any two values of the body, which reach
    [Employee.findOne] unchecked: an object of operators is applied as the
    condition on its path, a value the cast refuses makes the lookup throw.
    [Request] above holds the bodies whose two fields are strings. *)
Definition uncastable (o : option Cond) : bool :=
  match o with
  | Some c => negb (castable c)
  | None => false
  end.

Definition findOneByCredentials (st : Store) (em pw : option Cond)
  : result (option Employee) :=
  if uncastable em || uncastable pw then Throw castError
  else
    match em, pw with
    | Some em, Some pw =>
      Return (findOne (fun e => matches em (email e) && matches pw (password e))
                (employees st))
    | _, _ => Return None
    end.

End Zone.

End Email.

(* ------------------------------------------------------------------ *)
(** * [src/backend/index.js] *)

Module Backend.

Import Mongo Http JS Email.

(** [POST /auth/login] *)
Definition login (st : Store) (req : Request) : Response :=
  match findByCredentials st req with
  | None => json 401 (errorBody "invalid email or password")
  | Some user =>
    json 200 (JObj [("ok", JBool true); ("message", JStr "Login success");
                    ("user", employeeJSON user)])
  end.

(** [POST /auth/login] on any two values [email] and [password] of the
    body; the [catch] of the handler answers 500. *)
Definition loginBody (st : Store) (em pw : option Cond) : Response :=
  match findOneByCredentials st em pw with
  | Throw msg => json 500 (errorBody msg)
  | Return None => json 401 (errorBody "invalid email or password")
  | Return (Some user) =>
    json 200 (JObj [("ok", JBool true); ("message", JStr "Login success");
                    ("user", employeeJSON user)])
  end.

(** [POST /employees] *)
Definition postEmployees (st : Store) (req : Request) : Store * Response :=
  match saveEmployee st (body_name req) (body_email req) (body_password req)
          (body_role req) (body_monthlySalary req) (body_designation req) with
  | Return (emp, st') =>
    (st', json 200 (JObj [("ok", JBool true); ("employee", employeeJSON emp)]))
  | Throw msg => (st, json 500 (errorBody msg))
  end.

(** [GET /employees] *)
Definition getEmployees (st : Store) : Response :=
  json 200 (JObj [("ok", JBool true);
                  ("employees", JArr (map employeeJSON (employees st)))]).

(** [DELETE /employees/:id]: the attendance of the id goes first, then the
    employee. *)
Definition deleteEmployee (st : Store) (req : Request) : Store * Response :=
  let id := params_id req in
  let atts := deleteMany (fun a => (employee a =? id)%nat) (attendance st) in
  let '(emp, emps) :=
    findOneAndDelete (fun e => (_id e =? id)%nat) (employees st) in
  let st' := {| employees := emps; attendance := atts; nextId := nextId st |} in
  match emp with
  | None => (st', json 404 (errorBody "not found"))
  | Some e =>
    (st', json 200 (JObj [("ok", JBool true); ("deleted", employeeJSON e)]))
  end.

(** [POST /auth/register] *)
Definition register (st : Store) (req : Request) : Store * Response :=
  match body_email req, body_password req with
  | Some em, Some pw =>
    if (em =? "") || (pw =? "")
    then (st, json 400 (errorBody "email and password required"))
    else
      match findOne (fun e => email e =? em) (employees st) with
      | Some _ => (st, json 400 (errorBody "user already exists"))
      | None =>
        match saveEmployee st (body_name req) (Some em) (Some pw)
                (body_role req) (body_monthlySalary req)
                (body_designation req) with
        | Return (emp, st') =>
          (st', json 200 (JObj [("ok", JBool true);
                                ("message", JStr "Registered");
                                ("user", employeeJSON emp)]))
        | Throw msg => (st, json 500 (errorBody msg))
        end
      end
  | _, _ => (st, json 400 (errorBody "email and password required"))
  end.



(** [POST /seed-default]: each default account is saved unless its e-mail
    is stored already. *)
Definition seedOne (st : Store) (nm em pw rl : string) (sal : Z)
  (des : string) : result Store :=
  match findOne (fun e => email e =? em) (employees st) with
  | Some _ => Return st
  | None =>
    match saveEmployee st (Some nm) (Some em) (Some pw) (Some rl)
            (Some (inject_Z sal)) (Some des) with
    | Return (_, st') => Return st'
    | Throw msg => Throw msg
    end
  end.

Definition seedDefault (st : Store) : Store * Response :=
  match seedOne st "Admin" "admin@pavakie.com" "admin123" "admin" 50000
          "HR Manager" with
  | Throw msg => (st, json 500 (errorBody msg))
  | Return st1 =>
    match seedOne st1 "Sample Employee" "employee@pavakie.com" "emp123"
            "employee" 30000 "Developer" with
    | Throw msg => (st1, json 500 (errorBody msg))
    | Return st2 =>
      (st2, json 200 (JObj [("ok", JBool true); ("message", JStr "seeded")]))
    end
  end.

Section Zone.

Variable LocalTZA : Z.

(** The filter of the upsert: the employee, and a date within the day
    rebuilt from the local year, month and day of [d]. *)
Definition sameDay (e : ObjectId) (d : Z) (a : Attendance) : bool :=
  let y := JSDate.getFullYear LocalTZA d in
  let m := JSDate.getMonth LocalTZA d in
  let dd := JSDate.getDate LocalTZA d in
  (employee a =? e)%nat
  && (JSDate.newDate LocalTZA y m dd 0 0 0 0 <=? date a)%Z
  && (date a <=? JSDate.newDate LocalTZA y m dd 23 59 59 999)%Z.

(** The update [{ employee, status, date: d }]: an undefined status is not
    part of the update. *)
Definition setFields (e : ObjectId) (st : option string) (d : Z)
  (a : Attendance) : Attendance :=
  {| a_id := a_id a;
     employee := e;
     date := d;
     status := match st with Some s => s | None => status a end |}.

(** The document an upsert inserts; [setDefaultsOnInsert] gives a missing
    status its default. *)
Definition inserted (id e : ObjectId) (st : option string) (d : Z)
  : Attendance :=
  {| a_id := id;
     employee := e;
     date := d;
     status := match st with Some s => s | None => "present" end |}.

(** [POST /attendance] *)
Definition postAttendance (st : Store) (req : Request) : Store * Response :=
  match body_employee req, body_date req with
  | Some e, Some d =>
    let '(att, atts, isNew) :=
      findOneAndUpsert (sameDay e d) (setFields e (body_status req) d)
        (inserted (nextId st) e (body_status req) d) (attendance st) in
    ({| employees := employees st;
        attendance := atts;
        nextId := if isNew then S (nextId st) else nextId st |},
     json 200 (JObj [("ok", JBool true); ("attendance", attendanceJSON att)]))
  | _, _ => (st, json 400 (errorBody "employee and date required"))
  end.

(** Whether [d] and the two bounds of the filter are dates. *)
Definition dayIsDate (d : Z) : bool :=
  let y := JSDate.getFullYear LocalTZA d in
  let m := JSDate.getMonth LocalTZA d in
  let dd := JSDate.getDate LocalTZA d in
  JSDate.isDate d
  && JSDate.isDate (JSDate.newDate LocalTZA y m dd 0 0 0 0)
  && JSDate.isDate (JSDate.newDate LocalTZA y m dd 23 59 59 999).

(** [POST /attendance] on any truthy [employee] and [date] of the body: an
    [employee] that is no object id, a date [new Date] cannot parse (the
    bounds of the filter are then [Invalid Date]) and a day that reaches
    beyond the range of dates (one bound is [Invalid Date]) make
    [findOneAndUpdate] throw a CastError, which the [catch] answers with
    500. *)
Definition postAttendanceBody (st : Store) (employee : option (parsed ObjectId))
  (date : option (parsed Z)) (status : option string) : Store * Response :=
  match employee, date with
  | Some employee, Some date =>
    match employee, date with
    | Valid e, Valid d =>
      if dayIsDate d
      then
        let '(att, atts, isNew) :=
          findOneAndUpsert (sameDay e d) (setFields e status d)
            (inserted (nextId st) e status d) (attendance st) in
        ({| employees := employees st;
            attendance := atts;
            nextId := if isNew then S (nextId st) else nextId st |},
         json 200
           (JObj [("ok", JBool true); ("attendance", attendanceJSON att)]))
      else (st, json 500 (errorBody castError))
    | _, _ => (st, json 500 (errorBody castError))
    end
  | _, _ => (st, json 400 (errorBody "employee and date required"))
  end.

(** [GET /attendance]: the query built from [employeeId], [month], [year];
    [populate('employee')] puts the employee, or null, for its id. *)
Definition attendanceQuery (req : Request) (a : Attendance) : bool :=
  match query_employeeId req with
  | Some id => (employee a =? id)%nat
  | None => true
  end
  && match query_month req, query_year req with
     | Some month, Some year =>
       (startOfMonth LocalTZA year month <=? date a)%Z
       && (date a <=? endOfMonth LocalTZA year month)%Z
     | _, _ => true
     end.

Definition populated (st : Store) (a : Attendance) : Json :=
  JObj [("_id", JId (a_id a));
        ("employee", match findById (employee a) (employees st) with
                     | Some e => employeeJSON e
                     | None => JNull
                     end);
        ("date", JDate (date a)); ("status", JStr (status a))].

Definition findAttendance (st : Store) (req : Request) : list Attendance :=
  findAll (attendanceQuery req) (attendance st).

Definition getAttendance (st : Store) (req : Request) : Response :=
  json 200 (JObj [("ok", JBool true);
                  ("attendance",
                   JArr (map (populated st) (findAttendance st req)))]).

(** [GET /salary/generate] *)
Definition getSalaryGenerate (st : Store) (req : Request) : Response :=
  salaryGenerate LocalTZA st req.

(** [GET /dashboard]; [now] is the instant of [new Date()]. *)
Record Dashboard : Type := mkDashboard {
  dash_month : Z;
  dash_year : Z;
  totalEmployees : nat;
  present : nat;
  leave : nat;
  totalSalary : Q
}.

Definition withStatus (from to : Z) (s : string) (a : Attendance) : bool :=
  (from <=? date a)%Z && (date a <=? to)%Z && (status a =? s).

Definition dashboardOf (now : Z) (st : Store) (req : Request) : Dashboard :=
  let m := match query_month req with
           | Some month => month
           | None => (JSDate.getMonth LocalTZA now + 1)%Z
           end in
  let y := match query_year req with
           | Some year => year
           | None => JSDate.getFullYear LocalTZA now
           end in
  let from := startOfMonth LocalTZA y m in
  let to := endOfMonth LocalTZA y m in
  {| dash_month := m;
     dash_year := y;
     totalEmployees := countDocuments (fun _ => true) (employees st);
     present := countDocuments (withStatus from to "present") (attendance st);
     leave := countDocuments (withStatus from to "leave") (attendance st);
     totalSalary :=
       fold_left
         (fun totalSalary e =>
            let presentDays :=
              countDocuments (presentIn (_id e) from to) (attendance st) in
            plus totalSalary
              (Math_round (times (monthlySalary e)
                             (over (ofNat presentDays) (inject_Z 30)))))
         (employees st) (inject_Z 0) |}.

Definition getDashboard (now : Z) (st : Store) (req : Request) : Response :=
  let d := dashboardOf now st req in
  json 200 (JObj [("ok", JBool true);
                  ("month", JNum (inject_Z (dash_month d)));
                  ("year", JNum (inject_Z (dash_year d)));
                  ("totalEmployees", JNum (ofNat (totalEmployees d)));
                  ("present", JNum (ofNat (present d)));
                  ("leave", JNum (ofNat (leave d)));
                  ("totalSalary", JNum (totalSalary d))]).

End Zone.

End Backend.

(* ------------------------------------------------------------------ *)
(** * The header and cookie services *)

(** What the two services share: the routes behind the [auth] middleware.
    [caller] is the credential the middleware reads (the [x-user-email]
    header or the [userEmail] cookie). *)
Module Gated.

Import Mongo Http JS Email.

Section Gate.

Variable caller : Request -> option string.
Variable unknownCaller : string.

(** [auth]: the employee of the e-mail, or the 401 answer. *)
Definition auth (st : Store) (req : Request) : Employee + Response :=
  match caller req with
  | Some em =>
    if em =? "" then inr (json 401 (errorBody "not logged in"))
    else match findOne (fun e => email e =? em) (employees st) with
         | Some user => inl user
         | None => inr (json 401 (errorBody unknownCaller))
         end
  | None => inr (json 401 (errorBody "not logged in"))
  end.

(** [app.METHOD(path, auth, handler)] *)
Definition gated (handler : Store -> Request -> Store * Response)
  (st : Store) (req : Request) : Store * Response :=
  match auth st req with
  | inl _ => handler st req
  | inr denied => (st, denied)
  end.

Variable LocalTZA : Z.

(** [POST /attendance]: [d] is one Date object; the two [setHours] calls
    change it in turn, and the update stores it as the second left it. *)
Definition inDay (e : ObjectId) (from to : Z) (a : Attendance) : bool :=
  (employee a =? e)%nat && (from <=? date a)%Z && (date a <=? to)%Z.

Definition upsertAttendance (st : Store) (req : Request) : Store * Response :=
  match body_employee req, body_date req with
  | Some e, Some date =>
    let d := date in
    let d := JSDate.setHours LocalTZA d 0 0 0 0 in
    let from := d in
    let d := JSDate.setHours LocalTZA d 23 59 59 999 in
    let to := d in
    let '(att, atts, isNew) :=
      findOneAndUpsert (inDay e from to)
        (Backend.setFields e (body_status req) d)
        (Backend.inserted (nextId st) e (body_status req) d)
        (attendance st) in
    ({| employees := employees st;
        attendance := atts;
        nextId := if isNew then S (nextId st) else nextId st |},
     json 200 (JObj [("ok", JBool true); ("attendance", attendanceJSON att)]))
  | _, _ => (st, json 400 (errorBody "employee and date required"))
  end.

Definition postAttendance := gated upsertAttendance.

(** Whether [d] stays a date under the two [setHours] calls. *)
Definition dayIsDate (d : Z) : bool :=
  JSDate.isDate d
  && JSDate.isDate (JSDate.setHours LocalTZA d 0 0 0 0)
  && JSDate.isDate
       (JSDate.setHours LocalTZA (JSDate.setHours LocalTZA d 0 0 0 0)
          23 59 59 999).

(** The same handler on any truthy [employee] and [date] of the body; a
    value that is no object id or no date, and a day that reaches beyond
    the range of dates, end in a CastError and 500. *)
Definition upsertAttendanceBody (st : Store)
  (employee : option (parsed ObjectId)) (date : option (parsed Z))
  (status : option string) : Store * Response :=
  match employee, date with
  | Some employee, Some date =>
    match employee, date with
    | Valid e, Valid date =>
      if dayIsDate date
      then
        let d := date in
        let d := JSDate.setHours LocalTZA d 0 0 0 0 in
        let from := d in
        let d := JSDate.setHours LocalTZA d 23 59 59 999 in
        let to := d in
        let '(att, atts, isNew) :=
          findOneAndUpsert (inDay e from to) (Backend.setFields e status d)
            (Backend.inserted (nextId st) e status d) (attendance st) in
        ({| employees := employees st;
            attendance := atts;
            nextId := if isNew then S (nextId st) else nextId st |},
         json 200
           (JObj [("ok", JBool true); ("attendance", attendanceJSON att)]))
      else (st, json 500 (errorBody castError))
    | _, _ => (st, json 500 (errorBody castError))
    end
  | _, _ => (st, json 400 (errorBody "employee and date required"))
  end.

(** [GET /employees] *)
Definition getEmployees :=
  gated (fun st _ => (st, Backend.getEmployees st)).

(** [GET /salary/generate] *)
Definition getSalaryGenerate :=
  gated (fun st req => (st, salaryGenerate LocalTZA st req)).

End Gate.

End Gated.

Module Header.

Import Mongo Http JS Email.

Definition auth := Gated.auth header_x_user_email "invalid user".
Definition gated := Gated.gated header_x_user_email "invalid user".

(** [POST /auth/login] *)
Definition login := Backend.login.
Definition loginBody := Backend.loginBody.

(** [POST /employees] *)
Definition createEmployee (st : Store) (req : Request) : Store * Response :=
  if negb (truthyStr (body_name req)) || negb (truthyStr (body_email req))
  then (st, json 400 (errorBody "name and email required"))
  else
    match saveEmployee st (body_name req) (body_email req)
            (Some (orStr (body_password req) "emp123"))
            (Some (orStr (body_role req) "employee"))
            (Some (orNum (body_monthlySalary req) (inject_Z 30000)))
            (Some (orStr (body_designation req) "")) with
    | Return (emp, st') =>
      (st', json 200 (JObj [("ok", JBool true);
                            ("employee", employeeJSON emp)]))
    | Throw msg => (st, json 500 (errorBody msg))
    end.

Definition postEmployees := gated createEmployee.

(** [DELETE /employees/:id]: the employee document alone. *)
Definition removeEmployee (st : Store) (req : Request) : Store * Response :=
  let '(deleted, emps) :=
    findOneAndDelete (fun e => (_id e =? params_id req)%nat) (employees st) in
  match deleted with
  | None => (st, json 404 (errorBody "Employee not found"))
  | Some _ =>
    ({| employees := emps; attendance := attendance st; nextId := nextId st |},
     json 200 (JObj [("ok", JBool true);
                     ("message", JStr "Employee deleted successfully")]))
  end.

Definition deleteEmployee := gated removeEmployee.

Definition postAttendance :=
  Gated.postAttendance header_x_user_email "invalid user".
Definition getEmployees :=
  Gated.getEmployees header_x_user_email "invalid user".
Definition getSalaryGenerate :=
  Gated.getSalaryGenerate header_x_user_email "invalid user".

End Header.

Module Cookie.

Import Mongo Http JS Email.

Definition auth := Gated.auth cookie_userEmail "invalid session".

(** [POST /auth/login]: a success also sets the [userEmail] cookie. *)
Definition login (st : Store) (req : Request) : Response :=
  match findByCredentials st req with
  | None => json 401 (errorBody "invalid email or password")
  | Some user =>
    mkResponse 200
      (JObj [("ok", JBool true); ("message", JStr "Login success");
             ("user", employeeJSON user)])
      [("userEmail", Some (email user))]
  end.

Definition loginBody (st : Store) (em pw : option Cond) : Response :=
  match findOneByCredentials st em pw with
  | Throw msg => json 500 (errorBody msg)
  | Return None => json 401 (errorBody "invalid email or password")
  | Return (Some user) =>
    mkResponse 200
      (JObj [("ok", JBool true); ("message", JStr "Login success");
             ("user", employeeJSON user)])
      [("userEmail", Some (email user))]
  end.

(** [POST /auth/logout] *)
Definition logout : Response :=
  mkResponse 200
    (JObj [("ok", JBool true); ("message", JStr "Logged out")])
    [("userEmail", None)].

Definition postAttendance :=
  Gated.postAttendance cookie_userEmail "invalid session".
Definition getEmployees :=
  Gated.getEmployees cookie_userEmail "invalid session".
Definition getSalaryGenerate :=
  Gated.getSalaryGenerate cookie_userEmail "invalid session".

End Cookie.

(* ------------------------------------------------------------------ *)
(** * The username based service *)

Module Username.

Import Mongo Http JS.

Record Employee : Type := mkEmployee {
  _id : ObjectId;
  name : string;
  username : string;
  password : string;
  role : string;
  salary : Q;
  empId : string
}.

Record Attendance : Type := mkAttendance {
  a_id : ObjectId;
  employee : ObjectId;
  date : Z;
  status : string
}.

Record Store : Type := mkStore {
  employees : list Employee;
  attendance : list Attendance;
  nextId : ObjectId
}.

(** [req.body] *)
Record Request : Type := mkRequest {
  body_username : option string;
  body_password : option string;
  body_name : option string;
  body_username_new : option string;
  body_password_new : option string;
  body_salary : option Q;
  body_empId : option string;
  body_employeeId : option ObjectId;
  body_date : option Z;
  body_status : option string;
  body_month : option Z;
  body_year : option Z
}.

(** The store after the start-up: the database dropped, the default
    administrator created. *)
Definition seeded : Store :=
  {| employees := [ {| _id := 0%nat; name := "System Admin";
                       username := "admin"; password := "admin123";
                       role := "admin"; salary := inject_Z 50000;
                       empId := "ADMIN001" |} ];
     attendance := [];
     nextId := 1%nat |}.

Definition employeeJSON (e : Employee) : Json :=
  JObj [("_id", JId (_id e)); ("name", JStr (name e));
        ("username", JStr (username e)); ("password", JStr (password e));
        ("role", JStr (role e)); ("salary", JNum (salary e));
        ("empId", JStr (empId e))].

(** [.select('-password')], and [delete employeeData.password] *)
Definition withoutPassword (e : Employee) : Json :=
  JObj [("_id", JId (_id e)); ("name", JStr (name e));
        ("username", JStr (username e));
        ("role", JStr (role e)); ("salary", JNum (salary e));
        ("empId", JStr (empId e))].

Definition findById (id : ObjectId) (c : list Employee) : option Employee :=
  findOne (fun e => (_id e =? id)%nat) c.

(** [.populate('employee', 'name empId username')] *)
Definition populated (st : Store) (a : Attendance) : Json :=
  JObj [("_id", JId (a_id a));
        ("employee", match findById (employee a) (employees st) with
                     | Some e => JObj [("_id", JId (_id e));
                                       ("name", JStr (name e));
                                       ("empId", JStr (empId e));
                                       ("username", JStr (username e))]
                     | None => JNull
                     end);
        ("date", JDate (date a)); ("status", JStr (status a))].

Definition attendanceJSON (a : Attendance) : Json :=
  JObj [("_id", JId (a_id a)); ("employee", JId (employee a));
        ("date", JDate (date a)); ("status", JStr (status a))].

(** [.sort({ date: -1 })] *)
Fixpoint insertByDate (a : Attendance) (l : list Attendance) : list Attendance :=
  match l with
  | [] => [a]
  | b :: r => if (date b <? date a)%Z then a :: l else b :: insertByDate a r
  end.

Definition sortByDateDesc (l : list Attendance) : list Attendance :=
  fold_right insertByDate [] l.

Record Payslip : Type := mkPayslip {
  slip_employee : Employee;
  slip_year : Z;
  slip_month : Z;
  presentDays : nat;
  totalDaysInMonth : Z;
  baseSalary : Q;
  perDaySalary : Q;
  calculatedSalary : Q
}.

Definition payslipJSON (p : Payslip) : Json :=
  JObj [("employee", employeeJSON (slip_employee p));
        ("year", JNum (inject_Z (slip_year p)));
        ("month", JNum (inject_Z (slip_month p)));
        ("presentDays", JNum (ofNat (presentDays p)));
        ("totalDaysInMonth", JNum (inject_Z (totalDaysInMonth p)));
        ("baseSalary", JNum (baseSalary p));
        ("perDaySalary", JNum (perDaySalary p));
        ("calculatedSalary", JNum (calculatedSalary p))].

Definition isAllowedStatus (s : string) : bool :=
  (s =? "present") || (s =? "absent").

(** The text [Status must be either "present" or "absent"], its quotation
    marks written by their code. *)
Definition quoted (s : string) : string :=
  let q := String (Ascii.ascii_of_nat 34) EmptyString in
  q ++ s ++ q.

Definition statusMessage : string :=
  "Status must be either " ++ quoted "present" ++ " or " ++ quoted "absent".

Section Zone.

Variable LocalTZA : Z.

Definition startOfMonth (y m : Z) : Z :=
  JSDate.newDate LocalTZA y (m - 1) 1 0 0 0 0.

Definition endOfMonth (y m : Z) : Z :=
  JSDate.newDate LocalTZA y m 0 23 59 59 999.

Definition startOfDay (date : Z) : Z := JSDate.setHours LocalTZA date 0 0 0 0.

Definition endOfDay (date : Z) : Z :=
  JSDate.setHours LocalTZA date 23 59 59 999.

Definition presentIn (id : ObjectId) (from to : Z) (a : Attendance) : bool :=
  (employee a =? id)%nat && (from <=? date a)%Z && (date a <=? to)%Z
  && (status a =? "present").

Definition calculateSalary (st : Store) (employeeId : ObjectId) (year month : Z)
  : result Payslip :=
  match findById employeeId (employees st) with
  | None => Throw "Employee not found"
  | Some emp =>
    let from := startOfMonth year month in
    let to := endOfMonth year month in
    let presentDays :=
      countDocuments (presentIn employeeId from to) (attendance st) in
    let perDaySalary := over (salary emp) (inject_Z 30) in
    let calculatedSalary := times perDaySalary (ofNat presentDays) in
    Return {| slip_employee := emp;
              slip_year := year;
              slip_month := month;
              presentDays := presentDays;
              totalDaysInMonth :=
                JSDate.getDate LocalTZA
                  (JSDate.newDate LocalTZA year month 0 0 0 0 0);
              baseSalary := salary emp;
              perDaySalary :=
                over (Math_round (times perDaySalary (inject_Z 100)))
                  (inject_Z 100);
              calculatedSalary :=
                over (Math_round (times calculatedSalary (inject_Z 100)))
                  (inject_Z 100)
           |}
  end.

(** ** Middlewares *)

Definition required (o : option string) : option string :=
  match o with
  | Some s => if s =? "" then None else Some s
  | None => None
  end.

Definition authenticate (st : Store) (req : Request) : Employee + Response :=
  match required (body_username req), required (body_password req) with
  | Some u, Some p =>
    match findOne (fun e => (username e =? u) && (password e =? p))
            (employees st)
    with
    | None => inr (json 401 (failBody "Invalid username or password"))
    | Some user => inl user
    end
  | _, _ =>
    inr (json 401 (failBody "Username and password required in request body"))
  end.

(** [authenticate] on any two values [username] and [password] of the
    body, which reach [Employee.findOne] unchecked once they are truthy; the
    [catch] answers a CastError with 500. *)
Definition requiredCond (o : option Cond) : option Cond :=
  match o with
  | Some c => if truthy c then Some c else None
  | None => None
  end.

Definition authenticateBody (st : Store) (u p : option Cond)
  : Employee + Response :=
  match requiredCond u, requiredCond p with
  | Some u, Some p =>
    if castable u && castable p
    then
      match findOne (fun e => matches u (username e) && matches p (password e))
              (employees st)
      with
      | None => inr (json 401 (failBody "Invalid username or password"))
      | Some user => inl user
      end
    else inr (json 500 (failBody castError))
  | _, _ =>
    inr (json 401 (failBody "Username and password required in request body"))
  end.

Definition accessDenied (msg : string) : Response := json 403 (failBody msg).

(** [adminOnly] and [employeeOnly]: [None] stands for [next()]. *)
Definition adminOnly (user : Employee) : option Response :=
  if negb (role user =? "admin")
  then Some (accessDenied "Access denied. Admin privileges required.")
  else None.

Definition employeeOnly (user : Employee) : option Response :=
  if negb (role user =? "employee")
  then Some (accessDenied "Access denied. Employee access only.")
  else None.

(** [app.post(path, authenticate, check, handler)] *)
Definition guarded (check : Employee -> option Response)
  (handler : Employee -> Store -> Request -> Store * Response)
  (st : Store) (req : Request) : Store * Response :=
  match authenticate st req with
  | inr denied => (st, denied)
  | inl user =>
    match check user with
    | Some denied => (st, denied)
    | None => handler user st req
    end
  end.

(** ** Logins *)

Definition loginAs (rl okMessage badMessage : string) (st : Store)
  (req : Request) : Response :=
  match required (body_username req), required (body_password req) with
  | Some u, Some p =>
    match findOne (fun e => (username e =? u) && (password e =? p)
                            && (role e =? rl)) (employees st)
    with
    | None => json 401 (failBody badMessage)
    | Some user =>
      json 200 (JObj [("ok", JBool true); ("message", JStr okMessage);
                      ("user", withoutPassword user)])
    end
  | _, _ => json 400 (failBody "Username and password required")
  end.

(** The logins on any two values [username] and [password] of the body. *)
Definition loginAsBody (rl okMessage badMessage : string) (st : Store)
  (u p : option Cond) : Response :=
  match requiredCond u, requiredCond p with
  | Some u, Some p =>
    if castable u && castable p
    then
      match findOne (fun e => matches u (username e) && matches p (password e)
                              && (role e =? rl)) (employees st)
      with
      | None => json 401 (failBody badMessage)
      | Some user =>
        json 200 (JObj [("ok", JBool true); ("message", JStr okMessage);
                        ("user", withoutPassword user)])
      end
    else json 500 (failBody castError)
  | _, _ => json 400 (failBody "Username and password required")
  end.

Definition adminLoginBody : Store -> option Cond -> option Cond -> Response :=
  loginAsBody "admin" "Admin login successful" "Invalid admin credentials".

Definition employeeLoginBody
  : Store -> option Cond -> option Cond -> Response :=
  loginAsBody "employee" "Employee login successful"
    "Invalid employee credentials".

(** [POST /admin/login] *)
Definition adminLogin : Store -> Request -> Response :=
  loginAs "admin" "Admin login successful" "Invalid admin credentials".

(** [POST /employee/login] *)
Definition employeeLogin : Store -> Request -> Response :=
  loginAs "employee" "Employee login successful" "Invalid employee credentials".

(** ** Employees (admin) *)

Definition createEmployee (_ : Employee) (st : Store) (req : Request)
  : Store * Response :=
  match required (body_name req), required (body_username_new req),
        required (body_password_new req), required (body_empId req) with
  | Some nm, Some username_new, Some password_new, Some eid =>
    match findOne (fun e => (username e =? username_new) || (empId e =? eid))
            (employees st) with
    | Some _ =>
      (st, json 400 (failBody "Username or Employee ID already exists"))
    | None =>
      let newEmployee :=
        {| _id := nextId st; name := nm; username := username_new;
           password := password_new; role := "employee";
           salary := orNum (body_salary req) (inject_Z 30000);
           empId := eid |} in
      ({| employees := (employees st ++ [newEmployee])%list;
          attendance := attendance st;
          nextId := S (nextId st) |},
       json 200
         (JObj [("ok", JBool true);
                ("message", JStr "Employee created successfully");
                ("employee", withoutPassword newEmployee);
                ("credentials", JObj [("username", JStr username_new);
                                      ("password", JStr password_new)])]))
    end
  | _, _, _, _ =>
    (st, json 400 (failBody
       "Name, username_new, password_new, and empId are required for the new employee"))
  end.

(** [.sort({ createdAt: -1 })]: the latest created first. *)
Definition listEmployees (_ : Employee) (st : Store) (_ : Request)
  : Store * Response :=
  let employees :=
    rev (findAll (fun e => role e =? "employee") (employees st)) in
  (st, json 200 (JObj [("ok", JBool true);
                       ("employees", JArr (map withoutPassword employees));
                       ("count", JNum (ofNat (List.length employees)))])).

Definition getEmployee (_ : Employee) (st : Store) (req : Request)
  : Store * Response :=
  match body_employeeId req with
  | None => (st, json 400 (failBody "Employee ID required"))
  | Some employeeId =>
    match findById employeeId (employees st) with
    | None => (st, json 404 (failBody "Employee not found"))
    | Some employee =>
      (st, json 200 (JObj [("ok", JBool true);
                           ("employee", withoutPassword employee)]))
    end
  end.

(** [updateData]: the truthy fields of the body. *)
Definition applyUpdate (req : Request) (e : Employee) : Employee :=
  {| _id := _id e;
     name := orStr (body_name req) (name e);
     username := orStr (body_username_new req) (username e);
     password := orStr (body_password_new req) (password e);
     role := role e;
     salary := orNum (body_salary req) (salary e);
     empId := orStr (body_empId req) (empId e) |}.

(** The unique indexes on [username] and [empId] refuse an update that
    would give the document the value of another one. *)
Definition clashes (id : ObjectId) (old new : Employee) (c : list Employee)
  : bool :=
  existsb (fun e => negb (_id e =? id)%nat
                    && ((negb (username new =? username old)
                         && (username e =? username new))
                        || (negb (empId new =? empId old)
                            && (empId e =? empId new))))
    c.

Definition updateEmployee (_ : Employee) (st : Store) (req : Request)
  : Store * Response :=
  match body_employeeId req with
  | None => (st, json 400 (failBody "Employee ID required"))
  | Some employeeId =>
    match findById employeeId (employees st) with
    | None => (st, json 404 (failBody "Employee not found"))
    | Some e =>
      if clashes employeeId e (applyUpdate req e) (employees st)
      then (st, json 500 (failBody "E11000 duplicate key error"))
      else
        ({| employees :=
              updateFirst (fun e => (_id e =? employeeId)%nat)
                (applyUpdate req) (employees st);
            attendance := attendance st;
            nextId := nextId st |},
         json 200 (JObj [("ok", JBool true);
                         ("message", JStr "Employee updated successfully");
                         ("employee", withoutPassword (applyUpdate req e))]))
    end
  end.

Definition deleteEmployee (_ : Employee) (st : Store) (req : Request)
  : Store * Response :=
  match body_employeeId req with
  | None => (st, json 400 (failBody "Employee ID required"))
  | Some employeeId =>
    let '(deleted, emps) :=
      findOneAndDelete (fun e => (_id e =? employeeId)%nat) (employees st) in
    match deleted with
    | None => (st, json 404 (failBody "Employee not found"))
    | Some _ =>
      (* Also delete all attendance records for this employee *)
      ({| employees := emps;
          attendance :=
            deleteMany (fun a => (employee a =? employeeId)%nat)
              (attendance st);
          nextId := nextId st |},
       json 200
         (JObj [("ok", JBool true);
                ("message",
                 JStr "Employee and related records deleted successfully")]))
    end
  end.

(** ** Attendance (admin) *)

(** The filter [{ employee, date: { $gte: startOfDay(d), $lte: endOfDay(d) } }]. *)
Definition onDay (employeeId : ObjectId) (d : Z) (a : Attendance) : bool :=
  (employee a =? employeeId)%nat
  && (startOfDay d <=? date a)%Z && (date a <=? endOfDay d)%Z.

Definition markAttendance (_ : Employee) (st : Store) (req : Request)
  : Store * Response :=
  match body_employeeId req, body_date req with
  | Some employeeId, Some date =>
    if truthyStr (body_status req)
       && negb (isAllowedStatus (orStr (body_status req) ""))
    then (st, json 400 (failBody statusMessage))
    else
      (* Check if employee exists *)
      match findById employeeId (employees st) with
      | None => (st, json 404 (failBody "Employee not found"))
      | Some _ =>
        let attendanceDate := startOfDay date in
        let record (id : ObjectId) :=
          {| a_id := id;
             employee := employeeId;
             date := attendanceDate;
             status := orStr (body_status req) "present" |} in
        let '(att, atts, isNew) :=
          findOneAndUpsert (onDay employeeId attendanceDate)
            (fun a => record (a_id a)) (record (nextId st)) (attendance st) in
        let st' := {| employees := employees st;
                      attendance := atts;
                      nextId := if isNew then S (nextId st) else nextId st |} in
        (st', json 200
                (JObj [("ok", JBool true);
                       ("message", JStr "Attendance marked successfully");
                       ("attendance", populated st' att)]))
      end
  | _, _ => (st, json 400 (failBody "Employee ID and date required"))
  end.

(** The query of the two attendance views. *)
Definition attendanceOf (employeeId : ObjectId) (req : Request)
  (a : Attendance) : bool :=
  (employee a =? employeeId)%nat
  && if truthyInt (body_month req) && truthyInt (body_year req)
     then match body_month req, body_year req with
          | Some month, Some year =>
            (startOfMonth year month <=? date a)%Z
            && (date a <=? endOfMonth year month)%Z
          | _, _ => true
          end
     else true.

Definition findAttendance (st : Store) (employeeId : ObjectId) (req : Request)
  : list Attendance :=
  sortByDateDesc (findAll (attendanceOf employeeId req) (attendance st)).

Definition summary (l : list Attendance) : Json :=
  JObj [("totalRecords", JNum (ofNat (List.length l)));
        ("presentDays",
         JNum (ofNat (List.length
                        (filter (fun a => status a =? "present") l))));
        ("absentDays",
         JNum (ofNat (List.length
                        (filter (fun a => status a =? "absent") l))))].

Definition viewAttendance (_ : Employee) (st : Store) (req : Request)
  : Store * Response :=
  match body_employeeId req with
  | None => (st, json 400 (failBody "Employee ID required"))
  | Some employeeId =>
    let attendance := findAttendance st employeeId req in
    (st, json 200 (JObj [("ok", JBool true);
                         ("attendance", JArr (map (populated st) attendance));
                         ("summary", summary attendance)]))
  end.

(** ** Payslips *)

Definition payslipFor (render : Json -> Json) (missing : string)
  (employeeId : option ObjectId) (st : Store) (req : Request)
  : Store * Response :=
  match employeeId with
  | Some employeeId =>
    if truthyInt (body_month req) && truthyInt (body_year req)
    then match body_month req, body_year req with
         | Some month, Some year =>
           match calculateSalary st employeeId year month with
           | Return payslip => (st, json 200 (render (payslipJSON payslip)))
           | Throw msg => (st, json 500 (failBody msg))
           end
         | _, _ => (st, json 400 (failBody missing))
         end
    else (st, json 400 (failBody missing))
  | None => (st, json 400 (failBody missing))
  end.

Definition asJson (p : Json) : Json := JObj [("ok", JBool true); ("payslip", p)].

Definition payslipGenerate (_ : Employee) (st : Store) (req : Request) :=
  payslipFor asJson "Employee ID, month, and year required"
    (body_employeeId req) st req.

Definition payslipPdf (_ : Employee) (st : Store) (req : Request) :=
  payslipFor JPdf "Employee ID, month, and year required"
    (body_employeeId req) st req.

(** ** Self-service *)

Definition me (user : Employee) (st : Store) (_ : Request) : Store * Response :=
  (st, json 200
         (JObj [("ok", JBool true);
                ("employee", match findById (_id user) (employees st) with
                             | Some e => withoutPassword e
                             | None => JNull
                             end)])).

Definition ownAttendance (user : Employee) (st : Store) (req : Request)
  : Store * Response :=
  let attendance := findAttendance st (_id user) req in
  (st, json 200 (JObj [("ok", JBool true);
                       ("attendance", JArr (map attendanceJSON attendance));
                       ("summary", summary attendance)])).

Definition ownPayslip (user : Employee) (st : Store) (req : Request) :=
  payslipFor asJson "Month and year required" (Some (_id user)) st req.

Definition ownPayslipPdf (user : Employee) (st : Store) (req : Request) :=
  payslipFor JPdf "Month and year required" (Some (_id user)) st req.

(** ** The routes *)

Inductive AdminRoute : Type :=
| EmployeesCreate | EmployeesList | EmployeesGet | EmployeesUpdate
| EmployeesDelete | AttendanceMark | AttendanceView | PayslipGenerate
| PayslipPdf.

Inductive EmployeeRoute : Type :=
| Me | OwnAttendance | OwnPayslip | OwnPayslipPdf.

Inductive Route : Type :=
| AdminLogin
| EmployeeLogin
| Admin (r : AdminRoute)
| Self (r : EmployeeRoute).

Definition adminHandler (r : AdminRoute)
  : Employee -> Store -> Request -> Store * Response :=
  match r with
  | EmployeesCreate => createEmployee
  | EmployeesList => listEmployees
  | EmployeesGet => getEmployee
  | EmployeesUpdate => updateEmployee
  | EmployeesDelete => deleteEmployee
  | AttendanceMark => markAttendance
  | AttendanceView => viewAttendance
  | PayslipGenerate => payslipGenerate
  | PayslipPdf => payslipPdf
  end.

Definition employeeHandler (r : EmployeeRoute)
  : Employee -> Store -> Request -> Store * Response :=
  match r with
  | Me => me
  | OwnAttendance => ownAttendance
  | OwnPayslip => ownPayslip
  | OwnPayslipPdf => ownPayslipPdf
  end.

Definition handle (r : Route) (st : Store) (req : Request) : Store * Response :=
  match r with
  | AdminLogin => (st, adminLogin st req)
  | EmployeeLogin => (st, employeeLogin st req)
  | Admin r => guarded adminOnly (adminHandler r) st req
  | Self r => guarded employeeOnly (employeeHandler r) st req
  end.

(** The store after a sequence of requests. *)
Definition run (st : Store) (calls : list (Route * Request)) : Store :=
  fold_left (fun st c => fst (handle (fst c) st (snd c))) calls st.

End Zone.

End Username.

(* ------------------------------------------------------------------ *)
(** * The properties, as the specification words them *)

Module Spec.

(** [(S / 30) x presentDays] *)
Definition proportional (S : Q) (presentDays : nat) : Q :=
  ((S / inject_Z 30) * JS.ofNat presentDays)%Q.

(** [r] is [x] rounded to a multiple of [unit]. *)
Definition roundedTo (unit x r : Q) : Prop :=
  (exists k : Z, r == inject_Z k * unit)%Q
  /\ (Qabs (r - x) <= unit / inject_Z 2)%Q.

(** [n] is the number of elements of the list that satisfy [P]. *)
Inductive counts {A : Type} (P : A -> Prop) : list A -> nat -> Prop :=
| counts_nil : counts P [] 0
| counts_in a l n : P a -> counts P l n -> counts P (a :: l) (S n)
| counts_out a l n : ~ P a -> counts P l n -> counts P (a :: l) n.

(** The local calendar day of an instant, and the invariant of the
    attendance collection: no two records of one employee on one day. *)
Definition dayOf (LocalTZA t : Z) : Z := JSDate.Day (JSDate.LocalTime LocalTZA t).

Definition dayKey {A : Type} (employee : A -> Mongo.ObjectId)
  (date : A -> Z) (LocalTZA : Z) (a : A) : Mongo.ObjectId * Z :=
  (employee a, dayOf LocalTZA (date a)).

Definition onePerDay {A : Type} (employee : A -> Mongo.ObjectId)
  (date : A -> Z) (LocalTZA : Z) (c : list A) : Prop :=
  NoDup (map (dayKey employee date LocalTZA) c).

(** The ways a request changes the store of the username based service:
    an employee created, updated or deleted, a day marked. *)
Inductive Changes (LocalTZA : Z) (st : Username.Store)
  : Username.Store -> Prop :=
| created (e : Username.Employee) :
    Username._id e = Username.nextId st ->
    Username.role e = "employee" ->
    Username.username e <> "" ->
    Username.password e <> "" ->
    (forall x, In x (Username.employees st) ->
               Username.username x <> Username.username e
               /\ Username.empId x <> Username.empId e) ->
    Changes LocalTZA st
      (Username.mkStore (Username.employees st ++ [e])%list
         (Username.attendance st) (S (Username.nextId st)))
| updated (id : Mongo.ObjectId) (old : Username.Employee)
    (req : Username.Request) :
    Username.findById id (Username.employees st) = Some old ->
    Username.clashes id old (Username.applyUpdate req old)
      (Username.employees st) = false ->
    Changes LocalTZA st
      (Username.mkStore
         (Mongo.updateFirst (fun e => (Username._id e =? id)%nat)
            (Username.applyUpdate req) (Username.employees st))
         (Username.attendance st) (Username.nextId st))
| deleted (id : Mongo.ObjectId) (old : Username.Employee) :
    Username.findById id (Username.employees st) = Some old ->
    Changes LocalTZA st
      (Username.mkStore
         (Mongo.deleteFirst (fun e => (Username._id e =? id)%nat)
            (Username.employees st))
         (Mongo.deleteMany (fun a => (Username.employee a =? id)%nat)
            (Username.attendance st))
         (Username.nextId st))
| marked (e : Mongo.ObjectId) (d : Z) (status : string)
    (emp : Username.Employee) (att : Username.Attendance)
    (atts : list Username.Attendance) (isNew : bool) :
    Username.findById e (Username.employees st) = Some emp ->
    status = "present" \/ status = "absent" ->
    Mongo.findOneAndUpsert
      (Username.onDay LocalTZA e (Username.startOfDay LocalTZA d))
      (fun a => Username.mkAttendance (Username.a_id a) e
                  (Username.startOfDay LocalTZA d) status)
      (Username.mkAttendance (Username.nextId st) e
         (Username.startOfDay LocalTZA d) status)
      (Username.attendance st) = (att, atts, isNew) ->
    Changes LocalTZA st
      (Username.mkStore (Username.employees st) atts
         (if isNew then S (Username.nextId st) else Username.nextId st)).

(** The year [new Date(y, ...)] builds: 1900 + y for y from 0 to 99. *)
Definition fullYear (y : Z) : Z :=
  if ((0 <=? y) && (y <=? 99))%Z then (1900 + y)%Z else y.

(** The length of month [m] (1 = January) of year [y] in the calendar. *)
Definition daysInMonth (y m : Z) : Z :=
  if (m =? 2)%Z then (28 + JSDate.InLeapYear y)%Z
  else if ((m =? 4) || (m =? 6) || (m =? 9) || (m =? 11))%Z then 30%Z
  else 31%Z.

End Spec.

(* ------------------------------------------------------------------ *)
(** * Stores and requests of the examples *)

Module Demo.

(** Noon UTC of the [i]-th day after the first of March 2025. *)
Definition marchNoon (i : nat) : Z :=
  (1740830400000 + Z.of_nat i * JSDate.msPerDay)%Z.

Definition emailEmployee : Email.Employee :=
  Email.mkEmployee 1%nat (Some "A") "a@pavakie.com" "emp123" "employee"
    (inject_Z 30000) (Some "Developer").

(** One employee, present on twenty days of March 2025. *)
Definition emailStore : Email.Store :=
  Email.mkStore [emailEmployee]
    (map (fun i => Email.mkAttendance (2 + i)%nat 1%nat (marchNoon i) "present")
       (seq 0 20))
    22%nat.

Definition userEmployee : Username.Employee :=
  Username.mkEmployee 1%nat "A" "a" "emp123" "employee" (inject_Z 30000) "E1".

Definition userStore : Username.Store :=
  Username.mkStore (Username.employees Username.seeded ++ [userEmployee])%list
    (map (fun i =>
            Username.mkAttendance (2 + i)%nat 1%nat (marchNoon i) "present")
       (seq 0 20))
    22%nat.

(** Login requests. *)
Definition emailLogin (em pw : string) : Email.Request :=
  Email.mkRequest None (Some em) (Some pw) None None None None None None
    None None None 0%nat None None.

Definition userLogin (u p : string) : Username.Request :=
  Username.mkRequest (Some u) (Some p) None None None None None None None
    None None None.

(** The employee of [emailStore], named by the [x-user-email] header and by
    the [userEmail] cookie, asks for a new employee. *)
Definition createByEmployee : Email.Request :=
  Email.mkRequest (Some "B") (Some "b@pavakie.com") (Some "b123") None None
    None None None None None None None 0%nat
    (Some "a@pavakie.com") (Some "a@pavakie.com").

(** The same body without any credential. *)
Definition createByNobody : Email.Request :=
  Email.mkRequest (Some "B") (Some "b@pavakie.com") (Some "b123") None None
    None None None None None None None 0%nat None None.

(** The employee of [userStore] asks for the deletion of the administrator. *)
Definition deleteByEmployee : Username.Request :=
  Username.mkRequest (Some "a") (Some "emp123") None None None None None
    (Some 0%nat) None None None None.

(** Stores without attendance, and requests marking it. *)
Definition emailStaff : Email.Store := Email.mkStore [emailEmployee] [] 2%nat.

Definition userStaff : Username.Store :=
  Username.mkStore (Username.employees Username.seeded ++ [userEmployee])%list
    [] 2%nat.

Definition emailMark (e : Mongo.ObjectId) (d : Z) (status : option string)
  : Email.Request :=
  Email.mkRequest None None None None None None (Some e) (Some d) status
    None None None 0%nat (Some "a@pavakie.com") (Some "a@pavakie.com").

Definition adminMark (e : Mongo.ObjectId) (d : Z) (status : option string)
  : Username.Request :=
  Username.mkRequest (Some "admin") (Some "admin123") None None None None None
    (Some e) (Some d) status None None.

(** The fifteenth of June of the year 50, at midnight UTC. *)
Definition june50 : Z := (-60575040000000)%Z.

(** [DELETE /employees/1] of the header service. *)
Definition deleteOne : Email.Request :=
  Email.mkRequest None None None None None None None None None
    None None None 1%nat (Some "a@pavakie.com") None.

(** The scenario of the specification: the administrator creates the
    employee E1 with a salary of 30000 and marks five days of March 2025. *)
Definition createE1 : Username.Request :=
  Username.mkRequest (Some "admin") (Some "admin123") (Some "A") (Some "a")
    (Some "emp123") (Some (inject_Z 30000)) (Some "E1") None None None None
    None.

Definition scenario : list (Username.Route * Username.Request) :=
  (Username.Admin Username.EmployeesCreate, createE1)
  :: map (fun i => (Username.Admin Username.AttendanceMark,
                    adminMark 1%nat (marchNoon i) (Some "present")))
       [0; 3; 4; 10; 30]%nat.

(** A second mark of the scenario's first day, and a mark without status. *)
Definition firstDay : Username.Attendance :=
  Username.mkAttendance 2%nat 1%nat 1740787200000 "present".

Definition remarkAbsent : Username.Request :=
  adminMark 1%nat (marchNoon 0) (Some "absent").

(** The header and cookie store after one mark of the ninth of March, and
    the same mark again. *)
Definition markNinth : Email.Request := emailMark 1%nat (marchNoon 8) None.

(** The employee of [userStore] asks for March 2025; and [userStore] after
    a mark of the administrator's own attendance. *)
Definition ownMarch : Username.Request :=
  Username.mkRequest (Some "a") (Some "emp123") None None None None None None
    None None (Some 3%Z) (Some 2025%Z).

Definition userStoreAfterOtherMark : Username.Store :=
  fst (Username.markAttendance 0 userEmployee userStore
         (adminMark 0%nat (marchNoon 25) (Some "present"))).

(** An employee of the given monthly salary, present on the first [days]
    days of March 2025. *)
Definition emailPaid (salary : Q) (days : nat) : Email.Store :=
  Email.mkStore
    [Email.mkEmployee 1%nat (Some "A") "a@pavakie.com" "emp123" "employee"
       salary (Some "Developer")]
    (map (fun i => Email.mkAttendance (2 + i)%nat 1%nat (marchNoon i) "present")
       (seq 0 days))
    (2 + days)%nat.

Definition userPaid (salary : Q) (days : nat) : Username.Store :=
  Username.mkStore
    (Username.employees Username.seeded
     ++ [Username.mkEmployee 1%nat "A" "a" "emp123" "employee" salary "E1"])%list
    (map (fun i =>
            Username.mkAttendance (2 + i)%nat 1%nat (marchNoon i) "present")
       (seq 0 days))
    (2 + days)%nat.

(** The stores after a mark of the employee as present on 15 June of the
    year 50: by [POST /attendance] of the header service, and by
    [POST /admin/attendance/mark]. *)
Definition emailStoreOf50 : Email.Store :=
  fst (Header.postAttendance 0 emailStaff
         (emailMark 1%nat june50 (Some "present"))).

Definition userStoreOf50 : Username.Store :=
  fst (Username.markAttendance 0 userEmployee userStaff
         (adminMark 1%nat june50 (Some "present"))).

(** [POST /employees] of the header service with a name and an e-mail,
    sent by the employee of [emailStaff]. *)
Definition hireC : Email.Request :=
  Email.mkRequest (Some "C") (Some "c@pavakie.com") None None None None None
    None None None None None 0%nat (Some "a@pavakie.com") None.


End Demo.

(* ------------------------------------------------------------------ *)
(** * binary64 rounding *)

Section Binary64.

Local Open Scope Q_scope.

Lemma pow2_pos (e : Z) : 0 < JS.pow2 e.
Proof. apply Qpower_0_lt. reflexivity. Qed.

Lemma pow2_add (a b : Z) : JS.pow2 (a + b) == JS.pow2 a * JS.pow2 b.
Proof. apply Qpower_plus. discriminate. Qed.

Lemma pow2_le (a b : Z) : (a <= b)%Z -> JS.pow2 a <= JS.pow2 b.
Proof. intros H. apply Qpower_le_compat_l; [exact H | discriminate]. Qed.

Lemma pow2_lt (a b : Z) : (a < b)%Z -> JS.pow2 a < JS.pow2 b.
Proof. intros H. apply Qpower_lt_compat_l; [exact H | reflexivity]. Qed.

Lemma pow2_Z (n : Z) : (0 <= n)%Z -> JS.pow2 n == inject_Z (2 ^ n).
Proof. intros H. unfold JS.pow2. rewrite Zpower_Qpower by exact H. reflexivity. Qed.

Lemma pow2_sub (a b : Z) : JS.pow2 (a - b) == JS.pow2 a / JS.pow2 b.
Proof.
  unfold Z.sub. rewrite pow2_add. unfold JS.pow2 at 2. rewrite Qpower_opp.
  reflexivity.
Qed.

Lemma Qdiv_mult_le (X Y D A : Q) :
  0 < Y -> X * D <= A * Y -> X / Y * D <= A.
Proof.
  intros HY H.
  assert (E : X / Y * D == (X * D) / Y).
  { field. intros HY0. rewrite HY0 in HY. discriminate. }
  rewrite E. apply Qle_shift_div_r; assumption.
Qed.

Lemma Qdiv_mult_lt (X Y D A : Q) :
  0 < Y -> A * Y < X * D -> A < X / Y * D.
Proof.
  intros HY H.
  assert (E : X / Y * D == (X * D) / Y).
  { field. intros HY0. rewrite HY0 in HY. discriminate. }
  rewrite E. apply Qlt_shift_div_l; assumption.
Qed.

(** bounds of a quotient of two positive integers *)
Lemma ilog2_bounds (x : Q) :
  ~ x == 0 ->
  let k := (Z.log2 (Z.abs (Qnum x)) - Z.log2 (Zpos (Qden x)))%Z in
  JS.pow2 (k - 1) <= Qabs x /\ Qabs x < JS.pow2 (k + 1).
Proof.
  intros Hx k. destruct x as [n d]. 
  assert (Hn : (0 < Z.abs n)%Z).
  { destruct n; try lia. exfalso. apply Hx. reflexivity. }
  pose proof (Z.log2_spec _ Hn) as [A1 A2].
  pose proof (Z.log2_spec (Zpos d) ltac:(lia)) as [B1 B2].
  pose proof (Z.log2_nonneg (Z.abs n)) as LA.
  pose proof (Z.log2_nonneg (Zpos d)) as LB.
  subst k. cbn [Qnum Qden] in *.
  set (la := Z.log2 (Z.abs n)) in *. set (lb := Z.log2 (Zpos d)) in *.
  assert (E : Qabs (n # d) == inject_Z (Z.abs n) / inject_Z (Zpos d)).
  { unfold Qabs. rewrite (Qmake_Qdiv (Z.abs n) d). reflexivity. }
  rewrite E.
  assert (Pd : 0 < inject_Z (Zpos d)) by reflexivity.
  split.
  - apply Qle_shift_div_l; [exact Pd|].
    replace (la - lb - 1)%Z with (la - (lb + 1))%Z by lia.
    rewrite pow2_sub. apply Qdiv_mult_le; [apply pow2_pos|].
    rewrite !pow2_Z by lia. rewrite <- !inject_Z_mult. rewrite <- Zle_Qle.
    replace (Z.succ lb) with (lb + 1)%Z in B2 by lia.
    assert (0 < 2 ^ la)%Z by (apply Z.pow_pos_nonneg; lia).
    nia.
  - apply Qlt_shift_div_r; [exact Pd|].
    replace (la - lb + 1)%Z with (la + 1 - lb)%Z by lia.
    rewrite pow2_sub. apply Qdiv_mult_lt; [apply pow2_pos|].
    rewrite !pow2_Z by lia. rewrite <- !inject_Z_mult. rewrite <- Zlt_Qlt.
    replace (Z.succ la) with (la + 1)%Z in A2 by lia.
    assert (0 < 2 ^ lb)%Z by (apply Z.pow_pos_nonneg; lia).
    nia.
Qed.

Lemma ilog2_spec (x : Q) :
  ~ x == 0 -> JS.pow2 (JS.ilog2 x) <= Qabs x /\ Qabs x < JS.pow2 (JS.ilog2 x + 1).
Proof.
  intros Hx. pose proof (ilog2_bounds x Hx) as [L U]. unfold JS.ilog2.
  set (k := (Z.log2 (Z.abs (Qnum x)) - Z.log2 (Zpos (Qden x)))%Z) in *.
  destruct (Qle_bool (JS.pow2 k) (Qabs x)) eqn:E.
  - apply Qle_bool_iff in E. auto.
  - split; [exact L|]. replace (k - 1 + 1)%Z with k by lia.
    apply Qnot_le_lt. intros H. apply Qle_bool_iff in H. congruence.
Qed.

Lemma ilog2_unique (x : Q) (k : Z) :
  JS.pow2 k <= Qabs x -> Qabs x < JS.pow2 (k + 1) -> JS.ilog2 x = k.
Proof.
  intros L U.
  assert (Hx : ~ x == 0).
  { intros H. rewrite H in L. pose proof (pow2_pos k). simpl in L.
    apply (Qlt_irrefl 0). eapply Qlt_le_trans; eauto. }
  destruct (ilog2_spec x Hx) as [L' U'].
  destruct (Z_lt_ge_dec (JS.ilog2 x) k) as [H|H].
  - exfalso. assert (JS.pow2 (JS.ilog2 x + 1) <= JS.pow2 k) by (apply pow2_le; lia).
    apply (Qlt_irrefl (Qabs x)). eapply Qlt_le_trans; [exact U'|].
    eapply Qle_trans; eauto.
  - destruct (Z_lt_ge_dec k (JS.ilog2 x)) as [H'|H']; [|lia].
    exfalso. assert (JS.pow2 (k + 1) <= JS.pow2 (JS.ilog2 x)) by (apply pow2_le; lia).
    apply (Qlt_irrefl (Qabs x)). eapply Qlt_le_trans; [exact U|].
    eapply Qle_trans; eauto.
Qed.

Lemma rne_cases (t : Q) :
  let f := Qfloor t in
  (t - inject_Z f < 1 # 2 /\ JS.rne t = f)
  \/ (t - inject_Z f == 1 # 2 /\ JS.rne t = if Z.even f then f else (f + 1)%Z)
  \/ (1 # 2 < t - inject_Z f /\ JS.rne t = (f + 1)%Z).
Proof.
  intros f. unfold JS.rne. fold f.
  destruct (Qcompare (t - inject_Z f) (1 # 2)) eqn:C.
  - right. left. apply Qeq_alt in C. auto.
  - left. apply Qlt_alt in C. auto.
  - right. right. apply Qgt_alt in C. auto.
Qed.

Lemma Qfloor_bounds (t : Q) :
  inject_Z (Qfloor t) <= t /\ t < inject_Z (Qfloor t) + 1.
Proof.
  split; [apply Qfloor_le|].
  pose proof (Qlt_floor t) as H. rewrite inject_Z_plus in H. exact H.
Qed.

Lemma rne_error (t : Q) : Qabs (inject_Z (JS.rne t) - t) <= 1 # 2.
Proof.
  destruct (Qfloor_bounds t) as [L U].
  apply Qabs_Qle_condition.
  destruct (rne_cases t) as [[H ->] | [[H ->] | [H ->]]].
  - split; lra.
  - destruct (Z.even (Qfloor t));
      [|rewrite inject_Z_plus; change (inject_Z 1) with 1]; split; lra.
  - rewrite inject_Z_plus. change (inject_Z 1) with 1. split; lra.
Qed.

Lemma rne_between (t : Q) : (Qfloor t <= JS.rne t <= Qfloor t + 1)%Z.
Proof.
  destruct (rne_cases t) as [[H ->] | [[H ->] | [H ->]]]; try lia.
  destruct (Z.even (Qfloor t)); lia.
Qed.

Lemma rne_compat (t t' : Q) : t == t' -> JS.rne t = JS.rne t'.
Proof.
  intros E. unfold JS.rne. rewrite (Qfloor_comp _ _ E).
  assert (C : Qcompare (t - inject_Z (Qfloor t')) (1 # 2)
              = Qcompare (t' - inject_Z (Qfloor t')) (1 # 2)).
  { apply Qcompare_comp; [rewrite E|]; reflexivity. }
  rewrite C. reflexivity.
Qed.

Lemma rne_Z (n : Z) : JS.rne (inject_Z n) = n.
Proof.
  destruct (rne_cases (inject_Z n)) as [[H E] | [[H E] | [H E]]];
    rewrite Qfloor_Z in *.
  - exact E.
  - exfalso. lra.
  - exfalso. lra.
Qed.

Lemma rne_mono (t t' : Q) : t <= t' -> (JS.rne t <= JS.rne t')%Z.
Proof.
  intros H. pose proof (Qfloor_resp_le _ _ H) as F.
  pose proof (rne_between t) as B. pose proof (rne_between t') as B'.
  destruct (Z.eq_dec (Qfloor t) (Qfloor t')) as [E | N]; [|lia].
  pose proof (rne_cases t) as C. pose proof (rne_cases t') as C'.
  cbv zeta in C, C'. rewrite <- E in *.
  destruct C as [[C R] | [[C R] | [C R]]].
  - lia.
  - destruct C' as [[C' R'] | [[C' R'] | [C' R']]].
    + exfalso. lra.
    + rewrite R, R'. lia.
    + lia.
  - destruct C' as [[C' R'] | [[C' R'] | [C' R']]].
    + exfalso. lra.
    + exfalso. lra.
    + lia.
Qed.

Lemma pow2_neq0 (e : Z) : ~ JS.pow2 e == 0.
Proof. intros H. pose proof (pow2_pos e) as P. rewrite H in P. discriminate. Qed.

Lemma fl_0 : JS.fl 0 = 0.
Proof. reflexivity. Qed.

Lemma fl_zero (x : Q) : x == 0 -> JS.fl x = 0.
Proof. intros H. unfold JS.fl. apply Qeq_bool_iff in H. rewrite H. reflexivity. Qed.

Lemma fl_value (x : Q) :
  ~ x == 0 ->
  JS.fl x == inject_Z (JS.rne (x / JS.pow2 (JS.ulpExp x))) * JS.pow2 (JS.ulpExp x).
Proof.
  intros H. unfold JS.fl. destruct (Qeq_bool x 0) eqn:E.
  - apply Qeq_bool_iff in E. contradiction.
  - apply Qred_correct.
Qed.

Lemma ilog2_compat (x y : Q) : x == y -> ~ x == 0 -> JS.ilog2 x = JS.ilog2 y.
Proof.
  intros E Hx. destruct (ilog2_spec x Hx) as [L U].
  pose proof (Qabs_wd _ _ E) as A.
  symmetry. apply ilog2_unique; rewrite <- A; assumption.
Qed.

Lemma fl_compat (x y : Q) : x == y -> JS.fl x = JS.fl y.
Proof.
  intros E. unfold JS.fl.
  destruct (Qeq_bool x 0) eqn:X.
  - apply Qeq_bool_iff in X. rewrite E in X. apply Qeq_bool_iff in X.
    rewrite X. reflexivity.
  - assert (Hx : ~ x == 0).
    { intros H. apply Qeq_bool_iff in H. congruence. }
    destruct (Qeq_bool y 0) eqn:Y.
    + apply Qeq_bool_iff in Y. rewrite <- E in Y. contradiction.
    + unfold JS.ulpExp. rewrite <- (ilog2_compat x y E Hx).
      apply Qred_complete.
      rewrite (rne_compat (x / JS.pow2 (Z.max (JS.ilog2 x - 52) (-1074)))
                 (y / JS.pow2 (Z.max (JS.ilog2 x - 52) (-1074))))
        by (apply Qdiv_comp; [exact E | reflexivity]).
      reflexivity.
Qed.

Lemma Qabs_scale (a b s : Q) :
  0 < s -> Qabs (a * s - b) == Qabs (a - b / s) * s.
Proof.
  intros Hs.
  assert (E : a * s - b == (a - b / s) * s).
  { field. intros H. rewrite H in Hs. discriminate. }
  rewrite E, Qabs_Qmult, (Qabs_pos s) by (apply Qlt_le_weak, Hs).
  reflexivity.
Qed.

(** The error of the rounding: half a unit in the last place. *)
Lemma fl_error_ulp (x : Q) :
  ~ x == 0 -> Qabs (JS.fl x - x) <= JS.pow2 (JS.ulpExp x) * (1 # 2).
Proof.
  intros Hx. rewrite (fl_value x Hx).
  rewrite (Qabs_scale _ _ _ (pow2_pos (JS.ulpExp x))).
  rewrite (Qmult_comm (JS.pow2 _) (1 # 2)).
  apply Qmult_le_compat_r; [apply rne_error|].
  apply Qlt_le_weak, pow2_pos.
Qed.

Lemma fl_error (x : Q) :
  Qabs (JS.fl x - x) <= Qabs x * JS.pow2 (-53) + JS.pow2 (-1075).
Proof.
  destruct (Qeq_dec x 0) as [Hx | Hx].
  - rewrite (fl_zero x Hx), Hx. simpl.
    apply Qlt_le_weak. reflexivity.
  - pose proof (fl_error_ulp x Hx) as H.
    destruct (ilog2_spec x Hx) as [L _].
    pose proof (pow2_pos (-53)) as P53. pose proof (pow2_pos (-1075)) as P75.
    pose proof (Qabs_nonneg x) as Ax.
    unfold JS.ulpExp in H.
    destruct (Z.max_spec (JS.ilog2 x - 52) (-1074)) as [[_ E] | [_ E]];
      rewrite E in H.
    + assert (E2 : JS.pow2 (-1074) * (1 # 2) == JS.pow2 (-1075)) by reflexivity.
      rewrite E2 in H.
      assert (0 <= Qabs x * JS.pow2 (-53)) by (apply Qmult_le_0_compat; lra).
      lra.
    + assert (E2 : JS.pow2 (JS.ilog2 x - 52) * (1 # 2) == JS.pow2 (JS.ilog2 x) * JS.pow2 (-53)).
      { replace (JS.ilog2 x - 52)%Z with (JS.ilog2 x + -52)%Z by lia.
        rewrite pow2_add.
        assert (E3 : JS.pow2 (-52) * (1 # 2) == JS.pow2 (-53)) by reflexivity.
        rewrite <- E3. ring. }
      rewrite E2 in H.
      assert (JS.pow2 (JS.ilog2 x) * JS.pow2 (-53) <= Qabs x * JS.pow2 (-53)).
      { apply Qmult_le_compat_r; lra. }
      lra.
Qed.

Lemma rne_pow2 (n : Z) (t : Q) :
  (0 <= n)%Z -> t == JS.pow2 n -> JS.rne t = (2 ^ n)%Z.
Proof.
  intros Hn E. rewrite (rne_compat t (inject_Z (2 ^ n))).
  - apply rne_Z.
  - rewrite E. apply pow2_Z, Hn.
Qed.

Lemma Qdiv_pow2 (a b : Z) : JS.pow2 a / JS.pow2 b == JS.pow2 (a - b).
Proof. symmetry. apply pow2_sub. Qed.

(** The rounding does not cross a power of two. *)
Lemma fl_le_pow2 (x : Q) (k : Z) :
  ~ x == 0 -> x <= JS.pow2 k -> (JS.ulpExp x <= k)%Z -> JS.fl x <= JS.pow2 k.
Proof.
  intros Hx H He. rewrite (fl_value x Hx).
  set (e := JS.ulpExp x) in *.
  assert (M : (JS.rne (x / JS.pow2 e) <= 2 ^ (k - e))%Z).
  { rewrite <- (rne_pow2 (k - e) (JS.pow2 k / JS.pow2 e)) by
        (try lia; apply Qdiv_pow2).
    apply rne_mono. unfold Qdiv. apply Qmult_le_compat_r; [exact H|].
    apply Qlt_le_weak, Qinv_lt_0_compat, pow2_pos. }
  rewrite Zle_Qle in M. rewrite <- pow2_Z in M by lia.
  apply (Qmult_le_compat_r _ _ (JS.pow2 e)) in M;
    [|apply Qlt_le_weak, pow2_pos].
  rewrite <- pow2_add in M. replace (k - e + e)%Z with k in M by lia.
  exact M.
Qed.

Lemma fl_ge_pow2 (x : Q) (k : Z) :
  JS.pow2 k <= x -> (JS.ulpExp x <= k)%Z -> JS.pow2 k <= JS.fl x.
Proof.
  intros H He.
  assert (Hx : ~ x == 0).
  { intros E. rewrite E in H. pose proof (pow2_pos k). lra. }
  rewrite (fl_value x Hx).
  set (e := JS.ulpExp x) in *.
  assert (M : (2 ^ (k - e) <= JS.rne (x / JS.pow2 e))%Z).
  { rewrite <- (rne_pow2 (k - e) (JS.pow2 k / JS.pow2 e)) by
        (try lia; apply Qdiv_pow2).
    apply rne_mono. unfold Qdiv. apply Qmult_le_compat_r; [exact H|].
    apply Qlt_le_weak, Qinv_lt_0_compat, pow2_pos. }
  rewrite Zle_Qle in M. rewrite <- pow2_Z in M by lia.
  apply (Qmult_le_compat_r _ _ (JS.pow2 e)) in M;
    [|apply Qlt_le_weak, pow2_pos].
  rewrite <- pow2_add in M. replace (k - e + e)%Z with k in M by lia.
  exact M.
Qed.

Lemma fl_nonneg (x : Q) : 0 <= x -> 0 <= JS.fl x.
Proof.
  intros H. destruct (Qeq_dec x 0) as [Hx | Hx].
  - rewrite (fl_zero x Hx). apply Qle_refl.
  - rewrite (fl_value x Hx). apply Qmult_le_0_compat.
    + change 0 with (inject_Z 0). rewrite <- Zle_Qle.
      rewrite <- (rne_Z 0). apply rne_mono.
      apply Qle_shift_div_l; [apply pow2_pos|].
      change (inject_Z 0) with 0. rewrite Qmult_0_l. exact H.
    + apply Qlt_le_weak, pow2_pos.
Qed.

Lemma ilog2_mono (x y : Q) :
  0 < x -> x <= y -> (JS.ilog2 x <= JS.ilog2 y)%Z.
Proof.
  intros Hx H.
  assert (Nx : ~ x == 0) by (intros E; rewrite E in Hx; discriminate).
  assert (Ny : ~ y == 0) by (intros E; rewrite E in H; lra).
  destruct (ilog2_spec x Nx) as [Lx _]. destruct (ilog2_spec y Ny) as [_ Uy].
  rewrite Qabs_pos in Lx by lra. rewrite Qabs_pos in Uy by lra.
  destruct (Z_lt_ge_dec (JS.ilog2 y) (JS.ilog2 x)) as [C|C]; [|lia].
  exfalso. assert (JS.pow2 (JS.ilog2 y + 1) <= JS.pow2 (JS.ilog2 x)) by (apply pow2_le; lia).
  lra.
Qed.

(** Rounding keeps the order of the numbers that are not negative. *)
Lemma fl_mono (x y : Q) : 0 <= x -> x <= y -> JS.fl x <= JS.fl y.
Proof.
  intros H0 H. destruct (Qeq_dec x 0) as [Hx | Hx].
  { rewrite (fl_zero x Hx). apply fl_nonneg. lra. }
  assert (Px : 0 < x).
  { apply Qnot_le_lt. intros C. apply Hx. apply Qle_antisym; assumption. }
  assert (Ny : ~ y == 0) by (intros E; rewrite E in H; lra).
  pose proof (ilog2_mono x y Px H) as L.
  destruct (ilog2_spec x Hx) as [_ Ux]. rewrite Qabs_pos in Ux by lra.
  destruct (ilog2_spec y Ny) as [Ly _]. rewrite Qabs_pos in Ly by lra.
  destruct (Z.eq_dec (JS.ulpExp x) (JS.ulpExp y)) as [E | N].
  - rewrite (fl_value x Hx), (fl_value y Ny), E.
    apply Qmult_le_compat_r; [|apply Qlt_le_weak, pow2_pos].
    rewrite <- Zle_Qle. apply rne_mono. unfold Qdiv.
    apply Qmult_le_compat_r; [exact H|].
    apply Qlt_le_weak, Qinv_lt_0_compat, pow2_pos.
  - assert (K : (JS.ilog2 x < JS.ilog2 y /\ JS.ulpExp y = JS.ilog2 y - 52
                 /\ JS.ulpExp x <= JS.ilog2 y - 52)%Z).
    { unfold JS.ulpExp in *. lia. }
    destruct K as (K1 & K2 & K3).
    apply (Qle_trans _ (JS.pow2 (JS.ilog2 y))).
    + apply fl_le_pow2; [exact Hx | | lia].
      apply Qlt_le_weak. eapply Qlt_le_trans; [exact Ux|].
      apply pow2_le. lia.
    + apply fl_ge_pow2; [exact Ly | lia].
Qed.

(** The error of a rounded value against a target [y], from that of the
    exact value. *)
Lemma fl_near (x y b : Q) :
  Qabs (x - y) <= b ->
  Qabs (JS.fl x - y) <= b + (Qabs y + b) * JS.pow2 (-53) + JS.pow2 (-1075).
Proof.
  intros H. pose proof (fl_error x) as E.
  assert (T1 : Qabs (JS.fl x - y) <= Qabs (JS.fl x - x) + Qabs (x - y)).
  { assert (R : JS.fl x - y == (JS.fl x - x) + (x - y)) by ring.
    rewrite R. apply Qabs_triangle. }
  assert (T2 : Qabs x <= Qabs y + Qabs (x - y)).
  { assert (R : x == y + (x - y)) by ring.
    rewrite R at 1. apply Qabs_triangle. }
  assert (P : Qabs x * JS.pow2 (-53) <= (Qabs y + b) * JS.pow2 (-53)).
  { apply Qmult_le_compat_r; [lra | apply Qlt_le_weak, pow2_pos]. }
  lra.
Qed.

Lemma Qabs_scaled (x y c : Q) :
  Qabs (x * c - y * c) == Qabs (x - y) * Qabs c.
Proof.
  assert (R : x * c - y * c == (x - y) * c) by ring.
  rewrite R. apply Qabs_Qmult.
Qed.

Lemma Math_round_near (x y b : Q) :
  Qabs (x - y) <= b -> Qabs (JS.Math_round x - y) <= b + (1 # 2).
Proof.
  intros H.
  assert (E : Qabs (JS.Math_round x - x) <= 1 # 2).
  { unfold JS.Math_round.
    pose proof (Qfloor_bounds (x + (1 # 2))) as [L U].
    apply Qabs_Qle_condition. split; lra. }
  assert (T : Qabs (JS.Math_round x - y)
              <= Qabs (JS.Math_round x - x) + Qabs (x - y)).
  { assert (R : JS.Math_round x - y == (JS.Math_round x - x) + (x - y))
      by ring.
    rewrite R. apply Qabs_triangle. }
  lra.
Qed.

End Binary64.

Section Integers.
Local Open Scope Q_scope.

Lemma Qred_integer (x : Q) (z : Z) : x == inject_Z z -> Qred x = inject_Z z.
Proof.
  intros E. rewrite (Qred_complete _ _ E).
  unfold Qred, inject_Z.
  pose proof (Z.ggcd_gcd z 1) as G.
  pose proof (Z.ggcd_correct_divisors z 1) as D.
  destruct (Z.ggcd z 1) as [g [aa bb]]. simpl in *.
  rewrite Z.gcd_1_r in G. subst g. destruct D as [Da Db].
  rewrite Z.mul_1_l in Da, Db. subst aa bb. reflexivity.
Qed.

(** An integer of at most 53 bits is a double. *)
Lemma fl_integer (z : Z) :
  (Z.abs z <= 2 ^ 53)%Z -> JS.fl (inject_Z z) = inject_Z z.
Proof.
  intros B. destruct (Z.eq_dec z 0) as [-> | Hz]; [reflexivity|].
  assert (N0 : ~ inject_Z z == 0).
  { intros E. apply Hz. unfold Qeq in E. simpl in E. lia. }
  assert (A : Qabs (inject_Z z) == inject_Z (Z.abs z)).
  { unfold Qabs, inject_Z. simpl. reflexivity. }
  destruct (ilog2_spec (inject_Z z) N0) as [L U].
  set (k := JS.ilog2 (inject_Z z)) in *.
  rewrite A in L, U.
  assert (K53 : (k <= 53)%Z).
  { destruct (Z_le_gt_dec k 53) as [H | H]; [exact H | exfalso].
    assert (P : JS.pow2 54 <= JS.pow2 k) by (apply pow2_le; lia).
    assert (Q53 : inject_Z (Z.abs z) <= JS.pow2 53).
    { rewrite (pow2_Z 53) by lia. rewrite <- Zle_Qle. exact B. }
    pose proof (pow2_lt 53 54 ltac:(lia)). lra. }
  assert (K0 : (0 <= k)%Z).
  { destruct (Z_le_gt_dec 0 k) as [H | H]; [exact H | exfalso].
    assert (P : JS.pow2 (k + 1) <= JS.pow2 0) by (apply pow2_le; lia).
    assert (Q1 : 1 <= inject_Z (Z.abs z)).
    { change 1 with (inject_Z 1). rewrite <- Zle_Qle. lia. }
    change (JS.pow2 0) with 1 in P. lra. }
  assert (I : exists n : Z,
             inject_Z z / JS.pow2 (JS.ulpExp (inject_Z z)) == inject_Z n).
  { unfold JS.ulpExp. fold k.
    destruct (Z.eq_dec k 53) as [E53 | NE].
    - rewrite E53. change (Z.max (53 - 52) (-1074)) with 1%Z.
      rewrite E53 in L. rewrite (pow2_Z 53) in L by lia.
      rewrite <- Zle_Qle in L.
      assert (Hz2 : (z = 2 * (z / 2))%Z).
      { assert (Z.abs z = 2 ^ 53)%Z by lia.
        change (2 ^ 53)%Z with 9007199254740992%Z in *.
        destruct (Z.abs_eq_or_opp z) as [Ha | Ha]; rewrite Ha in H.
        - subst z. reflexivity.
        - assert (z = (-9007199254740992)%Z) by lia. subst z. reflexivity. }
      exists (z / 2)%Z. rewrite Hz2 at 1.
      rewrite inject_Z_mult. change (JS.pow2 1) with 2.
      change (inject_Z 2) with 2. field.
    - rewrite Z.max_l by lia.
      exists (z * 2 ^ (52 - k))%Z.
      rewrite inject_Z_mult, <- (pow2_Z (52 - k)) by lia.
      rewrite (pow2_sub k 52), (pow2_sub 52 k).
      field. split; apply pow2_neq0. }
  destruct I as [n Hn].
  unfold JS.fl.
  destruct (Qeq_bool (inject_Z z) 0) eqn:E0.
  { apply Qeq_bool_iff in E0. contradiction. }
  apply Qred_integer.
  rewrite (rne_compat _ _ Hn), rne_Z, <- Hn.
  field. apply pow2_neq0.
Qed.

Lemma inject_Z_plus_eq (a b : Z) : inject_Z a + inject_Z b = inject_Z (a + b).
Proof. unfold Qplus, inject_Z. simpl. rewrite !Z.mul_1_r. reflexivity. Qed.

(** Integers whose absolute values sum up to at most 2^53 are added
    exactly. *)
Lemma plus_integers (zs : list Z) (a : Z) :
  (fold_left (fun s z => s + Z.abs z) zs (Z.abs a) <= 2 ^ 53)%Z ->
  fold_left JS.plus (map inject_Z zs) (inject_Z a)
  = fold_left Qplus (map inject_Z zs) (inject_Z a).
Proof.
  revert a. induction zs as [|z zs IH]; intros a H; simpl; [reflexivity|].
  assert (M : forall l s, (s <= fold_left (fun s z => s + Z.abs z) l s)%Z).
  { induction l as [|y l IHl]; intros s; simpl; [lia|].
    specialize (IHl (s + Z.abs y)%Z). lia. }
  assert (Mono : forall l s s', (s <= s')%Z ->
             (fold_left (fun s z => s + Z.abs z) l s
              <= fold_left (fun s z => s + Z.abs z) l s')%Z).
  { induction l as [|y l IHl]; intros s s' Hs; simpl; [exact Hs|].
    apply IHl. lia. }
  simpl in H.
  unfold JS.plus at 2. rewrite inject_Z_plus_eq.
  rewrite fl_integer.
  - apply IH.
    pose proof (Mono zs (Z.abs (a + z)) (Z.abs a + Z.abs z)%Z
                  (Z.abs_triangle a z)). lia.
  - pose proof (M zs (Z.abs a + Z.abs z)%Z).
    pose proof (Z.abs_triangle a z). lia.
Qed.

Lemma Qabs_inject_Z (z : Z) : Qabs (inject_Z z) = inject_Z (Z.abs z).
Proof. reflexivity. Qed.

Lemma sum_abs_integers (zs : list Z) (a : Z) :
  fold_left Qplus (map Qabs (map inject_Z zs)) (inject_Z a)
  = inject_Z (fold_left (fun s z => s + Z.abs z)%Z zs a).
Proof.
  revert a. induction zs as [|z zs IH]; intros a; cbn [map fold_left];
    [reflexivity|].
  rewrite Qabs_inject_Z, inject_Z_plus_eq. apply IH.
Qed.

(** [+=] over integers that are doubles: exact as long as the absolute
    values add up to at most 2^53. *)
Lemma plus_exact (vs : list Q) :
  Forall (fun v => v = inject_Z (Qfloor v)) vs ->
  fold_left Qplus (map Qabs vs) (inject_Z 0) <= JS.pow2 53 ->
  fold_left JS.plus vs (inject_Z 0) = fold_left Qplus vs (inject_Z 0).
Proof.
  intros F H.
  assert (E : vs = map inject_Z (map Qfloor vs)).
  { clear H. induction F as [|v vs Hv F IH]; cbn [map]; [reflexivity|].
    f_equal; [exact Hv | exact IH]. }
  rewrite E in H |- *. rewrite sum_abs_integers in H.
  apply plus_integers. change (Z.abs 0) with 0%Z.
  rewrite (pow2_Z 53) in H by lia. rewrite <- Zle_Qle in H. exact H.
Qed.

Lemma Math_round_integer (x : Q) :
  JS.Math_round x = inject_Z (Qfloor (JS.Math_round x)).
Proof. unfold JS.Math_round. rewrite Qfloor_Z. reflexivity. Qed.

End Integers.

(** [JS.fl] gives what the primitive doubles give: on the two salary
    formulas and a sum, for salaries of 0.35, 45, 450.15, 30000, 45015,
    10^15 and 10^16 and others and every number of days up to 31, and on
    subnormal quotients. *)
Lemma fl_is_the_rounding_of_the_primitive_doubles :
  forallb (fun cents => forallb (Float64.salaryAgrees cents)
                          (Float64.range 0 32 1))
    ([35; 4500; 45015; 3000000; 4501500; 100000000000000000;
      1000000000000000000]%Z ++ Float64.range 100 16 7919)
  = true
  /\ forallb (fun a => forallb (Float64.tinyAgrees a) (Float64.range 1 12 1))
       (Float64.range 1 20 1)
     = true.
Proof. split; vm_compute; reflexivity. Qed.

(* ------------------------------------------------------------------ *)
(** * Rounding *)

(** Linear arithmetic with divisions by constants. *)
Ltac div_lia := Z.to_euclidean_division_equations; lia.

Lemma Math_round_nearest (x : Q) : Spec.roundedTo 1%Q x (JS.Math_round x).
Proof.
  unfold Spec.roundedTo, JS.Math_round. split.
  - exists (Qfloor (x + (1 # 2))). ring.
  - pose proof (Qfloor_le (x + (1 # 2))) as Hle.
    pose proof (Qlt_floor (x + (1 # 2))) as Hlt.
    rewrite inject_Z_plus in Hlt.
    apply Qabs_Qle_condition.
    change (inject_Z 1) with 1%Q in Hlt. change (inject_Z 2) with 2%Q.
    generalize dependent (inject_Z (Qfloor (x + (1 # 2)))).
    intros f Hle Hlt. change (1 / 2)%Q with (1 # 2). split; lra.
Qed.

Lemma Math_round_cents (x : Q) :
  Spec.roundedTo (1 # 100) x
    (JS.Math_round (x * inject_Z 100) / inject_Z 100)%Q.
Proof.
  destruct (Math_round_nearest (x * inject_Z 100)) as [[k Hk] Habs].
  split.
  - exists k. rewrite Hk. change (inject_Z 100) with 100%Q. field.
  - apply Qabs_Qle_condition in Habs. apply Qabs_Qle_condition.
    change (inject_Z 100) with 100%Q in *. change (inject_Z 2) with 2%Q in *.
    generalize dependent (JS.Math_round (x * 100)).
    intros r _ Habs.
    assert (E : (r / 100 == r * (1 # 100))%Q) by field.
    rewrite E. change (1 / 2)%Q with (1 # 2) in Habs.
    change ((1 # 100) / 2)%Q with (1 # 200). split; lra.
Qed.

Lemma Math_round_compat (x y : Q) :
  (x == y)%Q -> JS.Math_round x = JS.Math_round y.
Proof.
  intros E. unfold JS.Math_round. f_equal. apply Qfloor_comp.
  rewrite E. reflexivity.
Qed.

Lemma proportional_example (S : Q) :
  (S == inject_Z 30000)%Q ->
  (Spec.proportional S 20 == inject_Z 20000)%Q.
Proof.
  intros E. unfold Spec.proportional. rewrite E. reflexivity.
Qed.

Lemma Math_round_le (x y : Q) :
  (x <= y)%Q -> (JS.Math_round x <= JS.Math_round y)%Q.
Proof.
  intros H. unfold JS.Math_round. rewrite <- Zle_Qle.
  apply Qfloor_resp_le. apply Qplus_le_compat; [exact H | apply Qle_refl].
Qed.

Lemma ofNat_le (n n' : nat) : (n <= n')%nat -> (JS.ofNat n <= JS.ofNat n')%Q.
Proof. intros H. unfold JS.ofNat. rewrite <- Zle_Qle. lia. Qed.

Lemma ofNat_nonneg (n : nat) : (0 <= JS.ofNat n)%Q.
Proof. unfold JS.ofNat. change 0%Q with (inject_Z 0). rewrite <- Zle_Qle. lia. Qed.

Lemma Qmult_le_nonneg_l (s a b : Q) :
  (0 <= s)%Q -> (a <= b)%Q -> (s * a <= s * b)%Q.
Proof.
  intros Hs H. rewrite (Qmult_comm s a), (Qmult_comm s b).
  apply Qmult_le_compat_r; assumption.
Qed.

Lemma Qdiv_le_pos (a b : Q) (k : Z) :
  (0 < k)%Z -> (a <= b)%Q -> (a / inject_Z k <= b / inject_Z k)%Q.
Proof.
  intros Hk H. unfold Qdiv. apply Qmult_le_compat_r; [exact H|].
  apply Qlt_le_weak, Qinv_lt_0_compat.
  change 0%Q with (inject_Z 0). rewrite <- Zlt_Qlt. exact Hk.
Qed.

(* ------------------------------------------------------------------ *)
(** * Calendar arithmetic *)

Lemma YearFromDay_spec (d : Z) :
  (JSDate.DayFromYear (JSDate.YearFromDay d) <= d
   < JSDate.DayFromYear (JSDate.YearFromDay d + 1))%Z.
Proof.
  unfold JSDate.YearFromDay, JSDate.DayFromYear.
  repeat match goal with
         | |- context [if ?b then _ else _] => destruct b eqn:?
         end; div_lia.
Qed.

Lemma DayFromYear_next (y : Z) :
  (JSDate.DayFromYear (y + 1) - JSDate.DayFromYear y
   = 365 + JSDate.InLeapYear y)%Z.
Proof.
  unfold JSDate.DayFromYear, JSDate.InLeapYear.
  destruct (_ && _) eqn:E; div_lia.
Qed.

Lemma DayFromYear_mono (y y' : Z) :
  (y <= y')%Z -> (JSDate.DayFromYear y <= JSDate.DayFromYear y')%Z.
Proof. unfold JSDate.DayFromYear. intros. div_lia. Qed.

Lemma YearFromDay_unique (d y : Z) :
  (JSDate.DayFromYear y <= d < JSDate.DayFromYear (y + 1))%Z ->
  JSDate.YearFromDay d = y.
Proof.
  intros H. pose proof (YearFromDay_spec d) as S.
  destruct (Z.lt_trichotomy (JSDate.YearFromDay d) y) as [L | [E | G]];
    [|exact E|].
  - pose proof (DayFromYear_mono (JSDate.YearFromDay d + 1) y). lia.
  - pose proof (DayFromYear_mono (y + 1) (JSDate.YearFromDay d)). lia.
Qed.

Lemma MonthFromDay_range (d : Z) : (0 <= JSDate.MonthFromDay d <= 11)%Z.
Proof.
  unfold JSDate.MonthFromDay.
  repeat match goal with
         | |- context [if ?b then _ else _] => destruct b
         end; lia.
Qed.

(** The day number rebuilt from the year, month and day of a day number. *)
Lemma MakeDay_of_fields (d : Z) :
  JSDate.MakeDay (JSDate.YearFromDay d) (JSDate.MonthFromDay d)
    (JSDate.DateFromDay d) = d.
Proof.
  pose proof (MonthFromDay_range d) as Hm.
  unfold JSDate.MakeDay, JSDate.DateFromDay.
  replace (JSDate.MonthFromDay d / 12)%Z with 0%Z by div_lia.
  replace (JSDate.MonthFromDay d mod 12)%Z with (JSDate.MonthFromDay d)
    by div_lia.
  rewrite Z.add_0_r. unfold JSDate.DayWithinYear. lia.
Qed.

Section DayBounds.

Variable LocalTZA : Z.

Lemma setHours_value (t h mi s ms : Z) :
  JSDate.setHours LocalTZA t h mi s ms
  = (JSDate.Day (JSDate.LocalTime LocalTZA t) * JSDate.msPerDay
     + JSDate.MakeTime h mi s ms - LocalTZA)%Z.
Proof. reflexivity. Qed.

(** A time of day keeps [setHours] within the day. *)
Lemma setHours_day (t h mi s ms : Z) :
  (0 <= JSDate.MakeTime h mi s ms < JSDate.msPerDay)%Z ->
  JSDate.Day (JSDate.LocalTime LocalTZA (JSDate.setHours LocalTZA t h mi s ms))
  = JSDate.Day (JSDate.LocalTime LocalTZA t)
  /\ JSDate.TimeWithinDay
       (JSDate.LocalTime LocalTZA (JSDate.setHours LocalTZA t h mi s ms))
     = JSDate.MakeTime h mi s ms.
Proof.
  intros H. rewrite setHours_value.
  unfold JSDate.LocalTime, JSDate.Day, JSDate.TimeWithinDay, JSDate.msPerDay
    in *.
  generalize dependent (JSDate.MakeTime h mi s ms). intros k H.
  split; div_lia.
Qed.

(** Between the first and the last millisecond of the day of [d] lie the
    instants of that local day, and no other. *)
Lemma within_day_iff (d x : Z) :
  (JSDate.setHours LocalTZA d 0 0 0 0 <= x
   <= JSDate.setHours LocalTZA d 23 59 59 999)%Z
  <-> JSDate.Day (JSDate.LocalTime LocalTZA x)
      = JSDate.Day (JSDate.LocalTime LocalTZA d).
Proof.
  rewrite !setHours_value.
  unfold JSDate.LocalTime, JSDate.Day, JSDate.MakeTime, JSDate.msPerDay.
  split; intros H; div_lia.
Qed.

(** Outside the years 0 to 99, the day rebuilt by the constructor from
    [getFullYear], [getMonth] and [getDate] is the day of [d]. *)
Lemma newDate_of_fields (d h mi s ms : Z) :
  ~ (0 <= JSDate.getFullYear LocalTZA d <= 99)%Z ->
  JSDate.newDate LocalTZA (JSDate.getFullYear LocalTZA d)
    (JSDate.getMonth LocalTZA d) (JSDate.getDate LocalTZA d) h mi s ms
  = JSDate.setHours LocalTZA d h mi s ms.
Proof.
  intros Hy. unfold JSDate.newDate, JSDate.setHours.
  destruct ((0 <=? _)%Z && (_ <=? 99)%Z) eqn:E.
  - apply andb_true_iff in E. rewrite !Z.leb_le in E. contradiction.
  - unfold JSDate.getFullYear, JSDate.getMonth, JSDate.getDate.
    rewrite MakeDay_of_fields. reflexivity.
Qed.

End DayBounds.

(** ** The range of a month *)

Lemma InLeapYear_bit (y : Z) : JSDate.InLeapYear y = 0%Z \/ JSDate.InLeapYear y = 1%Z.
Proof. unfold JSDate.InLeapYear. destruct (_ && _); auto. Qed.

Lemma MonthStart_table (l : Z) :
  JSDate.MonthStart l 0 = 0%Z /\ JSDate.MonthStart l 1 = 31%Z
  /\ JSDate.MonthStart l 2 = (59 + l)%Z /\ JSDate.MonthStart l 3 = (90 + l)%Z
  /\ JSDate.MonthStart l 4 = (120 + l)%Z /\ JSDate.MonthStart l 5 = (151 + l)%Z
  /\ JSDate.MonthStart l 6 = (181 + l)%Z /\ JSDate.MonthStart l 7 = (212 + l)%Z
  /\ JSDate.MonthStart l 8 = (243 + l)%Z /\ JSDate.MonthStart l 9 = (273 + l)%Z
  /\ JSDate.MonthStart l 10 = (304 + l)%Z
  /\ JSDate.MonthStart l 11 = (334 + l)%Z
  /\ JSDate.MonthStart l 12 = (365 + l)%Z.
Proof. repeat split. Qed.

Lemma month_of_day_iff (y m D : Z) :
  (0 <= m <= 11)%Z ->
  (JSDate.DayFromYear y + JSDate.MonthStart (JSDate.InLeapYear y) m <= D
   < JSDate.DayFromYear y + JSDate.MonthStart (JSDate.InLeapYear y) (m + 1))%Z
  <-> JSDate.YearFromDay D = y /\ JSDate.MonthFromDay D = m.
Proof.
  intros Hm.
  pose proof (DayFromYear_next y) as N.
  pose proof (InLeapYear_bit y) as L.
  destruct (MonthStart_table (JSDate.InLeapYear y))
    as (M0 & M1 & M2 & M3 & M4 & M5 & M6 & M7 & M8 & M9 & M10 & M11 & M12).
  assert (Hcases : (m = 0 \/ m = 1 \/ m = 2 \/ m = 3 \/ m = 4 \/ m = 5
                    \/ m = 6 \/ m = 7 \/ m = 8 \/ m = 9 \/ m = 10
                    \/ m = 11)%Z) by lia.
  split.
  - intros H.
    assert (Y : JSDate.YearFromDay D = y).
    { apply YearFromDay_unique.
      repeat destruct Hcases as [-> | Hcases]; try subst m;
        simpl (_ + 1)%Z in H; lia. }
    split; [exact Y|].
    unfold JSDate.MonthFromDay, JSDate.DayWithinYear. rewrite Y.
    repeat destruct Hcases as [-> | Hcases]; try subst m;
      simpl (_ + 1)%Z in H;
      repeat match goal with
             | |- context [if ?b then _ else _] => destruct b eqn:?
             end; lia.
  - intros [Y M]. pose proof (YearFromDay_spec D) as S. rewrite Y in S.
    unfold JSDate.MonthFromDay, JSDate.DayWithinYear in M. rewrite Y in M.
    repeat destruct Hcases as [-> | Hcases]; try subst m;
      simpl (_ + 1)%Z;
      repeat match goal with
             | H : context [if ?b then _ else _] |- _ => destruct b eqn:?
             end; lia.
Qed.

Lemma MakeDay_first (y m : Z) :
  (1 <= m <= 12)%Z ->
  JSDate.MakeDay y (m - 1) 1
  = (JSDate.DayFromYear y + JSDate.MonthStart (JSDate.InLeapYear y) (m - 1))%Z.
Proof.
  intros H. unfold JSDate.MakeDay. cbv zeta.
  replace ((m - 1) / 12)%Z with 0%Z by div_lia.
  replace ((m - 1) mod 12)%Z with (m - 1)%Z by div_lia.
  rewrite Z.add_0_r. lia.
Qed.

Lemma MakeDay_last (y m : Z) :
  (1 <= m <= 12)%Z ->
  JSDate.MakeDay y m 0
  = (JSDate.DayFromYear y + JSDate.MonthStart (JSDate.InLeapYear y) m - 1)%Z.
Proof.
  intros H. unfold JSDate.MakeDay. cbv zeta.
  destruct (Z.eq_dec m 12) as [-> | Hne].
  - change (12 / 12)%Z with 1%Z. change (12 mod 12)%Z with 0%Z.
    pose proof (DayFromYear_next y).
    destruct (MonthStart_table (JSDate.InLeapYear y))
      as (_ & _ & _ & _ & _ & _ & _ & _ & _ & _ & _ & _ & M12).
    destruct (MonthStart_table (JSDate.InLeapYear (y + 1))) as (M0 & _).
    lia.
  - replace (m / 12)%Z with 0%Z by div_lia.
    replace (m mod 12)%Z with m by div_lia.
    rewrite !Z.add_0_r. lia.
Qed.

(** For a month from 1 to 12 of a year outside 0 to 99, the range from
    [startOfMonth] to [endOfMonth] holds the instants whose local year and
    month are that year and month, and no other. *)
Lemma month_range_is_calendar_month (LocalTZA y m t : Z) :
  (1 <= m <= 12)%Z -> ~ (0 <= y <= 99)%Z ->
  (Email.startOfMonth LocalTZA y m <= t <= Email.endOfMonth LocalTZA y m)%Z
  <-> JSDate.getFullYear LocalTZA t = y
      /\ JSDate.getMonth LocalTZA t = (m - 1)%Z.
Proof.
  intros Hm Hy.
  unfold Email.startOfMonth, Email.endOfMonth, JSDate.newDate,
    JSDate.getFullYear, JSDate.getMonth.
  assert (E : ((0 <=? y) && (y <=? 99))%Z = false).
  { apply andb_false_iff. rewrite Z.leb_gt, Z.leb_gt. lia. }
  rewrite E, MakeDay_first, MakeDay_last by exact Hm.
  rewrite <- (month_of_day_iff y (m - 1)) by lia.
  replace (m - 1 + 1)%Z with m by lia.
  unfold JSDate.UTC, JSDate.MakeDate, JSDate.MakeTime, JSDate.LocalTime,
    JSDate.Day, JSDate.msPerDay.
  generalize (JSDate.DayFromYear y
              + JSDate.MonthStart (JSDate.InLeapYear y) (m - 1))%Z.
  generalize (JSDate.DayFromYear y
              + JSDate.MonthStart (JSDate.InLeapYear y) m)%Z.
  intros b a. split; intros H; div_lia.
Qed.

(* ------------------------------------------------------------------ *)
(** * The salary of a month *)

Lemma calcSalaryForMonth_returns LocalTZA st id emp y m :
  Email.findById id (Email.employees st) = Some emp ->
  Email.calcSalaryForMonth LocalTZA st id y m =
  JS.Return
    {| Email.slip_employee := emp;
       Email.slip_year := y;
       Email.slip_month := m;
       Email.presentDays :=
         Mongo.countDocuments
           (Email.presentIn id (Email.startOfMonth LocalTZA y m)
              (Email.endOfMonth LocalTZA y m)) (Email.attendance st);
       Email.calculatedSalary :=
         JS.Math_round
           (JS.times (Email.monthlySalary emp)
              (JS.over
                 (JS.ofNat
                    (Mongo.countDocuments
                       (Email.presentIn id (Email.startOfMonth LocalTZA y m)
                          (Email.endOfMonth LocalTZA y m))
                       (Email.attendance st)))
                 (inject_Z 30))) |}.
Proof.
  intros H. unfold Email.calcSalaryForMonth. rewrite H. reflexivity.
Qed.

Lemma calculateSalary_returns LocalTZA st id emp y m :
  Username.findById id (Username.employees st) = Some emp ->
  exists slip,
    Username.calculateSalary LocalTZA st id y m = JS.Return slip
    /\ Username.slip_employee slip = emp
    /\ Username.presentDays slip =
       Mongo.countDocuments
         (Username.presentIn id (Username.startOfMonth LocalTZA y m)
            (Username.endOfMonth LocalTZA y m)) (Username.attendance st)
    /\ Username.calculatedSalary slip =
       JS.over
         (JS.Math_round
            (JS.times
               (JS.times (JS.over (Username.salary emp) (inject_Z 30))
                  (JS.ofNat (Username.presentDays slip)))
               (inject_Z 100)))
         (inject_Z 100)
    /\ Username.baseSalary slip = Username.salary emp.
Proof.
  intros H. unfold Username.calculateSalary. rewrite H.
  eexists. split; [reflexivity|]. simpl. auto.
Qed.

Section SalaryError.
Local Open Scope Q_scope.

Lemma proportional_abs (S : Q) (n : nat) :
  Qabs (Spec.proportional S n) == Qabs S * (JS.ofNat n / inject_Z 30).
Proof.
  unfold Spec.proportional.
  assert (R : S / inject_Z 30 * JS.ofNat n == S * (JS.ofNat n / inject_Z 30))
    by (change (inject_Z 30) with 30; field).
  rewrite R, Qabs_Qmult.
  rewrite (Qabs_pos (JS.ofNat n / inject_Z 30)); [reflexivity|].
  pose proof (ofNat_nonneg n) as H. change (inject_Z 30) with 30.
  assert (E : JS.ofNat n / 30 == JS.ofNat n * (1 # 30)) by field.
  rewrite E. lra.
Qed.

(** The error of [Math.round (S * (n / 30))] computed in doubles. *)
Lemma email_salary_error (S : Q) (n : nat) :
  Qabs S <= JS.pow2 900 ->
  Qabs (JS.Math_round (JS.times S (JS.over (JS.ofNat n) (inject_Z 30)))
        - Spec.proportional S n)
  <= (1 # 2) + (Qabs (Spec.proportional S n) + 1) * JS.pow2 (-51).
Proof.
  intros HS.
  pose proof (proportional_abs S n) as A.
  pose proof (ofNat_nonneg n) as N0.
  pose proof (Qabs_nonneg S) as S0.
  set (N := JS.ofNat n) in *.
  set (X := Spec.proportional S n) in *.
  set (a := JS.over N (inject_Z 30)).
  assert (Ea : Qabs (a - N / inject_Z 30)
               <= (N / inject_Z 30) * JS.pow2 (-53) + JS.pow2 (-1075)).
  { pose proof (fl_near (N / inject_Z 30) (N / inject_Z 30) 0) as F.
    assert (Z0 : Qabs (N / inject_Z 30 - N / inject_Z 30) <= 0).
    { assert (R : N / inject_Z 30 - N / inject_Z 30 == 0) by ring.
      rewrite R. apply Qle_refl. }
    specialize (F Z0).
    rewrite (Qabs_pos (N / inject_Z 30)) in F.
    - unfold a, JS.over. lra.
    - change (inject_Z 30) with 30.
      assert (E : N / 30 == N * (1 # 30)) by field. rewrite E. lra. }
  assert (Ep : Qabs (S * a - X)
               <= Qabs X * JS.pow2 (-53) + Qabs S * JS.pow2 (-1075)).
  { assert (R : S * a - X == (a - N / inject_Z 30) * S).
    { unfold X, Spec.proportional. fold N. change (inject_Z 30) with 30.
      field. }
    rewrite R, Qabs_Qmult, A.
    assert (M : Qabs (a - N / inject_Z 30) * Qabs S
                <= ((N / inject_Z 30) * JS.pow2 (-53) + JS.pow2 (-1075))
                   * Qabs S).
    { apply Qmult_le_compat_r; assumption. }
    assert (R2 : (N / inject_Z 30 * JS.pow2 (-53) + JS.pow2 (-1075)) * Qabs S
                 == Qabs S * (N / inject_Z 30) * JS.pow2 (-53)
                    + Qabs S * JS.pow2 (-1075)) by ring.
    rewrite R2 in M. exact M. }
  pose proof (fl_near _ _ _ Ep) as Ef.
  pose proof (Math_round_near _ _ _ Ef) as Er.
  fold (JS.times S a) in Er.
  pose proof (Qabs_nonneg X) as X0.
  assert (B : Qabs S * JS.pow2 (-1075) <= JS.pow2 (-175)).
  { assert (M : Qabs S * JS.pow2 (-1075) <= JS.pow2 900 * JS.pow2 (-1075)).
    { apply Qmult_le_compat_r; [exact HS | apply Qlt_le_weak, pow2_pos]. }
    rewrite <- pow2_add in M. exact M. }
  set (w := Qabs S * JS.pow2 (-1075)) in *.
  set (t := Qabs X) in *.
  assert (W0 : 0 <= w).
  { unfold w. apply Qmult_le_0_compat; [exact S0|].
    apply Qlt_le_weak, pow2_pos. }
  clearbody w t.
  let v := eval vm_compute in (JS.pow2 (-53)) in
    change (JS.pow2 (-53)) with v in *.
  let v := eval vm_compute in (JS.pow2 (-51)) in
    change (JS.pow2 (-51)) with v in *.
  let v := eval vm_compute in (JS.pow2 (-175)) in
    change (JS.pow2 (-175)) with v in *.
  let v := eval vm_compute in (JS.pow2 (-1075)) in
    change (JS.pow2 (-1075)) with v in *.
  lra.
Qed.

(** The error of [Math.round (S / 30 * n * 100) / 100] computed in
    doubles. *)
Lemma username_salary_error (S : Q) (n : nat) :
  JS.ofNat n <= JS.pow2 53 ->
  Qabs (JS.over
          (JS.Math_round
             (JS.times (JS.times (JS.over S (inject_Z 30)) (JS.ofNat n))
                (inject_Z 100)))
          (inject_Z 100)
        - Spec.proportional S n)
  <= (1 # 200) + (Qabs (Spec.proportional S n) + 1) * JS.pow2 (-50).
Proof.
  intros HN.
  pose proof (ofNat_nonneg n) as N0.
  set (N := JS.ofNat n) in *.
  set (X := Spec.proportional S n).
  set (q := S / inject_Z 30).
  assert (A : Qabs X == Qabs q * N).
  { unfold X, Spec.proportional. fold N. fold q.
    rewrite Qabs_Qmult, (Qabs_pos N N0). reflexivity. }
  set (d := JS.over S (inject_Z 30)).
  assert (Ed : Qabs (d - q) <= Qabs q * JS.pow2 (-53) + JS.pow2 (-1075)).
  { apply fl_error. }
  assert (Ec0 : Qabs (d * N - X)
                <= Qabs X * JS.pow2 (-53) + JS.pow2 (-1075) * N).
  { assert (R : d * N - X == (d - q) * N).
    { unfold X, Spec.proportional. fold N. fold q. ring. }
    rewrite R, Qabs_Qmult, (Qabs_pos N N0), A.
    assert (M : Qabs (d - q) * N
                <= (Qabs q * JS.pow2 (-53) + JS.pow2 (-1075)) * N).
    { apply Qmult_le_compat_r; assumption. }
    assert (R2 : (Qabs q * JS.pow2 (-53) + JS.pow2 (-1075)) * N
                 == Qabs q * N * JS.pow2 (-53) + JS.pow2 (-1075) * N) by ring.
    rewrite R2 in M. exact M. }
  pose proof (fl_near _ _ _ Ec0) as Ec. fold (JS.times d N) in Ec.
  set (c := JS.times d N) in *.
  assert (Eh0 : Qabs (c * inject_Z 100 - X * inject_Z 100)
                <= (Qabs X * JS.pow2 (-53) + JS.pow2 (-1075) * N
                    + (Qabs X
                       + (Qabs X * JS.pow2 (-53) + JS.pow2 (-1075) * N))
                      * JS.pow2 (-53) + JS.pow2 (-1075)) * 100).
  { rewrite Qabs_scaled. change (Qabs (inject_Z 100)) with 100.
    apply Qmult_le_compat_r; [exact Ec | discriminate]. }
  pose proof (fl_near _ _ _ Eh0) as Eh. fold (JS.times c (inject_Z 100)) in Eh.
  set (h := JS.times c (inject_Z 100)) in *.
  pose proof (Math_round_near _ _ _ Eh) as Ek.
  set (k := JS.Math_round h) in *.
  assert (A100 : Qabs (X * inject_Z 100) == Qabs X * 100).
  { rewrite Qabs_Qmult. reflexivity. }
  rewrite A100 in Ek.
  match type of Ek with _ <= ?b => set (bk := b) in * end.
  assert (Er0 : Qabs (k / inject_Z 100 - X) <= bk * (1 # 100)).
  { assert (R : k / inject_Z 100 - X
                == (k - X * inject_Z 100) * (1 # 100)).
    { change (inject_Z 100) with 100. field. }
    rewrite R, Qabs_Qmult. change (Qabs (1 # 100)) with (1 # 100).
    apply Qmult_le_compat_r; [exact Ek | discriminate]. }
  pose proof (fl_near _ _ _ Er0) as Er. fold (JS.over k (inject_Z 100)) in Er.
  assert (B : JS.pow2 (-1075) * N <= JS.pow2 (-1022)).
  { assert (M : JS.pow2 (-1075) * N <= JS.pow2 (-1075) * JS.pow2 53).
    { apply Qmult_le_nonneg_l; [apply Qlt_le_weak, pow2_pos | exact HN]. }
    rewrite <- pow2_add in M. exact M. }
  assert (W0 : 0 <= JS.pow2 (-1075) * N).
  { apply Qmult_le_0_compat; [apply Qlt_le_weak, pow2_pos | exact N0]. }
  pose proof (Qabs_nonneg X) as X0.
  unfold bk in Er.
  set (w := JS.pow2 (-1075) * N) in *.
  set (t := Qabs X) in *.
  clearbody w t.
  let v := eval vm_compute in (JS.pow2 (-53)) in
    change (JS.pow2 (-53)) with v in *.
  let v := eval vm_compute in (JS.pow2 (-50)) in
    change (JS.pow2 (-50)) with v in *.
  let v := eval vm_compute in (JS.pow2 (-1022)) in
    change (JS.pow2 (-1022)) with v in *.
  let v := eval vm_compute in (JS.pow2 (-1075)) in
    change (JS.pow2 (-1075)) with v in *.
  lra.
Qed.

End SalaryError.

Lemma not_roundedTo (unit x r : Q) :
  Qle_bool (Qabs (r - x)) (unit / inject_Z 2) = false ->
  ~ Spec.roundedTo unit x r.
Proof.
  intros H [_ L]. apply Qle_bool_iff in L. rewrite L in H. discriminate.
Qed.

(** The salary is not always the rounded (S / 30) x presentDays: with
    S = 45015 and 21 present days the e-mail based services return 31510
    where rounding 31510.5 as Math.round does gives 31511; with S = 10^17
    and one present day their result is more than half a unit away, and
    with S = 10^15 and 7 present days the result of the username based
    service is more than half a cent away. *)
Lemma double_rounding_moves_the_salary :
  (exists slip,
      Email.calcSalaryForMonth 0 (Demo.emailPaid (inject_Z 45015) 21) 1%nat
        2025 3 = JS.Return slip
      /\ Email.monthlySalary (Email.slip_employee slip) = inject_Z 45015
      /\ Email.presentDays slip = 21%nat
      /\ Email.calculatedSalary slip = inject_Z 31510
      /\ JS.Math_round (Spec.proportional (inject_Z 45015) 21)
         = inject_Z 31511)
  /\ (exists slip,
         Email.calcSalaryForMonth 0
           (Demo.emailPaid (inject_Z (10 ^ 17)) 1) 1%nat 2025 3
         = JS.Return slip
         /\ Email.monthlySalary (Email.slip_employee slip)
            = inject_Z (10 ^ 17)
         /\ Email.presentDays slip = 1%nat
         /\ ~ Spec.roundedTo 1%Q
                (Spec.proportional (inject_Z (10 ^ 17)) 1)
                (Email.calculatedSalary slip))
  /\ (exists slip,
         Username.calculateSalary 0
           (Demo.userPaid (inject_Z (10 ^ 15)) 7) 1%nat 2025 3
         = JS.Return slip
         /\ Username.baseSalary slip = inject_Z (10 ^ 15)
         /\ Username.presentDays slip = 7%nat
         /\ ~ Spec.roundedTo (1 # 100)
                (Spec.proportional (inject_Z (10 ^ 15)) 7)
                (Username.calculatedSalary slip)).
Proof.
  split; [|split].
  - eexists. split; [vm_compute; reflexivity|].
    repeat split; vm_compute; reflexivity.
  - eexists. split; [vm_compute; reflexivity|].
    split; [reflexivity|]. split; [reflexivity|].
    apply not_roundedTo. vm_compute. reflexivity.
  - eexists. split; [vm_compute; reflexivity|].
    split; [reflexivity|]. split; [reflexivity|].
    apply not_roundedTo. vm_compute. reflexivity.
Qed.

Lemma countDocuments_bounded {A : Type} (p : A -> bool) (c : list A) :
  (JS.ofNat (List.length c) <= JS.pow2 53)%Q ->
  (JS.ofNat (Mongo.countDocuments p c) <= JS.pow2 53)%Q.
Proof.
  intros H. apply Qle_trans with (JS.ofNat (List.length c)); [|exact H].
  apply ofNat_le. unfold Mongo.countDocuments. apply filter_length_le.
Qed.

Lemma email_salary_example (S : Q) :
  (S == inject_Z 30000)%Q ->
  JS.Math_round (JS.times S (JS.over (JS.ofNat 20) (inject_Z 30)))
  = inject_Z 20000.
Proof.
  intros E. unfold JS.times.
  rewrite (fl_compat (S * JS.over (JS.ofNat 20) (inject_Z 30))
             (inject_Z 30000 * JS.over (JS.ofNat 20) (inject_Z 30)))
    by (rewrite E; reflexivity).
  vm_compute. reflexivity.
Qed.

Lemma username_salary_example (S : Q) :
  (S == inject_Z 30000)%Q ->
  JS.over
    (JS.Math_round
       (JS.times (JS.times (JS.over S (inject_Z 30)) (JS.ofNat 20))
          (inject_Z 100)))
    (inject_Z 100)
  = inject_Z 20000.
Proof.
  intros E. unfold JS.over at 2.
  rewrite (fl_compat (S / inject_Z 30) (inject_Z 30000 / inject_Z 30))
    by (rewrite E; reflexivity).
  vm_compute. reflexivity.
Qed.

(** C1.  For an existing employee of monthly salary S and any year and
    month whose first and last instants are dates, the computed salary is
    (S / 30) x presentDays rounded, as far as double precision arithmetic
    gives it.  [calcSalaryForMonth] of the
    e-mail based services returns Math.round (S * (presentDays / 30)), an
    integer within 1/2 + (|X| + 1) * 2^-51 of X = (S / 30) x presentDays;
    [calculateSalary] of the username based one returns
    Math.round (S / 30 * presentDays * 100) / 100, the double of a number of
    two decimal places, within 1/200 + (|X| + 1) * 2^-50 of X.  Each
    product and quotient is rounded to the nearest double; |S| <= 2^900 and
    at most 2^53 attendance records keep the doubles finite.  The divisor is
    30 whatever the month.  With S = 30000 and 20 present days the result is
    20000. *)
Theorem salary_is_thirtieths_of_present_days :
  forall (LocalTZA : Z) (st : Email.Store) (st' : Username.Store)
         (id : Mongo.ObjectId) (emp : Email.Employee)
         (emp' : Username.Employee) (y m : Z),
    Email.findById id (Email.employees st) = Some emp ->
    Username.findById id (Username.employees st') = Some emp' ->
    (Qabs (Email.monthlySalary emp) <= JS.pow2 900)%Q ->
    (Qabs (Username.salary emp') <= JS.pow2 900)%Q ->
    (JS.ofNat (List.length (Email.attendance st)) <= JS.pow2 53)%Q ->
    (JS.ofNat (List.length (Username.attendance st')) <= JS.pow2 53)%Q ->
    JSDate.isDate (Email.startOfMonth LocalTZA y m) = true ->
    JSDate.isDate (Email.endOfMonth LocalTZA y m) = true ->
    (exists slip,
        Email.calcSalaryForMonth LocalTZA st id y m = JS.Return slip
        /\ Email.calculatedSalary slip =
           JS.Math_round
             (JS.times (Email.monthlySalary emp)
                (JS.over (JS.ofNat (Email.presentDays slip)) (inject_Z 30)))
        /\ (exists k : Z, Email.calculatedSalary slip = inject_Z k)
        /\ (Qabs (Email.calculatedSalary slip
                  - Spec.proportional (Email.monthlySalary emp)
                      (Email.presentDays slip))
            <= (1 # 2)
               + (Qabs (Spec.proportional (Email.monthlySalary emp)
                          (Email.presentDays slip)) + 1)
                 * JS.pow2 (-51))%Q
        /\ ((Email.monthlySalary emp == inject_Z 30000)%Q ->
            Email.presentDays slip = 20%nat ->
            Email.calculatedSalary slip = inject_Z 20000))
    /\ (exists slip,
        Username.calculateSalary LocalTZA st' id y m = JS.Return slip
        /\ Username.calculatedSalary slip =
           JS.over
             (JS.Math_round
                (JS.times
                   (JS.times (JS.over (Username.salary emp') (inject_Z 30))
                      (JS.ofNat (Username.presentDays slip)))
                   (inject_Z 100)))
             (inject_Z 100)
        /\ (exists k : Z,
               Username.calculatedSalary slip
               = JS.fl (inject_Z k / inject_Z 100))
        /\ (Qabs (Username.calculatedSalary slip
                  - Spec.proportional (Username.salary emp')
                      (Username.presentDays slip))
            <= (1 # 200)
               + (Qabs (Spec.proportional (Username.salary emp')
                          (Username.presentDays slip)) + 1)
                 * JS.pow2 (-50))%Q
        /\ ((Username.salary emp' == inject_Z 30000)%Q ->
            Username.presentDays slip = 20%nat ->
            Username.calculatedSalary slip = inject_Z 20000)).
Proof.
  intros tz st st' id emp emp' y m He Hu HS HS' HN HN' _ _. split.
  - rewrite (calcSalaryForMonth_returns tz st id emp y m He).
    eexists. split; [reflexivity|].
    cbn [Email.calculatedSalary Email.presentDays].
    set (n := Mongo.countDocuments _ _).
    split; [reflexivity|]. split; [eexists; reflexivity|].
    split; [apply email_salary_error; exact HS|].
    intros E Hn. rewrite Hn. apply email_salary_example. exact E.
  - destruct (calculateSalary_returns tz st' id emp' y m Hu)
      as (slip & Hr & _ & Hn & Hc & _).
    exists slip. split; [exact Hr|]. rewrite Hc.
    split; [reflexivity|]. split; [eexists; reflexivity|].
    split.
    + apply username_salary_error. rewrite Hn.
      apply countDocuments_bounded. exact HN'.
    + intros E H20. rewrite H20. apply username_salary_example. exact E.
Qed.

Lemma salary_is_thirtieths_of_present_days_witness :
  Email.findById 1%nat (Email.employees Demo.emailStore) = Some Demo.emailEmployee
  /\ Username.findById 1%nat (Username.employees Demo.userStore)
     = Some Demo.userEmployee
  /\ (Qabs (Email.monthlySalary Demo.emailEmployee) <= JS.pow2 900)%Q
  /\ (Qabs (Username.salary Demo.userEmployee) <= JS.pow2 900)%Q
  /\ (JS.ofNat (List.length (Email.attendance Demo.emailStore))
      <= JS.pow2 53)%Q
  /\ (JS.ofNat (List.length (Username.attendance Demo.userStore))
      <= JS.pow2 53)%Q
  /\ JSDate.isDate (Email.startOfMonth 0 2025 3) = true
  /\ JSDate.isDate (Email.endOfMonth 0 2025 3) = true
  /\ (exists slip,
         Email.calcSalaryForMonth 0 Demo.emailStore 1%nat 2025 3 = JS.Return slip
         /\ Email.presentDays slip = 20%nat
         /\ Email.calculatedSalary slip = inject_Z 20000)
  /\ (exists slip,
         Username.calculateSalary 0 Demo.userStore 1%nat 2025 3 = JS.Return slip
         /\ Username.presentDays slip = 20%nat
         /\ Username.calculatedSalary slip = inject_Z 20000).
Proof.
  assert (B1 : (Qabs (Email.monthlySalary Demo.emailEmployee)
                <= JS.pow2 900)%Q) by (vm_compute; discriminate).
  assert (B2 : (Qabs (Username.salary Demo.userEmployee)
                <= JS.pow2 900)%Q) by (vm_compute; discriminate).
  assert (B3 : (JS.ofNat (List.length (Email.attendance Demo.emailStore))
                <= JS.pow2 53)%Q) by (vm_compute; discriminate).
  assert (B4 : (JS.ofNat (List.length (Username.attendance Demo.userStore))
                <= JS.pow2 53)%Q) by (vm_compute; discriminate).
  destruct (salary_is_thirtieths_of_present_days 0 Demo.emailStore
              Demo.userStore 1%nat Demo.emailEmployee Demo.userEmployee 2025 3
              eq_refl eq_refl B1 B2 B3 B4 eq_refl eq_refl)
    as [(slip & Hr & _ & _ & _ & H) (slip' & Hr' & _ & _ & _ & H')].
  split; [reflexivity|]. split; [reflexivity|].
  split; [exact B1|]. split; [exact B2|]. split; [exact B3|].
  split; [exact B4|]. split; [reflexivity|]. split; [reflexivity|]. split.
  - exists slip.
    assert (Hn : Email.presentDays slip = 20%nat).
    { vm_compute in Hr. injection Hr as <-. reflexivity. }
    split; [exact Hr|]. split; [exact Hn|].
    apply H; [reflexivity | exact Hn].
  - exists slip'.
    assert (Hn : Username.presentDays slip' = 20%nat).
    { vm_compute in Hr'. injection Hr' as <-. reflexivity. }
    split; [exact Hr'|]. split; [exact Hn|].
    apply H'; [reflexivity | exact Hn].
Defined.

(** ** Counting the present days *)

Section Counting.

Context {A : Type}.
Variable P : A -> Prop.
Variable f : A -> bool.
Hypothesis f_decides : forall a, f a = true <-> P a.

Lemma counts_countDocuments (c : list A) :
  Spec.counts P c (Mongo.countDocuments f c).
Proof.
  unfold Mongo.countDocuments.
  induction c as [|a c IH]; simpl.
  - constructor.
  - destruct (f a) eqn:E; simpl.
    + apply Spec.counts_in; [apply f_decides; exact E | exact IH].
    + apply Spec.counts_out; [|exact IH].
      intros HP. apply f_decides in HP. congruence.
Qed.

Lemma counts_unique (c : list A) (n n' : nat) :
  Spec.counts P c n -> Spec.counts P c n' -> n = n'.
Proof.
  intros H. revert n'.
  induction H as [|a l n Ha H IH|a l n Ha H IH]; intros n' H';
    inversion H'; subst; try contradiction; auto.
Qed.

Lemma countDocuments_perm (c c' : list A) :
  Permutation c c' -> Mongo.countDocuments f c = Mongo.countDocuments f c'.
Proof.
  unfold Mongo.countDocuments.
  induction 1 as [|a l l' _ IH|a b l|l l' l'' _ IH1 _ IH2]; simpl.
  - reflexivity.
  - destruct (f a); simpl; congruence.
  - destruct (f a), (f b); reflexivity.
  - congruence.
Qed.

End Counting.

Lemma Email_presentIn_decides id from to a :
  Email.presentIn id from to a = true <->
  Email.employee a = id /\ Email.status a = "present"
  /\ (from <= Email.date a <= to)%Z.
Proof.
  unfold Email.presentIn.
  rewrite !andb_true_iff, Nat.eqb_eq, String.eqb_eq, !Z.leb_le. tauto.
Qed.

Lemma Username_presentIn_decides id from to a :
  Username.presentIn id from to a = true <->
  Username.employee a = id /\ Username.status a = "present"
  /\ (from <= Username.date a <= to)%Z.
Proof.
  unfold Username.presentIn.
  rewrite !andb_true_iff, Nat.eqb_eq, String.eqb_eq, !Z.leb_le. tauto.
Qed.

(** For an existing employee, the [presentDays] of the computed salary is
    the number of stored attendance records of that employee whose status is
    present and whose date lies between the instants of [startOfMonth] and
    [endOfMonth], both included; it is the same for every order of the
    stored records.  For a month from 1 to 12 of a year outside 0 to 99 the
    two instants enclose the instants of that local calendar month and no
    other. *)
Lemma presentDays_counts_records_between_the_bounds :
  forall (LocalTZA : Z) (st : Email.Store) (st' : Username.Store)
         (id : Mongo.ObjectId) (emp : Email.Employee)
         (emp' : Username.Employee) (y m : Z),
    Email.findById id (Email.employees st) = Some emp ->
    Username.findById id (Username.employees st') = Some emp' ->
    (exists slip,
        Email.calcSalaryForMonth LocalTZA st id y m = JS.Return slip
        /\ Spec.counts
             (fun a => Email.employee a = id /\ Email.status a = "present"
                       /\ (Email.startOfMonth LocalTZA y m <= Email.date a
                           <= Email.endOfMonth LocalTZA y m)%Z)
             (Email.attendance st) (Email.presentDays slip)
        /\ forall atts,
             Permutation (Email.attendance st) atts ->
             exists slip2,
               Email.calcSalaryForMonth LocalTZA
                 (Email.mkStore (Email.employees st) atts (Email.nextId st))
                 id y m = JS.Return slip2
               /\ Email.presentDays slip2 = Email.presentDays slip)
    /\ (exists slip,
        Username.calculateSalary LocalTZA st' id y m = JS.Return slip
        /\ Spec.counts
             (fun a => Username.employee a = id
                       /\ Username.status a = "present"
                       /\ (Username.startOfMonth LocalTZA y m
                           <= Username.date a
                           <= Username.endOfMonth LocalTZA y m)%Z)
             (Username.attendance st') (Username.presentDays slip)
        /\ forall atts,
             Permutation (Username.attendance st') atts ->
             exists slip2,
               Username.calculateSalary LocalTZA
                 (Username.mkStore (Username.employees st') atts
                    (Username.nextId st'))
                 id y m = JS.Return slip2
               /\ Username.presentDays slip2 = Username.presentDays slip)
    /\ ((1 <= m <= 12)%Z -> ~ (0 <= y <= 99)%Z ->
        forall t,
          ((Email.startOfMonth LocalTZA y m <= t
            <= Email.endOfMonth LocalTZA y m)%Z
           <-> JSDate.getFullYear LocalTZA t = y
               /\ JSDate.getMonth LocalTZA t = (m - 1)%Z)
          /\ ((Username.startOfMonth LocalTZA y m <= t
               <= Username.endOfMonth LocalTZA y m)%Z
              <-> JSDate.getFullYear LocalTZA t = y
                  /\ JSDate.getMonth LocalTZA t = (m - 1)%Z)).
Proof.
  intros tz st st' id emp emp' y m He Hu.
  split; [|split];
    [| |intros Hm Hy t; split;
        exact (month_range_is_calendar_month tz y m t Hm Hy)].
  - rewrite (calcSalaryForMonth_returns tz st id emp y m He).
    eexists. split; [reflexivity|]. cbn [Email.presentDays]. split.
    + apply counts_countDocuments. intros a. apply Email_presentIn_decides.
    + intros atts Hp.
      rewrite (calcSalaryForMonth_returns tz
                 (Email.mkStore (Email.employees st) atts (Email.nextId st))
                 id emp y m He).
      eexists. split; [reflexivity|]. cbn [Email.presentDays Email.attendance].
      symmetry. apply countDocuments_perm, Hp.
  - destruct (calculateSalary_returns tz st' id emp' y m Hu)
      as (slip & Hr & _ & Hn & _).
    exists slip. split; [exact Hr|]. rewrite Hn. split.
    + apply counts_countDocuments. intros a. apply Username_presentIn_decides.
    + intros atts Hp.
      destruct (calculateSalary_returns tz
                  (Username.mkStore (Username.employees st') atts
                     (Username.nextId st')) id emp' y m Hu)
        as (slip2 & Hr2 & _ & Hn2 & _).
      exists slip2. split; [exact Hr2|]. rewrite Hn2.
      cbn [Username.attendance]. symmetry. apply countDocuments_perm, Hp.
Qed.

Lemma presentDays_counts_records_between_the_bounds_at_demo :
  Email.findById 1%nat (Email.employees Demo.emailStore)
  = Some Demo.emailEmployee
  /\ Username.findById 1%nat (Username.employees Demo.userStore)
     = Some Demo.userEmployee
  /\ (exists slip,
         Email.calcSalaryForMonth 0 Demo.emailStore 1%nat 2025 3
         = JS.Return slip
         /\ Spec.counts
              (fun a => Email.employee a = 1%nat
                        /\ Email.status a = "present"
                        /\ (1740787200000 <= Email.date a <= 1743465599999)%Z)
              (Email.attendance Demo.emailStore) (Email.presentDays slip))
  /\ (exists slip,
         Username.calculateSalary 0 Demo.userStore 1%nat 2025 3
         = JS.Return slip
         /\ Spec.counts
              (fun a => Username.employee a = 1%nat
                        /\ Username.status a = "present"
                        /\ (1740787200000 <= Username.date a
                            <= 1743465599999)%Z)
              (Username.attendance Demo.userStore)
              (Username.presentDays slip)).
Proof.
  destruct (presentDays_counts_records_between_the_bounds 0 Demo.emailStore
              Demo.userStore 1%nat Demo.emailEmployee Demo.userEmployee 2025 3
              eq_refl eq_refl)
    as [(slip & Hr & Hc & _) [(slip' & Hr' & Hc' & _) _]].
  split; [reflexivity|]. split; [reflexivity|]. split.
  - exists slip. split; [exact Hr | exact Hc].
  - exists slip'. split; [exact Hr' | exact Hc'].
Qed.

(** C2.  The claim fails for a year from 0 to 99, which with a month from 1
    to 12 is a valid calendar month: [startOfMonth] and [endOfMonth] build
    their instants with [new Date(y, ...)], which reads such a year as
    1900 + y.  An employee marked present on 15 June of the year 50 (the
    header service and the username based one store the mark under that
    year) has no present day in the salary of month 6 of year 50: the range
    counted is June 1950. *)
Theorem present_day_of_june_50_is_not_counted :
  (* the stores, as the marks leave them *)
  (exists a,
      Email.attendance Demo.emailStoreOf50 = [a]
      /\ Email.employee a = 1%nat /\ Email.status a = "present"
      /\ JSDate.getFullYear 0 (Email.date a) = 50%Z
      /\ JSDate.getMonth 0 (Email.date a) = 5%Z
      /\ JSDate.getDate 0 (Email.date a) = 15%Z)
  /\ (exists a,
         Username.attendance Demo.userStoreOf50 = [a]
         /\ Username.employee a = 1%nat /\ Username.status a = "present"
         /\ JSDate.getFullYear 0 (Username.date a) = 50%Z
         /\ JSDate.getMonth 0 (Username.date a) = 5%Z
         /\ JSDate.getDate 0 (Username.date a) = 15%Z)
  (* the salary of June 50 *)
  /\ (exists slip,
         Email.calcSalaryForMonth 0 Demo.emailStoreOf50 1%nat 50 6
         = JS.Return slip
         /\ Email.presentDays slip = 0%nat)
  /\ (exists slip,
         Username.calculateSalary 0 Demo.userStoreOf50 1%nat 50 6
         = JS.Return slip
         /\ Username.presentDays slip = 0%nat)
  (* the bounds of the count *)
  /\ JSDate.getFullYear 0 (Email.startOfMonth 0 50 6) = 1950%Z
  /\ JSDate.getFullYear 0 (Email.endOfMonth 0 50 6) = 1950%Z.
Proof.
  split; [eexists; repeat split; vm_compute; reflexivity|].
  split; [eexists; repeat split; vm_compute; reflexivity|].
  split; [eexists; split; vm_compute; reflexivity|].
  split; [eexists; split; vm_compute; reflexivity|].
  split; vm_compute; reflexivity.
Qed.

(** ** Logins *)

Lemma findOne_none {A : Type} (p : A -> bool) (c : list A) :
  (forall a, In a c -> p a = false) -> Mongo.findOne p c = None.
Proof.
  intros H. unfold Mongo.findOne.
  destruct (find p c) as [a|] eqn:E; [|reflexivity].
  apply find_some in E. destruct E as [Hin Hp].
  rewrite (H a Hin) in Hp. discriminate.
Qed.

Lemma findOne_some {A : Type} (p : A -> bool) (c : list A) (a : A) :
  Mongo.findOne p c = Some a -> In a c /\ p a = true.
Proof. apply find_some. Qed.

Lemma Email_no_match st req :
  (forall e, In e (Email.employees st) ->
             Some (Email.email e) = Email.body_email req ->
             Some (Email.password e) <> Email.body_password req) ->
  Email.findByCredentials st req = None.
Proof.
  intros H. unfold Email.findByCredentials.
  destruct (Email.body_email req) as [em|]; [|reflexivity].
  destruct (Email.body_password req) as [pw|]; [|reflexivity].
  apply findOne_none. intros e Hin.
  apply andb_false_iff.
  destruct (Email.email e =? em) eqn:E; [right | left; reflexivity].
  apply String.eqb_eq in E. subst em.
  apply String.eqb_neq. intros Hp. apply (H e Hin eq_refl). congruence.
Qed.

Lemma Username_no_match (extra : Username.Employee -> bool) st u p :
  (forall e, In e (Username.employees st) ->
             Username.username e = u -> Username.password e <> p) ->
  Mongo.findOne (fun e => (Username.username e =? u)
                          && (Username.password e =? p) && extra e)
    (Username.employees st) = None.
Proof.
  intros H. apply findOne_none. intros e Hin.
  destruct (Username.username e =? u) eqn:E; [|reflexivity].
  apply String.eqb_eq in E.
  apply (H e Hin) in E. apply String.eqb_neq in E. rewrite E. reflexivity.
Qed.

Lemma required_nonempty (s : string) :
  s <> "" -> Username.required (Some s) = Some s.
Proof.
  intros H. unfold Username.required.
  apply String.eqb_neq in H. rewrite H. reflexivity.
Qed.

Lemma Username_authenticate_denies st req u p :
  Username.body_username req = Some u -> u <> "" ->
  Username.body_password req = Some p -> p <> "" ->
  (forall e, In e (Username.employees st) ->
             Username.username e = u -> Username.password e <> p) ->
  Username.authenticate st req
  = inr (Http.json 401 (Http.failBody "Invalid username or password")).
Proof.
  intros Hu Hu0 Hp Hp0 H. unfold Username.authenticate.
  rewrite Hu, Hp, (required_nonempty u Hu0), (required_nonempty p Hp0).
  rewrite findOne_none; [reflexivity|].
  intros e Hin.
  destruct (Username.username e =? u) eqn:E; [|reflexivity].
  apply String.eqb_eq in E.
  apply (H e Hin) in E. apply String.eqb_neq in E. rewrite E. reflexivity.
Qed.

Lemma Username_loginAs_denies rl ok bad st req u p :
  Username.body_username req = Some u -> u <> "" ->
  Username.body_password req = Some p -> p <> "" ->
  (forall e, In e (Username.employees st) ->
             Username.username e = u -> Username.password e <> p) ->
  Username.loginAs rl ok bad st req = Http.json 401 (Http.failBody bad).
Proof.
  intros Hu Hu0 Hp Hp0 H. unfold Username.loginAs.
  rewrite Hu, Hp, (required_nonempty u Hu0), (required_nonempty p Hp0).
  rewrite (Username_no_match (fun e => Username.role e =? rl) st u p H).
  reflexivity.
Qed.

(** When the identifier and the secret of the body are strings, a login with
    a known identifier and a wrong secret is answered 401, with the very
    response given to a login with an unknown identifier:
    [POST /auth/login] of the e-mail based services, and [authenticate],
    [POST /admin/login] and [POST /employee/login] of the username based one
    (there the four fields are present, that is, not empty). *)
Lemma wrong_string_answered_as_wrong_identifier :
  forall (st : Email.Store) (known : Email.Employee)
         (reqA reqB : Email.Request) (secretA emailB : string)
         (st' : Username.Store) (known' : Username.Employee)
         (reqA' reqB' : Username.Request) (pA uB pB : string),
    (* e-mail based: A names a stored e-mail with a secret that is not its
       own, B names an e-mail that is not stored *)
    In known (Email.employees st) ->
    Email.body_email reqA = Some (Email.email known) ->
    Email.body_password reqA = Some secretA ->
    (forall e, In e (Email.employees st) ->
               Email.email e = Email.email known ->
               Email.password e <> secretA) ->
    Email.body_email reqB = Some emailB ->
    (forall e, In e (Email.employees st) -> Email.email e <> emailB) ->
    (* username based, the same *)
    In known' (Username.employees st') ->
    Username.username known' <> "" ->
    Username.body_username reqA' = Some (Username.username known') ->
    Username.body_password reqA' = Some pA -> pA <> "" ->
    (forall e, In e (Username.employees st') ->
               Username.username e = Username.username known' ->
               Username.password e <> pA) ->
    Username.body_username reqB' = Some uB -> uB <> "" ->
    Username.body_password reqB' = Some pB -> pB <> "" ->
    (forall e, In e (Username.employees st') -> Username.username e <> uB) ->
    (Backend.login st reqA = Backend.login st reqB
     /\ Backend.login st reqA
        = Http.json 401 (Http.errorBody "invalid email or password"))
    /\ (Header.login st reqA = Header.login st reqB
        /\ Http.status (Header.login st reqA) = 401)
    /\ (Cookie.login st reqA = Cookie.login st reqB
        /\ Cookie.login st reqA
           = Http.json 401 (Http.errorBody "invalid email or password"))
    /\ (Username.authenticate st' reqA' = Username.authenticate st' reqB'
        /\ Username.authenticate st' reqA'
           = inr (Http.json 401
                    (Http.failBody "Invalid username or password")))
    /\ (Username.adminLogin st' reqA' = Username.adminLogin st' reqB'
        /\ Http.status (Username.adminLogin st' reqA') = 401)
    /\ (Username.employeeLogin st' reqA' = Username.employeeLogin st' reqB'
        /\ Http.status (Username.employeeLogin st' reqA') = 401).
Proof.
  intros st known reqA reqB secretA emailB st' known' reqA' reqB' pA uB pB
         Hin HeA HsA HwA HeB HwB Hin' Hne HuA HpA HpA0 HwA' HuB HuB0 HpB HpB0
         HwB'.
  assert (NA : Email.findByCredentials st reqA = None).
  { apply Email_no_match. intros e He Hem. rewrite HeA in Hem.
    rewrite HsA. intros [= Hp]. apply (HwA e He); congruence. }
  assert (NB : Email.findByCredentials st reqB = None).
  { apply Email_no_match. intros e He Hem. rewrite HeB in Hem.
    destruct (HwB e He). congruence. }
  assert (HwB2 : forall e, In e (Username.employees st') ->
                           Username.username e = uB ->
                           Username.password e <> pB).
  { intros e He Hu. destruct (HwB' e He Hu). }
  unfold Header.login, Backend.login, Cookie.login.
  rewrite NA, NB.
  rewrite (Username_authenticate_denies st' reqA' _ pA HuA Hne HpA HpA0 HwA').
  rewrite (Username_authenticate_denies st' reqB' uB pB HuB HuB0 HpB HpB0 HwB2).
  unfold Username.adminLogin, Username.employeeLogin.
  rewrite !(Username_loginAs_denies _ _ _ st' reqA' _ pA HuA Hne HpA HpA0 HwA').
  rewrite !(Username_loginAs_denies _ _ _ st' reqB' uB pB HuB HuB0 HpB HpB0 HwB2).
  repeat split; reflexivity.
Qed.

Lemma wrong_string_answered_as_wrong_identifier_at_demo :
  Backend.login Demo.emailStore (Demo.emailLogin "a@pavakie.com" "wrong")
  = Backend.login Demo.emailStore (Demo.emailLogin "nobody@pavakie.com" "emp123")
  /\ Cookie.login Demo.emailStore (Demo.emailLogin "a@pavakie.com" "wrong")
     = Cookie.login Demo.emailStore
         (Demo.emailLogin "nobody@pavakie.com" "emp123")
  /\ Username.authenticate Demo.userStore (Demo.userLogin "a" "wrong")
     = Username.authenticate Demo.userStore (Demo.userLogin "nobody" "emp123")
  /\ Username.employeeLogin Demo.userStore (Demo.userLogin "a" "wrong")
     = Username.employeeLogin Demo.userStore
         (Demo.userLogin "nobody" "emp123").
Proof.
  destruct (wrong_string_answered_as_wrong_identifier
              Demo.emailStore Demo.emailEmployee
              (Demo.emailLogin "a@pavakie.com" "wrong")
              (Demo.emailLogin "nobody@pavakie.com" "emp123")
              "wrong" "nobody@pavakie.com"
              Demo.userStore Demo.userEmployee
              (Demo.userLogin "a" "wrong")
              (Demo.userLogin "nobody" "emp123")
              "wrong" "nobody" "emp123")
    as ((B & _) & _ & (C & _) & (A & _) & _ & (E & _)).
  - simpl. auto.
  - reflexivity.
  - reflexivity.
  - intros e [<-|[]] _. simpl. discriminate.
  - reflexivity.
  - intros e [<-|[]]. simpl. discriminate.
  - simpl. auto.
  - simpl. discriminate.
  - reflexivity.
  - reflexivity.
  - discriminate.
  - intros e [<-|[<-|[]]]; simpl; intros; discriminate.
  - reflexivity.
  - discriminate.
  - reflexivity.
  - discriminate.
  - intros e [<-|[<-|[]]]; simpl; discriminate.
  - repeat split; assumption.
Qed.

(** The typed lookups are the lookups on the values of the body, at
    strings. *)
Lemma Email_findOneByCredentials_strings st req :
  Email.findOneByCredentials st
    (option_map Mongo.Str (Email.body_email req))
    (option_map Mongo.Str (Email.body_password req))
  = JS.Return (Email.findByCredentials st req).
Proof.
  unfold Email.findOneByCredentials, Email.findByCredentials.
  destruct (Email.body_email req), (Email.body_password req); reflexivity.
Qed.

Lemma Backend_loginBody_strings st req :
  Backend.loginBody st (option_map Mongo.Str (Email.body_email req))
    (option_map Mongo.Str (Email.body_password req))
  = Backend.login st req.
Proof.
  unfold Backend.loginBody, Backend.login.
  rewrite Email_findOneByCredentials_strings. reflexivity.
Qed.

Lemma Cookie_loginBody_strings st req :
  Cookie.loginBody st (option_map Mongo.Str (Email.body_email req))
    (option_map Mongo.Str (Email.body_password req))
  = Cookie.login st req.
Proof.
  unfold Cookie.loginBody, Cookie.login.
  rewrite Email_findOneByCredentials_strings. reflexivity.
Qed.

Lemma Username_requiredCond_strings (o : option string) :
  Username.requiredCond (option_map Mongo.Str o)
  = option_map Mongo.Str (Username.required o).
Proof.
  destruct o as [x|]; [|reflexivity]. simpl. destruct (x =? ""); reflexivity.
Qed.

Lemma Username_authenticateBody_strings st req :
  Username.authenticateBody st
    (option_map Mongo.Str (Username.body_username req))
    (option_map Mongo.Str (Username.body_password req))
  = Username.authenticate st req.
Proof.
  unfold Username.authenticateBody, Username.authenticate.
  rewrite !Username_requiredCond_strings.
  destruct (Username.required (Username.body_username req)),
    (Username.required (Username.body_password req)); reflexivity.
Qed.

Lemma Username_loginAsBody_strings rl ok bad st req :
  Username.loginAsBody rl ok bad st
    (option_map Mongo.Str (Username.body_username req))
    (option_map Mongo.Str (Username.body_password req))
  = Username.loginAs rl ok bad st req.
Proof.
  unfold Username.loginAsBody, Username.loginAs.
  rewrite !Username_requiredCond_strings.
  destruct (Username.required (Username.body_username req)),
    (Username.required (Username.body_password req)); reflexivity.
Qed.

(** C6.  The claim fails on every login of the code: the identifier and the
    secret of the body are handed to [findOne] as they come, so the object
    [{ $ne: x }] sent as the secret, which is the secret of nobody, logs the
    stored identifier in (200, with the user), while an unknown identifier
    with the same secret is answered 401.  The two causes of failure the
    claim wants answered alike are not even both failures. *)
Theorem operator_object_as_secret_logs_in :
  (* the e-mail based services *)
  (Backend.loginBody Demo.emailStore
     (Some (Mongo.Str "a@pavakie.com")) (Some (Mongo.Ne "x"))
   = Http.json 200
       (Http.JObj [("ok", Http.JBool true);
                   ("message", Http.JStr "Login success");
                   ("user", Email.employeeJSON Demo.emailEmployee)])
   /\ Header.loginBody Demo.emailStore
        (Some (Mongo.Str "a@pavakie.com")) (Some (Mongo.Ne "x"))
      = Backend.loginBody Demo.emailStore
          (Some (Mongo.Str "a@pavakie.com")) (Some (Mongo.Ne "x"))
   /\ Http.status
        (Cookie.loginBody Demo.emailStore
           (Some (Mongo.Str "a@pavakie.com")) (Some (Mongo.Ne "x"))) = 200%Z
   /\ Http.cookies
        (Cookie.loginBody Demo.emailStore
           (Some (Mongo.Str "a@pavakie.com")) (Some (Mongo.Ne "x")))
      = [("userEmail", Some "a@pavakie.com")]
   /\ Backend.loginBody Demo.emailStore
        (Some (Mongo.Str "nobody@pavakie.com")) (Some (Mongo.Ne "x"))
      = Http.json 401 (Http.errorBody "invalid email or password"))
  (* the username based service *)
  /\ (exists admin,
         Username.authenticateBody Demo.userStore
           (Some (Mongo.Str "admin")) (Some (Mongo.Ne "x")) = inl admin
         /\ Username.role admin = "admin"
         /\ Username.password admin <> "x"
         /\ Username.adminLoginBody Demo.userStore
              (Some (Mongo.Str "admin")) (Some (Mongo.Ne "x"))
            = Http.json 200
                (Http.JObj [("ok", Http.JBool true);
                            ("message", Http.JStr "Admin login successful");
                            ("user", Username.withoutPassword admin)]))
  /\ Http.status
       (Username.employeeLoginBody Demo.userStore
          (Some (Mongo.Str "a")) (Some (Mongo.Ne "x"))) = 200%Z
  /\ Username.authenticateBody Demo.userStore
       (Some (Mongo.Str "nobody")) (Some (Mongo.Ne "x"))
     = inr (Http.json 401 (Http.failBody "Invalid username or password"))
  (* the secret sent is the secret of nobody *)
  /\ (forall e, In e (Email.employees Demo.emailStore) ->
                Mongo.Ne "x" <> Mongo.Str (Email.password e))
  /\ (forall e, In e (Username.employees Demo.userStore) ->
                Mongo.Ne "x" <> Mongo.Str (Username.password e)).
Proof.
  split; [repeat split|].
  split.
  { eexists. split; [reflexivity|]. split; [reflexivity|].
    split; [discriminate | reflexivity]. }
  split; [reflexivity|]. split; [reflexivity|].
  split; intros e _; discriminate.
Qed.


Lemma Email_credentials_found st req user :
  Email.findByCredentials st req = Some user ->
  In user (Email.employees st)
  /\ Email.body_email req = Some (Email.email user)
  /\ Email.body_password req = Some (Email.password user).
Proof.
  unfold Email.findByCredentials.
  destruct (Email.body_email req) as [em|]; [|discriminate].
  destruct (Email.body_password req) as [pw|]; [|discriminate].
  intros H. apply findOne_some in H. destruct H as [Hin Hp].
  apply andb_true_iff in Hp. destruct Hp as [He Hp].
  apply String.eqb_eq in He, Hp. subst. auto.
Qed.

Lemma Username_loginAs_success rl ok bad st req :
  Http.status (Username.loginAs rl ok bad st req) = 200 ->
  exists user,
    In user (Username.employees st)
    /\ Username.role user = rl
    /\ Username.body_password req = Some (Username.password user)
    /\ Username.loginAs rl ok bad st req
       = Http.json 200
           (Http.JObj [("ok", Http.JBool true); ("message", Http.JStr ok);
                       ("user", Username.withoutPassword user)]).
Proof.
  unfold Username.loginAs, Username.required.
  destruct (Username.body_username req) as [u|]; [|discriminate].
  destruct (u =? ""); [discriminate|].
  destruct (Username.body_password req) as [p|]; [|discriminate].
  destruct (p =? ""); [discriminate|].
  destruct (Mongo.findOne _ _) as [user|] eqn:F; [|discriminate].
  intros _. apply findOne_some in F. destruct F as [Hin Hp].
  rewrite !andb_true_iff, !String.eqb_eq in Hp.
  destruct Hp as [[_ Hp] Hr]. subst.
  exists user. auto.
Qed.





(** ** Roles *)

Lemma Username_admin_route_denied LocalTZA st req user r :
  Username.authenticate st req = inl user ->
  Username.role user <> "admin" ->
  Username.handle LocalTZA (Username.Admin r) st req
  = (st, Username.accessDenied "Access denied. Admin privileges required.").
Proof.
  intros Ha Hr. unfold Username.handle, Username.guarded, Username.adminOnly.
  rewrite Ha. apply String.eqb_neq in Hr. rewrite Hr. reflexivity.
Qed.

Lemma Gated_lets_any_employee_through caller unknown handler st req user :
  Gated.auth caller unknown st req = inl user ->
  Gated.gated caller unknown handler st req = handler st req.
Proof.
  intros H. unfold Gated.gated. rewrite H. reflexivity.
Qed.

(** C7, as the claim words it, fails on the header service: the caller
    resolved by [auth] is not an administrator, and [POST /employees]
    answers 200 and stores the new employee.  [src/backend/index.js] does
    so for a request without any credential. *)
Lemma non_admin_creates_employee :
  (exists user,
      Header.auth Demo.emailStore Demo.createByEmployee = inl user
      /\ Email.role user <> "admin"
      /\ Http.status
           (snd (Header.postEmployees Demo.emailStore Demo.createByEmployee))
         = 200
      /\ List.length
           (Email.employees
              (fst (Header.postEmployees Demo.emailStore
                      Demo.createByEmployee)))
         = 2%nat)
  /\ Http.status (snd (Backend.postEmployees Demo.emailStore
                         Demo.createByNobody)) = 200
  /\ List.length
       (Email.employees
          (fst (Backend.postEmployees Demo.emailStore Demo.createByNobody)))
     = 2%nat.
Proof.
  split.
  - exists Demo.emailEmployee.
    split; [reflexivity|]. split; [discriminate|].
    split; reflexivity.
  - split; reflexivity.
Qed.

(** C7, amended.  In the username based service every admin-only route
    (employees create, list, get, update and delete, attendance mark and
    view, payslip as JSON and as PDF) answers 403 to an authenticated
    caller whose role is not admin, whatever the body, and leaves the store
    as it was.  The gate of the header and cookie services lets every
    caller through whose e-mail is that of a stored employee, whatever the
    role. *)
Theorem admin_routes_forbidden_to_others_in_username_service :
  forall (LocalTZA : Z) (st : Username.Store) (req : Username.Request)
         (user : Username.Employee) (r : Username.AdminRoute)
         (stE : Email.Store) (reqH reqC : Email.Request)
         (userH userC : Email.Employee)
         (handler : Email.Store -> Email.Request -> Email.Store * Http.Response),
    Username.authenticate st req = inl user ->
    Username.role user <> "admin" ->
    Header.auth stE reqH = inl userH ->
    Cookie.auth stE reqC = inl userC ->
    (fst (Username.handle LocalTZA (Username.Admin r) st req) = st
     /\ Http.status (snd (Username.handle LocalTZA (Username.Admin r) st req))
        = 403
     /\ Http.body (snd (Username.handle LocalTZA (Username.Admin r) st req))
        = Http.failBody "Access denied. Admin privileges required.")
    /\ Header.gated handler stE reqH = handler stE reqH
    /\ Gated.gated Email.cookie_userEmail "invalid session" handler stE reqC
       = handler stE reqC.
Proof.
  intros tz st req user r stE reqH reqC userH userC handler Ha Hr HH HC.
  rewrite (Username_admin_route_denied tz st req user r Ha Hr).
  split; [repeat split|]. split.
  - exact (Gated_lets_any_employee_through _ _ handler stE reqH userH HH).
  - exact (Gated_lets_any_employee_through _ _ handler stE reqC userC HC).
Qed.

Lemma admin_routes_forbidden_to_others_in_username_service_witness :
  Username.authenticate Demo.userStore Demo.deleteByEmployee
  = inl Demo.userEmployee
  /\ Username.role Demo.userEmployee <> "admin"
  /\ fst (Username.handle 0 (Username.Admin Username.EmployeesDelete)
            Demo.userStore Demo.deleteByEmployee) = Demo.userStore
  /\ Http.status
       (snd (Username.handle 0 (Username.Admin Username.EmployeesDelete)
               Demo.userStore Demo.deleteByEmployee)) = 403
  /\ Header.gated Header.createEmployee Demo.emailStore Demo.createByEmployee
     = Header.createEmployee Demo.emailStore Demo.createByEmployee.
Proof.
  destruct (admin_routes_forbidden_to_others_in_username_service
              0 Demo.userStore Demo.deleteByEmployee Demo.userEmployee
              Username.EmployeesDelete Demo.emailStore Demo.createByEmployee
              Demo.createByEmployee Demo.emailEmployee Demo.emailEmployee
              Header.createEmployee eq_refl)
    as ((Hs & Hc & Hb) & HH & _).
  - discriminate.
  - reflexivity.
  - reflexivity.
  - split; [reflexivity|]. split; [discriminate|]. auto.
Defined.

(* ------------------------------------------------------------------ *)
(** * Upserts *)

Section Upsert.

Context {A : Type}.
Variable p : A -> bool.
Variable u : A -> A.

Lemma updateFirst_length (c : list A) :
  List.length (Mongo.updateFirst p u c) = List.length c.
Proof.
  induction c as [|x c IH]; simpl; [reflexivity|].
  destruct (p x); simpl; congruence.
Qed.

Lemma updateFirst_In (c : list A) (x : A) :
  find p c = Some x -> In (u x) (Mongo.updateFirst p u c).
Proof.
  induction c as [|y c IH]; simpl; [discriminate|].
  destruct (p y) eqn:E.
  - intros [= ->]. left. reflexivity.
  - intros H. right. auto.
Qed.

Lemma updateFirst_map {K : Type} (key : A -> K) (c : list A) :
  (forall x, p x = true -> key (u x) = key x) ->
  map key (Mongo.updateFirst p u c) = map key c.
Proof.
  intros H. induction c as [|x c IH]; simpl; [reflexivity|].
  destruct (p x) eqn:E; simpl; [rewrite (H x E) | rewrite IH]; reflexivity.
Qed.

Hypothesis u_keeps_match : forall x, p x = true -> p (u x) = true.

Lemma find_updateFirst (c : list A) (x : A) :
  find p c = Some x -> find p (Mongo.updateFirst p u c) = Some (u x).
Proof.
  induction c as [|y c IH]; simpl; [discriminate|].
  destruct (p y) eqn:E.
  - intros [= ->]. simpl. rewrite (u_keeps_match _ E). reflexivity.
  - intros H. simpl. rewrite E. auto.
Qed.

Hypothesis u_idempotent : forall x, u (u x) = u x.

Lemma updateFirst_twice (c : list A) :
  Mongo.updateFirst p u (Mongo.updateFirst p u c) = Mongo.updateFirst p u c.
Proof.
  induction c as [|y c IH]; simpl; [reflexivity|].
  destruct (p y) eqn:E; simpl.
  - rewrite (u_keeps_match _ E), u_idempotent. reflexivity.
  - rewrite E, IH. reflexivity.
Qed.

(** An upsert done twice with the same filter and update: the second
    finds what the first wrote and leaves the collection as it is. *)
Lemma upsert_twice (fresh fresh' : A) (c : list A) :
  p fresh = true -> u fresh = fresh ->
  let '(att, c1, _) := Mongo.findOneAndUpsert p u fresh c in
  Mongo.findOneAndUpsert p u fresh' c1 = (att, c1, false).
Proof.
  intros Hp Hu. unfold Mongo.findOneAndUpsert.
  destruct (find p c) as [x|] eqn:F.
  - rewrite (find_updateFirst c x F), updateFirst_twice, u_idempotent.
    reflexivity.
  - assert (F' : find p (c ++ [fresh]) = Some fresh).
    { clear - F Hp. induction c as [|y c IH]; simpl in *.
      - rewrite Hp. reflexivity.
      - destruct (p y); [discriminate|]. auto. }
    rewrite F', Hu. f_equal. f_equal.
    clear - F Hp Hu. induction c as [|y c IH]; simpl in *.
    + rewrite Hp, Hu. reflexivity.
    + destruct (p y); [discriminate|]. rewrite IH; auto.
Qed.

End Upsert.

Lemma upsert_written {A : Type} (p : A -> bool) (u : A -> A) (fresh : A)
  (c : list A) :
  let '(att, c', _) := Mongo.findOneAndUpsert p u fresh c in In att c'.
Proof.
  unfold Mongo.findOneAndUpsert. destruct (find p c) as [x|] eqn:F.
  - apply updateFirst_In, F.
  - apply in_or_app. right. left. reflexivity.
Qed.

(* ------------------------------------------------------------------ *)
(** * Marking attendance *)

Lemma Username_status_accepted req :
  (forall s, Username.body_status req = Some s ->
             s = "" \/ s = "present" \/ s = "absent") ->
  JS.truthyStr (Username.body_status req)
  && negb (Username.isAllowedStatus (JS.orStr (Username.body_status req) ""))
  = false.
Proof.
  intros H. destruct (Username.body_status req) as [s|]; [|reflexivity].
  destruct (H s eq_refl) as [-> | [-> | ->]]; reflexivity.
Qed.


(** What an accepted [POST /admin/attendance/mark] does. *)
Lemma Username_mark_accepted LocalTZA user st req e d emp :
  Username.body_employeeId req = Some e ->
  Username.body_date req = Some d ->
  (forall s, Username.body_status req = Some s ->
             s = "" \/ s = "present" \/ s = "absent") ->
  Username.findById e (Username.employees st) = Some emp ->
  let record id :=
    Username.mkAttendance id e (Username.startOfDay LocalTZA d)
      (JS.orStr (Username.body_status req) "present") in
  exists att atts isNew,
    Mongo.findOneAndUpsert
      (Username.onDay LocalTZA e (Username.startOfDay LocalTZA d))
      (fun a => record (Username.a_id a)) (record (Username.nextId st))
      (Username.attendance st) = (att, atts, isNew)
    /\ fst (Username.markAttendance LocalTZA user st req)
       = Username.mkStore (Username.employees st) atts
           (if isNew then S (Username.nextId st) else Username.nextId st)
    /\ Http.status (snd (Username.markAttendance LocalTZA user st req)) = 200
    /\ Http.field "attendance"
         (Http.body (snd (Username.markAttendance LocalTZA user st req)))
       = Some (Username.populated
                 (fst (Username.markAttendance LocalTZA user st req)) att).
Proof.
  intros He Hd Hs Hf record.
  unfold Username.markAttendance.
  rewrite He, Hd, (Username_status_accepted req Hs), Hf.
  fold record.
  destruct (Mongo.findOneAndUpsert _ _ _ _) as [[att atts] isNew].
  exists att, atts, isNew. repeat split.
Qed.

Lemma Username_startOfDay_onDay LocalTZA e d a :
  Username.onDay LocalTZA e (Username.startOfDay LocalTZA d) a = true
  <-> Username.employee a = e
      /\ JSDate.Day (JSDate.LocalTime LocalTZA (Username.date a))
         = JSDate.Day (JSDate.LocalTime LocalTZA d).
Proof.
  unfold Username.onDay, Username.startOfDay, Username.endOfDay.
  rewrite !andb_true_iff, Nat.eqb_eq, !Z.leb_le.
  pose proof (within_day_iff LocalTZA (JSDate.setHours LocalTZA d 0 0 0 0)
                (Username.date a)) as W.
  destruct (setHours_day LocalTZA d 0 0 0 0) as [D _];
    [unfold JSDate.MakeTime, JSDate.msPerDay; lia|].
  rewrite D in W. tauto.
Qed.

Lemma upsert_document {A : Type} (p : A -> bool) (u : A -> A) (fresh : A)
  (c : list A) (Q : A -> Prop) :
  (forall x, Q (u x)) -> Q fresh ->
  let '(att, _, _) := Mongo.findOneAndUpsert p u fresh c in Q att.
Proof.
  intros Hu Hf. unfold Mongo.findOneAndUpsert.
  destruct (find p c); auto.
Qed.

(** ** The stored date *)

Lemma Username_mark_date LocalTZA user st req e d emp :
  Username.body_employeeId req = Some e ->
  Username.body_date req = Some d ->
  (forall s, Username.body_status req = Some s ->
             s = "" \/ s = "present" \/ s = "absent") ->
  Username.findById e (Username.employees st) = Some emp ->
  exists att,
    In att (Username.attendance
              (fst (Username.markAttendance LocalTZA user st req)))
    /\ Http.field "attendance"
         (Http.body (snd (Username.markAttendance LocalTZA user st req)))
       = Some (Username.populated
                 (fst (Username.markAttendance LocalTZA user st req)) att)
    /\ Username.employee att = e
    /\ Username.date att = Username.startOfDay LocalTZA d
    /\ Username.status att = JS.orStr (Username.body_status req) "present".
Proof.
  intros He Hd Hs Hf.
  destruct (Username_mark_accepted LocalTZA user st req e d emp He Hd Hs Hf)
    as (att & atts & isNew & Hu & Hst & _ & Hb).
  exists att. rewrite Hb, Hst. cbn [Username.attendance].
  pose proof (upsert_written
                (Username.onDay LocalTZA e (Username.startOfDay LocalTZA d))
                (fun a => Username.mkAttendance (Username.a_id a) e
                            (Username.startOfDay LocalTZA d)
                            (JS.orStr (Username.body_status req) "present"))
                (Username.mkAttendance (Username.nextId st) e
                   (Username.startOfDay LocalTZA d)
                   (JS.orStr (Username.body_status req) "present"))
                (Username.attendance st)) as Hin.
  pose proof (upsert_document
                (Username.onDay LocalTZA e (Username.startOfDay LocalTZA d))
                (fun a => Username.mkAttendance (Username.a_id a) e
                            (Username.startOfDay LocalTZA d)
                            (JS.orStr (Username.body_status req) "present"))
                (Username.mkAttendance (Username.nextId st) e
                   (Username.startOfDay LocalTZA d)
                   (JS.orStr (Username.body_status req) "present"))
                (Username.attendance st)
                (fun a => Username.employee a = e
                          /\ Username.date a = Username.startOfDay LocalTZA d
                          /\ Username.status a
                             = JS.orStr (Username.body_status req) "present"))
    as Hq.
  cbv beta in Hu. rewrite Hu in Hin, Hq.
  split; [exact Hin|]. split; [reflexivity|].
  apply Hq; intros; simpl; auto.
Qed.

Lemma Backend_post_date LocalTZA st req e d :
  Email.body_employee req = Some e ->
  Email.body_date req = Some d ->
  exists att,
    In att (Email.attendance (fst (Backend.postAttendance LocalTZA st req)))
    /\ snd (Backend.postAttendance LocalTZA st req)
       = Http.json 200 (Http.JObj [("ok", Http.JBool true);
                                   ("attendance", Email.attendanceJSON att)])
    /\ Email.employee att = e
    /\ Email.date att = d.
Proof.
  intros He Hd. unfold Backend.postAttendance. rewrite He, Hd.
  pose proof (upsert_written (Backend.sameDay LocalTZA e d)
                (Backend.setFields e (Email.body_status req) d)
                (Backend.inserted (Email.nextId st) e (Email.body_status req) d)
                (Email.attendance st)) as Hin.
  pose proof (upsert_document (Backend.sameDay LocalTZA e d)
                (Backend.setFields e (Email.body_status req) d)
                (Backend.inserted (Email.nextId st) e (Email.body_status req) d)
                (Email.attendance st)
                (fun a => Email.employee a = e /\ Email.date a = d)) as Hq.
  destruct (Mongo.findOneAndUpsert _ _ _ _) as [[att atts] isNew].
  exists att. cbn [fst snd Email.attendance].
  split; [exact Hin|]. split; [reflexivity|].
  apply Hq; intros; simpl; auto.
Qed.

Lemma Gated_upsert_date LocalTZA st req e d :
  Email.body_employee req = Some e ->
  Email.body_date req = Some d ->
  exists att,
    In att (Email.attendance (fst (Gated.upsertAttendance LocalTZA st req)))
    /\ snd (Gated.upsertAttendance LocalTZA st req)
       = Http.json 200 (Http.JObj [("ok", Http.JBool true);
                                   ("attendance", Email.attendanceJSON att)])
    /\ Email.employee att = e
    /\ Email.date att
       = JSDate.setHours LocalTZA (JSDate.setHours LocalTZA d 0 0 0 0)
           23 59 59 999.
Proof.
  intros He Hd. unfold Gated.upsertAttendance. rewrite He, Hd.
  set (from := JSDate.setHours LocalTZA d 0 0 0 0).
  set (to := JSDate.setHours LocalTZA from 23 59 59 999).
  pose proof (upsert_written (Gated.inDay e from to)
                (Backend.setFields e (Email.body_status req) to)
                (Backend.inserted (Email.nextId st) e (Email.body_status req) to)
                (Email.attendance st)) as Hin.
  pose proof (upsert_document (Gated.inDay e from to)
                (Backend.setFields e (Email.body_status req) to)
                (Backend.inserted (Email.nextId st) e (Email.body_status req) to)
                (Email.attendance st)
                (fun a => Email.employee a = e /\ Email.date a = to)) as Hq.
  destruct (Mongo.findOneAndUpsert _ _ _ _) as [[att atts] isNew].
  exists att. cbn [fst snd Email.attendance].
  split; [exact Hin|]. split; [reflexivity|].
  apply Hq; intros; simpl; auto.
Qed.

(** C9, as the claim words it, fails on [src/backend/index.js]: two
    requests for the same day of the same employee, at noon and one
    millisecond later, store two different dates, each the instant of its
    request. *)
Lemma backend_stores_the_instant_of_the_request :
  JSDate.Day (JSDate.LocalTime 0 1740830400000)
  = JSDate.Day (JSDate.LocalTime 0 1740830400001)
  /\ JSDate.TimeWithinDay (JSDate.LocalTime 0 1740830400000) = 43200000%Z
  /\ map Email.date
       (Email.attendance
          (fst (Backend.postAttendance 0 Demo.emailStaff
                  (Demo.emailMark 1%nat 1740830400000 (Some "present")))))
     = [1740830400000%Z]
  /\ map Email.date
       (Email.attendance
          (fst (Backend.postAttendance 0 Demo.emailStaff
                  (Demo.emailMark 1%nat 1740830400001 (Some "present")))))
     = [1740830400001%Z].
Proof. repeat split. Qed.

(** C9, amended.  The attendance record written by a mark carries: in the
    username based service, the local midnight of the day of the request;
    in the header and cookie services, the last millisecond of that day; in
    both cases a date that depends on the calendar day alone.
    [src/backend/index.js] stores the instant of the request as it is, and
    only the filter of its upsert has day granularity. *)
Theorem stored_date_of_a_mark :
  forall (LocalTZA : Z) (user : Username.Employee) (st : Username.Store)
         (req : Username.Request) (e : Mongo.ObjectId) (d : Z)
         (emp : Username.Employee)
         (stE : Email.Store) (reqE : Email.Request) (eE : Mongo.ObjectId)
         (dE : Z),
    Username.body_employeeId req = Some e ->
    Username.body_date req = Some d ->
    (forall s, Username.body_status req = Some s ->
               s = "" \/ s = "present" \/ s = "absent") ->
    Username.findById e (Username.employees st) = Some emp ->
    Email.body_employee reqE = Some eE ->
    Email.body_date reqE = Some dE ->
    (exists att,
        In att (Username.attendance
                  (fst (Username.markAttendance LocalTZA user st req)))
        /\ Http.field "attendance"
             (Http.body (snd (Username.markAttendance LocalTZA user st req)))
           = Some (Username.populated
                     (fst (Username.markAttendance LocalTZA user st req)) att)
        /\ Username.employee att = e
        /\ Username.date att
           = (JSDate.Day (JSDate.LocalTime LocalTZA d) * JSDate.msPerDay
              - LocalTZA)%Z
        /\ JSDate.TimeWithinDay (JSDate.LocalTime LocalTZA (Username.date att))
           = 0%Z
        /\ JSDate.Day (JSDate.LocalTime LocalTZA (Username.date att))
           = JSDate.Day (JSDate.LocalTime LocalTZA d))
    /\ (exists att,
        In att (Email.attendance
                  (fst (Gated.upsertAttendance LocalTZA stE reqE)))
        /\ Http.field "attendance"
             (Http.body (snd (Gated.upsertAttendance LocalTZA stE reqE)))
           = Some (Email.attendanceJSON att)
        /\ Email.employee att = eE
        /\ Email.date att
           = (JSDate.Day (JSDate.LocalTime LocalTZA dE) * JSDate.msPerDay
              + 86399999 - LocalTZA)%Z
        /\ JSDate.TimeWithinDay (JSDate.LocalTime LocalTZA (Email.date att))
           = 86399999%Z
        /\ JSDate.Day (JSDate.LocalTime LocalTZA (Email.date att))
           = JSDate.Day (JSDate.LocalTime LocalTZA dE))
    /\ (exists att,
        In att (Email.attendance
                  (fst (Backend.postAttendance LocalTZA stE reqE)))
        /\ Http.field "attendance"
             (Http.body (snd (Backend.postAttendance LocalTZA stE reqE)))
           = Some (Email.attendanceJSON att)
        /\ Email.employee att = eE
        /\ Email.date att = dE).
Proof.
  intros tz user st req e d emp stE reqE eE dE He Hd Hs Hf HeE HdE.
  assert (T0 : (0 <= JSDate.MakeTime 0 0 0 0 < JSDate.msPerDay)%Z)
    by (unfold JSDate.MakeTime, JSDate.msPerDay; lia).
  assert (T1 : (0 <= JSDate.MakeTime 23 59 59 999 < JSDate.msPerDay)%Z)
    by (unfold JSDate.MakeTime, JSDate.msPerDay; lia).
  split; [|split].
  - destruct (Username_mark_date tz user st req e d emp He Hd Hs Hf)
      as (att & Hin & Hb & Hemp & Hdate & _).
    exists att. split; [exact Hin|]. split; [exact Hb|].
    split; [exact Hemp|]. rewrite Hdate. unfold Username.startOfDay.
    destruct (setHours_day tz d 0 0 0 0 T0) as [D T].
    split; [|split; [exact T | exact D]].
    rewrite setHours_value. unfold JSDate.MakeTime. lia.
  - destruct (Gated_upsert_date tz stE reqE eE dE HeE HdE)
      as (att & Hin & Hb & Hemp & Hdate).
    exists att. split; [exact Hin|]. rewrite Hb.
    split; [reflexivity|]. split; [exact Hemp|]. rewrite Hdate.
    destruct (setHours_day tz dE 0 0 0 0 T0) as [D0 _].
    destruct (setHours_day tz (JSDate.setHours tz dE 0 0 0 0) 23 59 59 999 T1)
      as [D1 T].
    rewrite D0 in D1.
    split; [|split; [exact T | exact D1]].
    rewrite setHours_value, D0. unfold JSDate.MakeTime. lia.
  - destruct (Backend_post_date tz stE reqE eE dE HeE HdE)
      as (att & Hin & Hb & Hemp & Hdate).
    exists att. rewrite Hb. auto.
Qed.

Lemma stored_date_of_a_mark_witness :
  (exists att,
      In att (Username.attendance
                (fst (Username.markAttendance 0 Demo.userEmployee
                        Demo.userStaff
                        (Demo.adminMark 1%nat 1740830400001 None))))
      /\ Username.date att = 1740787200000%Z)
  /\ (exists att,
         In att (Email.attendance
                   (fst (Gated.upsertAttendance 0 Demo.emailStaff
                           (Demo.emailMark 1%nat 1740830400001 None))))
         /\ Email.date att = 1740873599999%Z)
  /\ (exists att,
         In att (Email.attendance
                   (fst (Backend.postAttendance 0 Demo.emailStaff
                           (Demo.emailMark 1%nat 1740830400001 None))))
         /\ Email.date att = 1740830400001%Z).
Proof.
  destruct (stored_date_of_a_mark 0 Demo.userEmployee Demo.userStaff
              (Demo.adminMark 1%nat 1740830400001 None) 1%nat 1740830400001
              Demo.userEmployee Demo.emailStaff
              (Demo.emailMark 1%nat 1740830400001 None) 1%nat 1740830400001
              eq_refl eq_refl)
    as ((a & Ha & _ & _ & Hd & _) & (b & Hb & _ & _ & Hd' & _)
        & (c & Hc & _ & _ & Hd'')).
  - intros s. discriminate.
  - reflexivity.
  - reflexivity.
  - reflexivity.
  - split; [exists a; auto | split; [exists b; auto | exists c; auto]].
Defined.

(** ** What a mark validates *)




Lemma Backend_post_inserts LocalTZA st req e d :
  Email.body_employee req = Some e ->
  Email.body_date req = Some d ->
  Mongo.findOne (Backend.sameDay LocalTZA e d) (Email.attendance st) = None ->
  fst (Backend.postAttendance LocalTZA st req)
  = Email.mkStore (Email.employees st)
      (Email.attendance st
       ++ [Backend.inserted (Email.nextId st) e (Email.body_status req) d])%list
      (S (Email.nextId st)).
Proof.
  intros He Hd Hf. unfold Backend.postAttendance, Mongo.findOneAndUpsert.
  unfold Mongo.findOne in Hf. rewrite He, Hd, Hf. reflexivity.
Qed.


(** On a well-formed id and a day within the range of dates, the handlers
    on the values of the body are the typed ones. *)
Lemma Backend_postAttendanceBody_typed LocalTZA st req :
  (forall d, Email.body_date req = Some d ->
             Backend.dayIsDate LocalTZA d = true) ->
  Backend.postAttendanceBody LocalTZA st
    (option_map JS.Valid (Email.body_employee req))
    (option_map JS.Valid (Email.body_date req)) (Email.body_status req)
  = Backend.postAttendance LocalTZA st req.
Proof.
  unfold Backend.postAttendanceBody, Backend.postAttendance.
  destruct (Email.body_employee req), (Email.body_date req) as [d|];
    try reflexivity.
  intros H. simpl. rewrite (H d eq_refl). reflexivity.
Qed.

Lemma Gated_upsertAttendanceBody_typed LocalTZA st req :
  (forall d, Email.body_date req = Some d ->
             Gated.dayIsDate LocalTZA d = true) ->
  Gated.upsertAttendanceBody LocalTZA st
    (option_map JS.Valid (Email.body_employee req))
    (option_map JS.Valid (Email.body_date req)) (Email.body_status req)
  = Gated.upsertAttendance LocalTZA st req.
Proof.
  unfold Gated.upsertAttendanceBody, Gated.upsertAttendance.
  destruct (Email.body_employee req), (Email.body_date req) as [d|];
    try reflexivity.
  intros H. simpl. rewrite (H d eq_refl). reflexivity.
Qed.







(* ------------------------------------------------------------------ *)
(** * One record for an employee and a day *)

Section UpsertKeys.

Context {A K : Type}.
Variable key : A -> K.
Variable k : K.
Variable p : A -> bool.
Variable u : A -> A.
Variable fresh : A.
Hypothesis p_is_key : forall a, p a = true <-> key a = k.
Hypothesis u_key : forall a, key (u a) = k.
Hypothesis fresh_key : key fresh = k.

(** An upsert keyed on [k] keeps the keys pairwise distinct. *)
Lemma upsert_keeps_keys_distinct (c : list A) :
  NoDup (map key c) ->
  let '(_, c', _) := Mongo.findOneAndUpsert p u fresh c in NoDup (map key c').
Proof.
  intros H. unfold Mongo.findOneAndUpsert.
  destruct (find p c) as [x|] eqn:F.
  - rewrite updateFirst_map; [exact H|].
    intros a Ha. rewrite u_key. symmetry. apply p_is_key, Ha.
  - rewrite map_app. simpl.
    apply Permutation_NoDup with (l := key fresh :: map key c).
    + apply Permutation_cons_append.
    + constructor; [|exact H].
      rewrite in_map_iff. intros (a & Ha & Hin).
      assert (Hp : p a = true) by (apply p_is_key; congruence).
      pose proof (find_none p c F a Hin). congruence.
Qed.

End UpsertKeys.

Lemma NoDup_map_filter {A K : Type} (key : A -> K) (q : A -> bool)
  (c : list A) :
  NoDup (map key c) -> NoDup (map key (filter q c)).
Proof.
  induction c as [|a c IH]; simpl; [auto|].
  intros H. inversion H as [|? ? Hn Hd]; subst.
  destruct (q a); simpl; [|auto].
  constructor; [|auto].
  rewrite in_map_iff in *. intros (b & Hb & Hin).
  apply Hn. exists b. split; [exact Hb|].
  apply filter_In in Hin. tauto.
Qed.

Lemma findAll_nil {A : Type} (p : A -> bool) (c : list A) :
  (forall a, In a c -> p a = false) -> Mongo.findAll p c = [].
Proof.
  unfold Mongo.findAll. induction c as [|a c IH]; simpl; [reflexivity|].
  intros H. rewrite (H a (or_introl eq_refl)). auto.
Qed.

(** With pairwise distinct keys, the documents of a key are one at most. *)
Lemma NoDup_map_single {A K : Type} (key : A -> K) (p : A -> bool)
  (c : list A) (a : A) (k : K) :
  NoDup (map key c) -> In a c -> key a = k ->
  (forall x, p x = true <-> key x = k) ->
  Mongo.findAll p c = [a].
Proof.
  intros N Hin Hk Hp. unfold Mongo.findAll.
  induction c as [|x c IH]; simpl in *; [contradiction|].
  apply NoDup_cons_iff in N. destruct N as [Hx N'].
  destruct Hin as [-> | Hin].
  - destruct (p a) eqn:E; [|apply Hp in Hk; congruence].
    f_equal. apply (findAll_nil p c). intros y Hy.
    destruct (p y) eqn:Ey; [|reflexivity].
    apply Hp in Ey. exfalso. apply Hx. rewrite in_map_iff.
    exists y. split; [congruence | exact Hy].
  - destruct (p x) eqn:E; [|auto].
    apply Hp in E. exfalso. apply Hx. rewrite in_map_iff.
    exists a. split; [congruence | exact Hin].
Qed.

(** ** The username based service *)

Section UsernameMarks.

Variable LocalTZA : Z.

Lemma Username_startOfDay_day (d : Z) :
  Spec.dayOf LocalTZA (Username.startOfDay LocalTZA d) = Spec.dayOf LocalTZA d.
Proof.
  unfold Spec.dayOf, Username.startOfDay.
  apply setHours_day. unfold JSDate.MakeTime, JSDate.msPerDay. lia.
Qed.

Lemma Username_onDay_key e d a :
  Username.onDay LocalTZA e (Username.startOfDay LocalTZA d) a = true
  <-> Spec.dayKey Username.employee Username.date LocalTZA a
      = (e, Spec.dayOf LocalTZA d).
Proof.
  rewrite Username_startOfDay_onDay. unfold Spec.dayKey, Spec.dayOf.
  split; [intros [-> ->]; reflexivity | intros [= -> ->]; auto].
Qed.

Lemma Username_mark_keeps_onePerDay user st req :
  Spec.onePerDay Username.employee Username.date LocalTZA
    (Username.attendance st) ->
  Spec.onePerDay Username.employee Username.date LocalTZA
    (Username.attendance (fst (Username.markAttendance LocalTZA user st req))).
Proof.
  intros H. unfold Username.markAttendance.
  destruct (Username.body_employeeId req) as [e|]; [|exact H].
  destruct (Username.body_date req) as [d|]; [|exact H].
  destruct (_ && _); [exact H|].
  destruct (Username.findById e (Username.employees st)); [|exact H].
  pose proof (upsert_keeps_keys_distinct
                (Spec.dayKey Username.employee Username.date LocalTZA)
                (e, Spec.dayOf LocalTZA d)
                (Username.onDay LocalTZA e (Username.startOfDay LocalTZA d))
                (fun a => Username.mkAttendance (Username.a_id a) e
                            (Username.startOfDay LocalTZA d)
                            (JS.orStr (Username.body_status req) "present"))
                (Username.mkAttendance (Username.nextId st) e
                   (Username.startOfDay LocalTZA d)
                   (JS.orStr (Username.body_status req) "present"))
                (Username_onDay_key e d)) as U.
  unfold Spec.dayKey in U at 1 2.
  cbn [Username.employee Username.date] in U.
  rewrite Username_startOfDay_day in U.
  specialize (U (fun _ => eq_refl) eq_refl (Username.attendance st) H).
  destruct (Mongo.findOneAndUpsert _ _ _ _) as [[att atts] isNew].
  exact U.
Qed.

Lemma Username_payslipFor_store render missing id st req :
  fst (Username.payslipFor LocalTZA render missing id st req) = st.
Proof.
  unfold Username.payslipFor.
  destruct id; [|reflexivity].
  destruct (_ && _); [|reflexivity].
  destruct (Username.body_month req); [|reflexivity].
  destruct (Username.body_year req); [|reflexivity].
  destruct (Username.calculateSalary _ _ _ _ _); reflexivity.
Qed.

(** Every route keeps the invariant. *)
Lemma Username_handle_keeps_onePerDay r st req :
  Spec.onePerDay Username.employee Username.date LocalTZA
    (Username.attendance st) ->
  Spec.onePerDay Username.employee Username.date LocalTZA
    (Username.attendance (fst (Username.handle LocalTZA r st req))).
Proof.
  intros H. destruct r as [| |r|r]; simpl; try exact H;
    unfold Username.guarded;
    destruct (Username.authenticate st req) as [user|]; try exact H.
  - destruct (Username.adminOnly user); [exact H|].
    destruct r; simpl.
    + unfold Username.createEmployee.
      repeat match goal with
             | |- context [match ?x with _ => _ end] => destruct x
             end; exact H.
    + exact H.
    + unfold Username.getEmployee.
      repeat match goal with
             | |- context [match ?x with _ => _ end] => destruct x
             end; exact H.
    + unfold Username.updateEmployee.
      repeat match goal with
             | |- context [match ?x with _ => _ end] => destruct x
             end; exact H.
    + unfold Username.deleteEmployee, Mongo.findOneAndDelete.
      destruct (Username.body_employeeId req); [|exact H].
      destruct (find _ _); [|exact H].
      cbn [fst Username.attendance]. apply NoDup_map_filter, H.
    + apply Username_mark_keeps_onePerDay, H.
    + unfold Username.viewAttendance.
      destruct (Username.body_employeeId req); exact H.
    + unfold Username.payslipGenerate.
      rewrite Username_payslipFor_store. exact H.
    + unfold Username.payslipPdf.
      rewrite Username_payslipFor_store. exact H.
  - destruct (Username.employeeOnly user); [exact H|].
    destruct r; simpl; try exact H;
      unfold Username.ownPayslip, Username.ownPayslipPdf;
      rewrite Username_payslipFor_store; exact H.
Qed.

(** In every store reached from the seeded one there is at most one
    attendance record for an employee and a local day. *)
Lemma Username_reachable_onePerDay calls :
  Spec.onePerDay Username.employee Username.date LocalTZA
    (Username.attendance (Username.run LocalTZA Username.seeded calls)).
Proof.
  unfold Username.run.
  assert (G : forall st,
             Spec.onePerDay Username.employee Username.date LocalTZA
               (Username.attendance st) ->
             Spec.onePerDay Username.employee Username.date LocalTZA
               (Username.attendance
                  (fold_left
                     (fun st c => fst (Username.handle LocalTZA (fst c) st
                                         (snd c))) calls st))).
  { induction calls as [|c calls IH]; intros st H; simpl; [exact H|].
    apply IH, Username_handle_keeps_onePerDay, H. }
  apply G. constructor.
Qed.

End UsernameMarks.

Section UsernameOverwrite.

Variable LocalTZA : Z.

(** A mark for a day that has a record rewrites that record where it
    stands: same id, same place, no record more. *)
Lemma Username_mark_overwrites user st req e d emp old :
  Username.body_employeeId req = Some e ->
  Username.body_date req = Some d ->
  (forall s, Username.body_status req = Some s ->
             s = "" \/ s = "present" \/ s = "absent") ->
  Username.findById e (Username.employees st) = Some emp ->
  Mongo.findOne (Username.onDay LocalTZA e (Username.startOfDay LocalTZA d))
    (Username.attendance st) = Some old ->
  let written :=
    Username.mkAttendance (Username.a_id old) e
      (Username.startOfDay LocalTZA d)
      (JS.orStr (Username.body_status req) "present") in
  let st' := fst (Username.markAttendance LocalTZA user st req) in
  In written (Username.attendance st')
  /\ List.length (Username.attendance st')
     = List.length (Username.attendance st)
  /\ map Username.a_id (Username.attendance st')
     = map Username.a_id (Username.attendance st)
  /\ map Username.employee (Username.attendance st')
     = map Username.employee (Username.attendance st)
  /\ Username.nextId st' = Username.nextId st.
Proof.
  intros He Hd Hs Hf Ho written st'.
  destruct (Username_mark_accepted LocalTZA user st req e d emp He Hd Hs Hf)
    as (att & atts & isNew & Hu & Hst & _).
  subst st'. rewrite Hst. clear Hst.
  unfold Mongo.findOneAndUpsert in Hu. unfold Mongo.findOne in Ho.
  cbv beta in Hu. rewrite Ho in Hu. injection Hu as <- <- <-.
  cbn [Username.attendance Username.nextId].
  split.
  { subst written.
    exact (updateFirst_In _
             (fun a => Username.mkAttendance (Username.a_id a) e
                         (Username.startOfDay LocalTZA d)
                         (JS.orStr (Username.body_status req) "present"))
             _ old Ho). }
  split; [apply updateFirst_length|].
  split; [apply updateFirst_map; reflexivity|].
  split; [|reflexivity].
  apply updateFirst_map. intros a Ha.
  apply Username_startOfDay_onDay in Ha. simpl. symmetry. apply Ha.
Qed.

(** The same mark twice: the second leaves the store as the first left
    it. *)
Lemma Username_mark_idempotent user st req :
  fst (Username.markAttendance LocalTZA user
         (fst (Username.markAttendance LocalTZA user st req)) req)
  = fst (Username.markAttendance LocalTZA user st req).
Proof.
  unfold Username.markAttendance at 2 3.
  destruct (Username.body_employeeId req) as [e|] eqn:He;
    [|unfold Username.markAttendance; rewrite He; reflexivity].
  destruct (Username.body_date req) as [d|] eqn:Hd;
    [|unfold Username.markAttendance; rewrite He, Hd; reflexivity].
  destruct (_ && _) eqn:Hc;
    [cbn [fst]; unfold Username.markAttendance; rewrite He, Hd, Hc;
     reflexivity|].
  destruct (Username.findById e (Username.employees st)) as [emp|] eqn:Hf;
    [|cbn [fst]; unfold Username.markAttendance; rewrite He, Hd, Hc, Hf;
      reflexivity].
  set (day := Username.startOfDay LocalTZA d).
  set (status := JS.orStr (Username.body_status req) "present").
  set (p := Username.onDay LocalTZA e day).
  set (u := fun a => Username.mkAttendance (Username.a_id a) e day status).
  assert (Hp : forall id, p (Username.mkAttendance id e day status) = true).
  { intros id. apply Username_startOfDay_onDay. simpl. split; [reflexivity|].
    apply (Username_startOfDay_day LocalTZA d). }
  pose proof (fun fresh' =>
                upsert_twice p u (fun x _ => Hp (Username.a_id x))
                  (fun x => eq_refl)
                  (Username.mkAttendance (Username.nextId st) e day status)
                  fresh' (Username.attendance st) (Hp _) eq_refl) as T.
  destruct (Mongo.findOneAndUpsert p u _ (Username.attendance st))
    as [[att atts] isNew].
  cbn [fst]. unfold Username.markAttendance.
  rewrite He, Hd, Hc. cbn [Username.employees Username.attendance
                           Username.nextId]. rewrite Hf.
  fold day status p u. rewrite T. reflexivity.
Qed.

(** After an accepted mark, in a store with at most one record for an
    employee and a day, the day of the mark has exactly one record of the
    employee, and it carries the status of the mark. *)
Lemma Username_mark_exactly_one user st req e d emp :
  Username.body_employeeId req = Some e ->
  Username.body_date req = Some d ->
  (forall s, Username.body_status req = Some s ->
             s = "" \/ s = "present" \/ s = "absent") ->
  Username.findById e (Username.employees st) = Some emp ->
  Spec.onePerDay Username.employee Username.date LocalTZA
    (Username.attendance st) ->
  exists att,
    Mongo.findAll (Username.onDay LocalTZA e (Username.startOfDay LocalTZA d))
      (Username.attendance (fst (Username.markAttendance LocalTZA user st req)))
    = [att]
    /\ Username.status att = JS.orStr (Username.body_status req) "present".
Proof.
  intros He Hd Hs Hf Hone.
  destruct (Username_mark_date LocalTZA user st req e d emp He Hd Hs Hf)
    as (att & Hin & _ & Hemp & Hdate & Hst).
  pose proof (Username_mark_keeps_onePerDay LocalTZA user st req Hone) as N.
  exists att. split; [|exact Hst].
  assert (Hk : Spec.dayKey Username.employee Username.date LocalTZA att
               = (e, Spec.dayOf LocalTZA d)).
  { unfold Spec.dayKey. rewrite Hemp, Hdate, Username_startOfDay_day.
    reflexivity. }
  apply (NoDup_map_single _ _ _ att (e, Spec.dayOf LocalTZA d) N Hin Hk).
  intros a. apply Username_onDay_key.
Qed.

End UsernameOverwrite.

(** ** The e-mail based services *)

Section EmailMarks.

Variable LocalTZA : Z.

Lemma setHours_again (d h mi s ms : Z) :
  JSDate.setHours LocalTZA (JSDate.setHours LocalTZA d 0 0 0 0) h mi s ms
  = JSDate.setHours LocalTZA d h mi s ms.
Proof.
  rewrite (setHours_value LocalTZA (JSDate.setHours LocalTZA d 0 0 0 0)).
  destruct (setHours_day LocalTZA d 0 0 0 0) as [D _];
    [unfold JSDate.MakeTime, JSDate.msPerDay; lia|].
  rewrite D. reflexivity.
Qed.

(** The filter of the header and cookie services selects the records of
    the employee on the local day of [d]. *)
Lemma Gated_inDay_key e d a :
  Gated.inDay e (JSDate.setHours LocalTZA d 0 0 0 0)
    (JSDate.setHours LocalTZA (JSDate.setHours LocalTZA d 0 0 0 0)
       23 59 59 999) a = true
  <-> Spec.dayKey Email.employee Email.date LocalTZA a
      = (e, Spec.dayOf LocalTZA d).
Proof.
  unfold Gated.inDay, Spec.dayKey, Spec.dayOf. rewrite setHours_again.
  rewrite !andb_true_iff, Nat.eqb_eq, !Z.leb_le.
  pose proof (within_day_iff LocalTZA d (Email.date a)) as W.
  split; [intros [[-> H1] H2]; f_equal; tauto | intros [= -> H]; tauto].
Qed.

(** So does the filter of [src/backend/index.js], for a date outside the
    years 0 to 99. *)
Lemma Backend_sameDay_key e d a :
  ~ (0 <= JSDate.getFullYear LocalTZA d <= 99)%Z ->
  Backend.sameDay LocalTZA e d a = true <-> Spec.dayKey Email.employee Email.date LocalTZA a
      = (e, Spec.dayOf LocalTZA d).
Proof.
  intros Hy. unfold Backend.sameDay, Spec.dayKey, Spec.dayOf.
  rewrite !(newDate_of_fields LocalTZA d _ _ _ _ Hy).
  rewrite !andb_true_iff, Nat.eqb_eq, !Z.leb_le.
  pose proof (within_day_iff LocalTZA d (Email.date a)) as W.
  split; [intros [[-> H1] H2]; f_equal; tauto | intros [= -> H]; tauto].
Qed.

Lemma Gated_upsert_keeps_onePerDay st req :
  Spec.onePerDay Email.employee Email.date LocalTZA (Email.attendance st) ->
  Spec.onePerDay Email.employee Email.date LocalTZA
    (Email.attendance (fst (Gated.upsertAttendance LocalTZA st req))).
Proof.
  intros H. unfold Gated.upsertAttendance.
  destruct (Email.body_employee req) as [e|]; [|exact H].
  destruct (Email.body_date req) as [d|]; [|exact H].
  set (to := JSDate.setHours LocalTZA (JSDate.setHours LocalTZA d 0 0 0 0)
               23 59 59 999).
  assert (Hto : Spec.dayOf LocalTZA to = Spec.dayOf LocalTZA d).
  { subst to. rewrite setHours_again. unfold Spec.dayOf.
    apply setHours_day. unfold JSDate.MakeTime, JSDate.msPerDay. lia. }
  pose proof (upsert_keeps_keys_distinct
                (Spec.dayKey Email.employee Email.date LocalTZA)
                (e, Spec.dayOf LocalTZA d)
                _ (Backend.setFields e (Email.body_status req) to)
                (Backend.inserted (Email.nextId st) e (Email.body_status req)
                   to)
                (Gated_inDay_key e d)) as U.
  unfold Spec.dayKey in U at 1 2.
  cbn [Backend.setFields Backend.inserted Email.employee Email.date] in U.
  rewrite Hto in U.
  specialize (U (fun _ => eq_refl) eq_refl (Email.attendance st) H).
  fold to.
  destruct (Mongo.findOneAndUpsert _ _ _ _) as [[att atts] isNew].
  exact U.
Qed.

Lemma Backend_post_keeps_onePerDay st req :
  (forall d, Email.body_date req = Some d ->
             ~ (0 <= JSDate.getFullYear LocalTZA d <= 99)%Z) ->
  Spec.onePerDay Email.employee Email.date LocalTZA (Email.attendance st) ->
  Spec.onePerDay Email.employee Email.date LocalTZA
    (Email.attendance (fst (Backend.postAttendance LocalTZA st req))).
Proof.
  intros Hy H. unfold Backend.postAttendance.
  destruct (Email.body_employee req) as [e|]; [|exact H].
  destruct (Email.body_date req) as [d|]; [|exact H].
  pose proof (upsert_keeps_keys_distinct
                (Spec.dayKey Email.employee Email.date LocalTZA)
                (e, Spec.dayOf LocalTZA d)
                _ (Backend.setFields e (Email.body_status req) d)
                (Backend.inserted (Email.nextId st) e (Email.body_status req)
                   d)
                (fun a => Backend_sameDay_key e d a (Hy d eq_refl))
                (fun _ => eq_refl) eq_refl (Email.attendance st) H) as U.
  destruct (Mongo.findOneAndUpsert _ _ _ _) as [[att atts] isNew].
  exact U.
Qed.

Lemma setFields_twice e status d a :
  Backend.setFields e status d (Backend.setFields e status d a)
  = Backend.setFields e status d a.
Proof. unfold Backend.setFields. destruct status; reflexivity. Qed.

Lemma setFields_inserted e status d id :
  Backend.setFields e status d (Backend.inserted id e status d)
  = Backend.inserted id e status d.
Proof. unfold Backend.setFields, Backend.inserted. destruct status; reflexivity. Qed.

(** The same mark twice, outside the years 0 to 99: the second leaves the
    store of [src/backend/index.js] as the first left it. *)
Lemma Backend_post_idempotent st req :
  (forall d, Email.body_date req = Some d ->
             ~ (0 <= JSDate.getFullYear LocalTZA d <= 99)%Z) ->
  fst (Backend.postAttendance LocalTZA
         (fst (Backend.postAttendance LocalTZA st req)) req)
  = fst (Backend.postAttendance LocalTZA st req).
Proof.
  intros Hy. unfold Backend.postAttendance at 2 3.
  destruct (Email.body_employee req) as [e|] eqn:He;
    [|cbn [fst]; unfold Backend.postAttendance; rewrite He; reflexivity].
  destruct (Email.body_date req) as [d|] eqn:Hd;
    [|cbn [fst]; unfold Backend.postAttendance; rewrite He, Hd; reflexivity].
  set (p := Backend.sameDay LocalTZA e d).
  set (u := Backend.setFields e (Email.body_status req) d).
  assert (Hp : forall a, Email.employee a = e -> Email.date a = d ->
                         p a = true).
  { intros a Ha Hda. apply (Backend_sameDay_key e d a (Hy d eq_refl)).
    unfold Spec.dayKey. rewrite Ha, Hda. reflexivity. }
  pose proof (fun fresh' =>
                upsert_twice p u (fun x _ => Hp (u x) eq_refl eq_refl)
                  (setFields_twice e (Email.body_status req) d)
                  (Backend.inserted (Email.nextId st) e (Email.body_status req)
                     d)
                  fresh' (Email.attendance st)
                  (Hp (Backend.inserted (Email.nextId st) e
                         (Email.body_status req) d) eq_refl eq_refl)
                  (setFields_inserted e _ d _)) as T.
  destruct (Mongo.findOneAndUpsert p u _ (Email.attendance st))
    as [[att atts] isNew].
  cbn [fst]. unfold Backend.postAttendance.
  rewrite He, Hd. cbn [Email.employees Email.attendance Email.nextId].
  fold p u. rewrite T. reflexivity.
Qed.

(** The same mark twice in the header and cookie services. *)
Lemma Gated_upsert_idempotent st req :
  fst (Gated.upsertAttendance LocalTZA
         (fst (Gated.upsertAttendance LocalTZA st req)) req)
  = fst (Gated.upsertAttendance LocalTZA st req).
Proof.
  unfold Gated.upsertAttendance at 2 3.
  destruct (Email.body_employee req) as [e|] eqn:He;
    [|cbn [fst]; unfold Gated.upsertAttendance; rewrite He; reflexivity].
  destruct (Email.body_date req) as [d|] eqn:Hd;
    [|cbn [fst]; unfold Gated.upsertAttendance; rewrite He, Hd; reflexivity].
  set (from := JSDate.setHours LocalTZA d 0 0 0 0).
  set (to := JSDate.setHours LocalTZA from 23 59 59 999).
  set (p := Gated.inDay e from to).
  set (u := Backend.setFields e (Email.body_status req) to).
  assert (Hp : forall a, Email.employee a = e -> Email.date a = to ->
                         p a = true).
  { intros a Ha Hda. apply (Gated_inDay_key e d a).
    unfold Spec.dayKey. rewrite Ha, Hda. f_equal. subst to from.
    rewrite setHours_again. unfold Spec.dayOf.
    apply setHours_day. unfold JSDate.MakeTime, JSDate.msPerDay. lia. }
  pose proof (fun fresh' =>
                upsert_twice p u (fun x _ => Hp (u x) eq_refl eq_refl)
                  (setFields_twice e (Email.body_status req) to)
                  (Backend.inserted (Email.nextId st) e (Email.body_status req)
                     to)
                  fresh' (Email.attendance st)
                  (Hp (Backend.inserted (Email.nextId st) e
                         (Email.body_status req) to) eq_refl eq_refl)
                  (setFields_inserted e _ to _)) as T.
  destruct (Mongo.findOneAndUpsert p u _ (Email.attendance st))
    as [[att atts] isNew].
  cbn [fst]. unfold Gated.upsertAttendance.
  rewrite He, Hd. cbn [Email.employees Email.attendance Email.nextId].
  fold from to p u. rewrite T. reflexivity.
Qed.

End EmailMarks.

(** C3.  [src/backend/index.js] breaks the invariant for a date in the
    years 0 to 99: the filter of the upsert is rebuilt with
    [new Date(year, month, day, ...)], which reads the year 50 as 1950, so
    a mark for the 15th of June 50 never finds the record of that day.
    Marking it present and then absent leaves two records of the employee
    on that day, the first one not overwritten. *)
Theorem backend_second_record_for_a_day_of_year_50 :
  JSDate.getFullYear 0 Demo.june50 = 50%Z
  /\ JSDate.getFullYear 0
       (JSDate.newDate 0 (JSDate.getFullYear 0 Demo.june50)
          (JSDate.getMonth 0 Demo.june50) (JSDate.getDate 0 Demo.june50)
          0 0 0 0) = 1950%Z
  /\ Email.attendance
       (fst (Backend.postAttendance 0 Demo.emailStaff
               (Demo.emailMark 1%nat Demo.june50 (Some "present"))))
     = [Email.mkAttendance 2%nat 1%nat Demo.june50 "present"]
  /\ Email.attendance
       (fst (Backend.postAttendance 0
               (fst (Backend.postAttendance 0 Demo.emailStaff
                       (Demo.emailMark 1%nat Demo.june50 (Some "present"))))
               (Demo.emailMark 1%nat Demo.june50 (Some "absent"))))
     = [Email.mkAttendance 2%nat 1%nat Demo.june50 "present";
        Email.mkAttendance 3%nat 1%nat Demo.june50 "absent"]
  /\ ~ Spec.onePerDay Email.employee Email.date 0
         [Email.mkAttendance 2%nat 1%nat Demo.june50 "present";
          Email.mkAttendance 3%nat 1%nat Demo.june50 "absent"].
Proof.
  repeat split.
  unfold Spec.onePerDay. intros H. inversion H as [|? ? Hn _]; subst.
  apply Hn. left. reflexivity.
Qed.

(** C4.  The same defect: in [src/backend/index.js] the same mark repeated
    for the 15th of June 50 inserts a second record, and the store after
    the second call is not the store after the first. *)
Theorem backend_same_mark_twice_in_year_50 :
  Email.attendance
    (fst (Backend.postAttendance 0
            (fst (Backend.postAttendance 0 Demo.emailStaff
                    (Demo.emailMark 1%nat Demo.june50 (Some "present"))))
            (Demo.emailMark 1%nat Demo.june50 (Some "present"))))
  = [Email.mkAttendance 2%nat 1%nat Demo.june50 "present";
     Email.mkAttendance 3%nat 1%nat Demo.june50 "present"]
  /\ fst (Backend.postAttendance 0
            (fst (Backend.postAttendance 0 Demo.emailStaff
                    (Demo.emailMark 1%nat Demo.june50 (Some "present"))))
            (Demo.emailMark 1%nat Demo.june50 (Some "present")))
     <> fst (Backend.postAttendance 0 Demo.emailStaff
               (Demo.emailMark 1%nat Demo.june50 (Some "present"))).
Proof.
  split; [reflexivity|]. intros H.
  apply (f_equal Email.nextId) in H. vm_compute in H. discriminate.
Qed.

(** ** Deleting an employee *)

Lemma deleteMany_none {A : Type} (p : A -> bool) (c : list A) (a : A) :
  In a (Mongo.deleteMany p c) -> p a = false.
Proof.
  unfold Mongo.deleteMany. intros H. apply filter_In in H.
  destruct H as [_ H]. apply negb_true_iff, H.
Qed.

(** [src/backend/index.js]: after [DELETE /employees/:id] no attendance
    record names the id, and [GET /attendance?employeeId=id] is empty. *)
Lemma Backend_delete_cascades LocalTZA st req q :
  Email.query_employeeId q = Some (Email.params_id req) ->
  (forall a, In a (Email.attendance (fst (Backend.deleteEmployee st req))) ->
             Email.employee a <> Email.params_id req)
  /\ Backend.findAttendance LocalTZA (fst (Backend.deleteEmployee st req)) q
     = [].
Proof.
  intros Hq.
  assert (G : forall a,
             In a (Email.attendance (fst (Backend.deleteEmployee st req))) ->
             (Email.employee a =? Email.params_id req)%nat = false).
  { unfold Backend.deleteEmployee, Mongo.findOneAndDelete.
    destruct (find _ (Email.employees st)); cbn [fst Email.attendance];
      intros a Ha; exact (deleteMany_none _ _ a Ha). }
  split.
  - intros a Ha. apply Nat.eqb_neq, G, Ha.
  - unfold Backend.findAttendance. apply findAll_nil. intros a Ha.
    unfold Backend.attendanceQuery. rewrite Hq, (G a Ha). reflexivity.
Qed.

(** The username based service: after a deletion answered 200 no
    attendance record names the employee, and both attendance views of the
    id are empty. *)
Lemma Username_delete_cascades LocalTZA user st req id q :
  Username.body_employeeId req = Some id ->
  Http.status (snd (Username.deleteEmployee user st req)) = 200 ->
  (forall a,
      In a (Username.attendance (fst (Username.deleteEmployee user st req))) ->
      Username.employee a <> id)
  /\ Username.findAttendance LocalTZA
       (fst (Username.deleteEmployee user st req)) id q = [].
Proof.
  intros He. unfold Username.deleteEmployee, Mongo.findOneAndDelete.
  rewrite He. destruct (find _ (Username.employees st)); [|discriminate].
  intros _. cbn [fst Username.attendance].
  assert (G : forall a,
             In a (Mongo.deleteMany
                     (fun a => (Username.employee a =? id)%nat)
                     (Username.attendance st)) ->
             (Username.employee a =? id)%nat = false).
  { intros a Ha. exact (deleteMany_none _ _ a Ha). }
  split.
  - intros a Ha. apply Nat.eqb_neq, G, Ha.
  - unfold Username.findAttendance. rewrite findAll_nil; [reflexivity|].
    intros a Ha. unfold Username.attendanceOf.
    cbn [Username.attendance] in Ha. rewrite (G a Ha). reflexivity.
Qed.

(** C5.  The header service breaks the cascade: its
    [DELETE /employees/:id] removes the employee and answers 200, and the
    twenty attendance records of the employee stay in the store. *)
Theorem header_delete_leaves_attendance :
  Http.status (snd (Header.deleteEmployee Demo.emailStore Demo.deleteOne))
  = 200
  /\ Email.employees
       (fst (Header.deleteEmployee Demo.emailStore Demo.deleteOne)) = []
  /\ Email.attendance
       (fst (Header.deleteEmployee Demo.emailStore Demo.deleteOne))
     = Email.attendance Demo.emailStore
  /\ Mongo.countDocuments (fun a => (Email.employee a =? 1)%nat)
       (Email.attendance
          (fst (Header.deleteEmployee Demo.emailStore Demo.deleteOne)))
     = 20%nat.
Proof. repeat split. Qed.

(** ** The scenario of the specification *)

Example scenario_five_days_of_march :
  exists slip,
    Username.calculateSalary 0 (Username.run 0 Username.seeded Demo.scenario)
      1%nat 2025 3 = JS.Return slip
    /\ Username.presentDays slip = 5%nat
    /\ Username.totalDaysInMonth slip = 31%Z
    /\ (Username.calculatedSalary slip == inject_Z 5000)%Q.
Proof.
  eexists. split; [vm_compute; reflexivity|]. repeat split.
Qed.

(* ------------------------------------------------------------------ *)
(** * Further properties of the services *)

Lemma NoDup_map_inj {A K : Type} (key : A -> K) (c : list A) (a b : A) :
  NoDup (map key c) -> In a c -> In b c -> key a = key b -> a = b.
Proof.
  induction c as [|x c IH]; simpl; [contradiction|].
  intros N Ha Hb Hk. apply NoDup_cons_iff in N. destruct N as [Hx N].
  destruct Ha as [-> | Ha], Hb as [-> | Hb]; auto.
  - exfalso. apply Hx. rewrite Hk. apply in_map, Hb.
  - exfalso. apply Hx. rewrite <- Hk. apply in_map, Ha.
Qed.

(** ** Attendance records of a day *)

(** X1.  In every store the username based service reaches from its seeded
    start, whatever the requests, two attendance records of one employee
    on one local day are one and the same record. *)
Theorem username_reached_store_has_one_record_per_day :
  forall (LocalTZA : Z) (calls : list (Username.Route * Username.Request))
         (a b : Username.Attendance),
    In a (Username.attendance (Username.run LocalTZA Username.seeded calls)) ->
    In b (Username.attendance (Username.run LocalTZA Username.seeded calls)) ->
    Username.employee a = Username.employee b ->
    Spec.dayOf LocalTZA (Username.date a)
    = Spec.dayOf LocalTZA (Username.date b) ->
    a = b.
Proof.
  intros tz calls a b Ha Hb He Hd.
  apply (NoDup_map_inj _ _ a b (Username_reachable_onePerDay tz calls) Ha Hb).
  unfold Spec.dayKey. rewrite He, Hd. reflexivity.
Qed.

Lemma username_reached_store_has_one_record_per_day_witness :
  In Demo.firstDay
    (Username.attendance (Username.run 0 Username.seeded Demo.scenario))
  /\ Demo.firstDay = Demo.firstDay.
Proof.
  assert (H : In Demo.firstDay
                (Username.attendance
                   (Username.run 0 Username.seeded Demo.scenario))).
  { vm_compute. auto. }
  split; [exact H|].
  exact (username_reached_store_has_one_record_per_day 0 Demo.scenario
           Demo.firstDay Demo.firstDay H H eq_refl eq_refl).
Defined.

(** X2.  In the username based service, an accepted mark for a day that
    already has a record of the employee rewrites that record: the record
    with the old id now holds the new status, and the ids of the
    collection, their order, the employees they name and the id counter
    are unchanged. *)
Theorem username_mark_rewrites_the_record_of_the_day :
  forall (LocalTZA : Z) (user : Username.Employee) (st : Username.Store)
         (req : Username.Request) (e : Mongo.ObjectId) (d : Z)
         (emp : Username.Employee) (old : Username.Attendance),
    Username.body_employeeId req = Some e ->
    Username.body_date req = Some d ->
    (forall s, Username.body_status req = Some s ->
               s = "" \/ s = "present" \/ s = "absent") ->
    Username.findById e (Username.employees st) = Some emp ->
    Mongo.findOne (Username.onDay LocalTZA e (Username.startOfDay LocalTZA d))
      (Username.attendance st) = Some old ->
    In (Username.mkAttendance (Username.a_id old) e
          (Username.startOfDay LocalTZA d)
          (JS.orStr (Username.body_status req) "present"))
       (Username.attendance
          (fst (Username.markAttendance LocalTZA user st req)))
    /\ map Username.a_id
         (Username.attendance
            (fst (Username.markAttendance LocalTZA user st req)))
       = map Username.a_id (Username.attendance st)
    /\ map Username.employee
         (Username.attendance
            (fst (Username.markAttendance LocalTZA user st req)))
       = map Username.employee (Username.attendance st)
    /\ Username.nextId (fst (Username.markAttendance LocalTZA user st req))
       = Username.nextId st.
Proof.
  intros tz user st req e d emp old He Hd Hs Hf Ho.
  destruct (Username_mark_overwrites tz user st req e d emp old He Hd Hs Hf Ho)
    as (H1 & _ & H3 & H4 & H5).
  auto.
Qed.

Lemma username_mark_rewrites_the_record_of_the_day_witness :
  Username.attendance
    (fst (Username.markAttendance 0 Demo.userEmployee
            (Username.run 0 Username.seeded Demo.scenario)
            Demo.remarkAbsent))
  = Username.mkAttendance 2%nat 1%nat 1740787200000 "absent"
    :: tl (Username.attendance
             (Username.run 0 Username.seeded Demo.scenario))
  /\ In (Username.mkAttendance 2%nat 1%nat 1740787200000 "absent")
       (Username.attendance
          (fst (Username.markAttendance 0 Demo.userEmployee
                  (Username.run 0 Username.seeded Demo.scenario)
                  Demo.remarkAbsent))).
Proof.
  split; [vm_compute; reflexivity|].
  destruct (username_mark_rewrites_the_record_of_the_day 0 Demo.userEmployee
              (Username.run 0 Username.seeded Demo.scenario)
              Demo.remarkAbsent 1%nat (Demo.marchNoon 0)
              Demo.userEmployee Demo.firstDay) as (H & _).
  - reflexivity.
  - reflexivity.
  - intros s [= <-]. auto.
  - vm_compute. reflexivity.
  - vm_compute. reflexivity.
  - exact H.
Defined.

(** X3.  In the username based service the same mark sent twice leaves the
    store as the first one left it; after an accepted mark, in a store with
    at most one record for an employee and a day, the day of the mark has
    exactly one record of the employee, with the status of the mark
    ([present] when the request has none). *)
Theorem username_mark_twice_is_mark_once :
  forall (LocalTZA : Z) (user : Username.Employee) (st : Username.Store)
         (req : Username.Request) (e : Mongo.ObjectId) (d : Z)
         (emp : Username.Employee),
    Username.body_employeeId req = Some e ->
    Username.body_date req = Some d ->
    (forall s, Username.body_status req = Some s ->
               s = "" \/ s = "present" \/ s = "absent") ->
    Username.findById e (Username.employees st) = Some emp ->
    Spec.onePerDay Username.employee Username.date LocalTZA
      (Username.attendance st) ->
    fst (Username.markAttendance LocalTZA user
           (fst (Username.markAttendance LocalTZA user st req)) req)
    = fst (Username.markAttendance LocalTZA user st req)
    /\ exists att,
         Mongo.findAll
           (Username.onDay LocalTZA e (Username.startOfDay LocalTZA d))
           (Username.attendance
              (fst (Username.markAttendance LocalTZA user st req)))
         = [att]
         /\ Username.status att
            = JS.orStr (Username.body_status req) "present".
Proof.
  intros tz user st req e d emp He Hd Hs Hf Hone. split.
  - apply Username_mark_idempotent.
  - exact (Username_mark_exactly_one tz user st req e d emp He Hd Hs Hf Hone).
Qed.

Lemma username_mark_twice_is_mark_once_witness :
  fst (Username.markAttendance 0 Demo.userEmployee
         (fst (Username.markAttendance 0 Demo.userEmployee Demo.userStaff
                 (Demo.adminMark 1%nat (Demo.marchNoon 0) None)))
         (Demo.adminMark 1%nat (Demo.marchNoon 0) None))
  = fst (Username.markAttendance 0 Demo.userEmployee Demo.userStaff
           (Demo.adminMark 1%nat (Demo.marchNoon 0) None))
  /\ exists att,
       Mongo.findAll (Username.onDay 0 1%nat 1740787200000)
         (Username.attendance
            (fst (Username.markAttendance 0 Demo.userEmployee Demo.userStaff
                    (Demo.adminMark 1%nat (Demo.marchNoon 0) None))))
       = [att]
       /\ Username.status att = "present".
Proof.
  refine (username_mark_twice_is_mark_once 0 Demo.userEmployee Demo.userStaff
            (Demo.adminMark 1%nat (Demo.marchNoon 0) None) 1%nat
            (Demo.marchNoon 0) Demo.userEmployee eq_refl eq_refl _ eq_refl _).
  - intros s. discriminate.
  - constructor.
Defined.

Lemma Gated_auth_employees caller unknown st st' req :
  Email.employees st' = Email.employees st ->
  Gated.auth caller unknown st' req = Gated.auth caller unknown st req.
Proof. intros H. unfold Gated.auth. rewrite H. reflexivity. Qed.

Lemma Gated_upsert_employees LocalTZA st req :
  Email.employees (fst (Gated.upsertAttendance LocalTZA st req))
  = Email.employees st.
Proof.
  unfold Gated.upsertAttendance.
  destruct (Email.body_employee req); [|reflexivity].
  destruct (Email.body_date req); [|reflexivity].
  destruct (Mongo.findOneAndUpsert _ _ _ _) as [[att atts] isNew].
  reflexivity.
Qed.

Lemma Gated_post_properties caller unknown LocalTZA st req :
  Spec.onePerDay Email.employee Email.date LocalTZA (Email.attendance st) ->
  Spec.onePerDay Email.employee Email.date LocalTZA
    (Email.attendance (fst (Gated.postAttendance caller unknown LocalTZA st req)))
  /\ fst (Gated.postAttendance caller unknown LocalTZA
            (fst (Gated.postAttendance caller unknown LocalTZA st req)) req)
     = fst (Gated.postAttendance caller unknown LocalTZA st req).
Proof.
  intros H. unfold Gated.postAttendance, Gated.gated.
  destruct (Gated.auth caller unknown st req) as [user|denied] eqn:A; simpl.
  - split; [apply Gated_upsert_keeps_onePerDay, H|].
    rewrite (Gated_auth_employees caller unknown st _ req
               (Gated_upsert_employees LocalTZA st req)), A.
    apply Gated_upsert_idempotent.
  - split; [exact H|]. rewrite A. reflexivity.
Qed.

(** X4.  [POST /attendance] of the header and of the cookie service keeps
    at most one record for an employee and a local day, and the same
    request sent twice leaves the store as the first one left it. *)
Theorem header_cookie_mark_keeps_one_record_per_day :
  forall (LocalTZA : Z) (st : Email.Store) (req : Email.Request),
    Spec.onePerDay Email.employee Email.date LocalTZA (Email.attendance st) ->
    (Spec.onePerDay Email.employee Email.date LocalTZA
       (Email.attendance (fst (Header.postAttendance LocalTZA st req)))
     /\ fst (Header.postAttendance LocalTZA
               (fst (Header.postAttendance LocalTZA st req)) req)
        = fst (Header.postAttendance LocalTZA st req))
    /\ (Spec.onePerDay Email.employee Email.date LocalTZA
          (Email.attendance (fst (Cookie.postAttendance LocalTZA st req)))
        /\ fst (Cookie.postAttendance LocalTZA
                  (fst (Cookie.postAttendance LocalTZA st req)) req)
           = fst (Cookie.postAttendance LocalTZA st req)).
Proof.
  intros tz st req H. split; apply Gated_post_properties, H.
Qed.

Lemma header_cookie_mark_keeps_one_record_per_day_witness :
  Spec.onePerDay Email.employee Email.date 0
    (Email.attendance Demo.emailStaff)
  /\ Spec.onePerDay Email.employee Email.date 0
       (Email.attendance
          (fst (Header.postAttendance 0 Demo.emailStaff Demo.markNinth)))
  /\ fst (Cookie.postAttendance 0
            (fst (Cookie.postAttendance 0 Demo.emailStaff Demo.markNinth))
            Demo.markNinth)
     = fst (Cookie.postAttendance 0 Demo.emailStaff Demo.markNinth).
Proof.
  assert (H : Spec.onePerDay Email.employee Email.date 0
                (Email.attendance Demo.emailStaff)) by constructor.
  destruct (header_cookie_mark_keeps_one_record_per_day 0 Demo.emailStaff
              Demo.markNinth H) as [[H1 _] [_ H2]].
  auto.
Defined.

(** X5.  For a date whose local year is outside 0 to 99,
    [POST /attendance] of [src/backend/index.js] keeps at most one record
    for an employee and a local day, and the same request sent twice leaves
    the store as the first one left it. *)
Theorem backend_mark_keeps_one_record_per_day_outside_years_0_to_99 :
  forall (LocalTZA : Z) (st : Email.Store) (req : Email.Request),
    (forall d, Email.body_date req = Some d ->
               ~ (0 <= JSDate.getFullYear LocalTZA d <= 99)%Z) ->
    Spec.onePerDay Email.employee Email.date LocalTZA (Email.attendance st) ->
    Spec.onePerDay Email.employee Email.date LocalTZA
      (Email.attendance (fst (Backend.postAttendance LocalTZA st req)))
    /\ fst (Backend.postAttendance LocalTZA
              (fst (Backend.postAttendance LocalTZA st req)) req)
       = fst (Backend.postAttendance LocalTZA st req).
Proof.
  intros tz st req Hy H. split.
  - apply Backend_post_keeps_onePerDay; assumption.
  - apply Backend_post_idempotent, Hy.
Qed.

Lemma backend_mark_keeps_one_record_per_day_outside_years_0_to_99_witness :
  JSDate.getFullYear 0 (Demo.marchNoon 8) = 2025%Z
  /\ Spec.onePerDay Email.employee Email.date 0
       (Email.attendance
          (fst (Backend.postAttendance 0 Demo.emailStaff Demo.markNinth)))
  /\ fst (Backend.postAttendance 0
            (fst (Backend.postAttendance 0 Demo.emailStaff Demo.markNinth))
            Demo.markNinth)
     = fst (Backend.postAttendance 0 Demo.emailStaff Demo.markNinth).
Proof.
  split; [reflexivity|].
  apply (backend_mark_keeps_one_record_per_day_outside_years_0_to_99 0
           Demo.emailStaff Demo.markNinth).
  - intros d [= <-]. vm_compute. intros [_ H]. apply H. reflexivity.
  - constructor.
Defined.

(** ** The requests that change the store of the username based service *)

Lemma required_some (o : option string) (s : string) :
  Username.required o = Some s -> o = Some s /\ s <> "".
Proof.
  unfold Username.required. destruct o as [x|]; [|discriminate].
  destruct (x =? "") eqn:E; [discriminate|].
  intros [= ->]. apply String.eqb_neq in E. auto.
Qed.

Lemma Username_mark_status req :
  JS.truthyStr (Username.body_status req)
  && negb (Username.isAllowedStatus (JS.orStr (Username.body_status req) ""))
  = false ->
  JS.orStr (Username.body_status req) "present" = "present"
  \/ JS.orStr (Username.body_status req) "present" = "absent".
Proof.
  unfold JS.truthyStr, JS.orStr, Username.isAllowedStatus.
  destruct (Username.body_status req) as [s|]; [|auto].
  destruct (s =? "") eqn:E; simpl; [auto|].
  intros H. apply negb_false_iff, orb_true_iff in H.
  rewrite !String.eqb_eq in H. exact H.
Qed.

Lemma Username_admin_handler_changes LocalTZA r user st req :
  fst (Username.adminHandler LocalTZA r user st req) = st
  \/ Spec.Changes LocalTZA st
       (fst (Username.adminHandler LocalTZA r user st req)).
Proof.
  destruct r; simpl.
  - (* create *)
    unfold Username.createEmployee.
    destruct (Username.required (Username.body_name req)) as [nm|];
      [|auto].
    destruct (Username.required (Username.body_username_new req)) as [u|] eqn:Hu;
      [|auto].
    destruct (Username.required (Username.body_password_new req)) as [p|] eqn:Hp;
      [|auto].
    destruct (Username.required (Username.body_empId req)) as [eid|];
      [|auto].
    destruct (Mongo.findOne _ _) eqn:F; [auto|].
    right. cbn [fst].
    apply required_some in Hu, Hp.
    apply (Spec.created LocalTZA st
             (Username.mkEmployee (Username.nextId st) nm u p "employee"
                (JS.orNum (Username.body_salary req) (inject_Z 30000)) eid));
      try reflexivity; try tauto.
    intros x Hx. pose proof (find_none _ _ F x Hx) as N. simpl in N.
    apply orb_false_iff in N. rewrite !String.eqb_neq in N. exact N.
  - auto.
  - unfold Username.getEmployee.
    destruct (Username.body_employeeId req); [|auto].
    destruct (Username.findById _ _); auto.
  - (* update *)
    unfold Username.updateEmployee.
    destruct (Username.body_employeeId req) as [id|]; [|auto].
    destruct (Username.findById id (Username.employees st)) as [old|] eqn:F;
      [|auto].
    destruct (Username.clashes _ _ _ _) eqn:C; [auto|].
    right. cbn [fst]. exact (Spec.updated LocalTZA st id old req F C).
  - (* delete *)
    unfold Username.deleteEmployee, Mongo.findOneAndDelete.
    destruct (Username.body_employeeId req) as [id|]; [|auto].
    destruct (find _ _) as [old|] eqn:F; [|auto].
    right. cbn [fst]. exact (Spec.deleted LocalTZA st id old F).
  - (* mark *)
    unfold Username.markAttendance.
    destruct (Username.body_employeeId req) as [e|]; [|auto].
    destruct (Username.body_date req) as [d|]; [|auto].
    destruct (_ && _) eqn:C; [auto|].
    destruct (Username.findById e (Username.employees st)) as [emp|] eqn:F;
      [|auto].
    destruct (Mongo.findOneAndUpsert _ _ _ _) as [[att atts] isNew] eqn:U.
    right. cbn [fst].
    exact (Spec.marked LocalTZA st e d _ emp att atts isNew F
             (Username_mark_status req C) U).
  - unfold Username.viewAttendance.
    destruct (Username.body_employeeId req); auto.
  - left. apply Username_payslipFor_store.
  - left. apply Username_payslipFor_store.
Qed.

(** A request leaves the store as it is, or it is a request of an
    administrator and changes it in one of the four ways. *)
Lemma Username_handle_changes LocalTZA r st req :
  fst (Username.handle LocalTZA r st req) = st
  \/ (Spec.Changes LocalTZA st (fst (Username.handle LocalTZA r st req))
      /\ exists user,
           Username.authenticate st req = inl user
           /\ Username.role user = "admin").
Proof.
  destruct r as [| |r|r]; simpl; auto; unfold Username.guarded.
  - destruct (Username.authenticate st req) as [user|]; [|auto].
    unfold Username.adminOnly.
    destruct (Username.role user =? "admin") eqn:R; simpl; [|auto].
    apply String.eqb_eq in R.
    destruct (Username_admin_handler_changes LocalTZA r user st req)
      as [H | H]; [auto|].
    right. split; [exact H|]. exists user. auto.
  - destruct (Username.authenticate st req) as [user|]; [|auto].
    destruct (Username.employeeOnly user); [auto|].
    left. destruct r; simpl; try reflexivity;
      apply Username_payslipFor_store.
Qed.

(** A property of the seeded store that every change keeps holds in every
    store reached. *)
Lemma Username_reached (LocalTZA : Z) (P : Username.Store -> Prop) :
  P Username.seeded ->
  (forall st st', P st -> Spec.Changes LocalTZA st st' -> P st') ->
  forall calls, P (Username.run LocalTZA Username.seeded calls).
Proof.
  intros H0 Hstep calls. unfold Username.run.
  generalize dependent Username.seeded.
  induction calls as [|c calls IH]; intros st H; simpl; [exact H|].
  apply IH.
  destruct (Username_handle_changes LocalTZA (fst c) st (snd c))
    as [E | [C _]]; [rewrite E; exact H | exact (Hstep _ _ H C)].
Qed.

Lemma upsert_all {A : Type} (p : A -> bool) (u : A -> A) (fresh : A)
  (c : list A) (Q : A -> Prop) :
  (forall x, In x c -> Q x) -> (forall x, Q (u x)) -> Q fresh ->
  let '(_, c', _) := Mongo.findOneAndUpsert p u fresh c in
  forall x, In x c' -> Q x.
Proof.
  intros Hc Hu Hf. unfold Mongo.findOneAndUpsert.
  destruct (find p c) as [y|].
  - clear Hf. induction c as [|z c IH]; simpl; [contradiction|].
    destruct (p z); intros x [<- | Hx].
    + apply Hu.
    + apply Hc. right. exact Hx.
    + apply Hc. left. reflexivity.
    + apply IH; [|exact Hx]. intros w Hw. apply Hc. right. exact Hw.
  - intros x Hx. apply in_app_or in Hx. destruct Hx as [Hx | [<- | []]]; auto.
Qed.

Lemma findById_app id c e emp :
  Username.findById id c = Some emp ->
  Username.findById id (c ++ [e]) = Some emp.
Proof.
  unfold Username.findById, Mongo.findOne.
  induction c as [|x c IH]; simpl; [discriminate|].
  destruct (Username._id x =? id)%nat; auto.
Qed.

Lemma findById_updateFirst id i u c emp :
  (forall e, Username._id (u e) = Username._id e) ->
  Username.findById i c = Some emp ->
  exists emp',
    Username.findById i
      (Mongo.updateFirst (fun e => (Username._id e =? id)%nat) u c)
    = Some emp'.
Proof.
  intros Hu. unfold Username.findById, Mongo.findOne.
  induction c as [|x c IH]; simpl; [discriminate|].
  destruct (Username._id x =? id)%nat eqn:E; simpl.
  - rewrite Hu. destruct (Username._id x =? i)%nat; eauto.
  - destruct (Username._id x =? i)%nat; eauto.
Qed.

Lemma findById_deleteFirst id i c :
  i <> id ->
  Username.findById i
    (Mongo.deleteFirst (fun e => (Username._id e =? id)%nat) c)
  = Username.findById i c.
Proof.
  intros Hne. unfold Username.findById, Mongo.findOne.
  induction c as [|x c IH]; simpl; [reflexivity|].
  destruct (Username._id x =? id)%nat eqn:E; simpl.
  - apply Nat.eqb_eq in E.
    destruct (Username._id x =? i)%nat eqn:E'; [|reflexivity].
    apply Nat.eqb_eq in E'. congruence.
  - rewrite IH. reflexivity.
Qed.

(** ** What holds in every store the username based service reaches *)

(** X6.  In every store the username based service reaches from its seeded
    start, every attendance record names a stored employee: a mark is
    written for an existing employee only, and a deletion takes the
    attendance of the employee with it. *)
Theorem username_attendance_names_stored_employees :
  forall (LocalTZA : Z) (calls : list (Username.Route * Username.Request))
         (a : Username.Attendance),
    In a (Username.attendance (Username.run LocalTZA Username.seeded calls)) ->
    exists emp,
      Username.findById (Username.employee a)
        (Username.employees (Username.run LocalTZA Username.seeded calls))
      = Some emp.
Proof.
  intros tz calls.
  apply (Username_reached tz
           (fun st => forall a, In a (Username.attendance st) ->
                                exists emp,
                                  Username.findById (Username.employee a)
                                    (Username.employees st) = Some emp)).
  - simpl. contradiction.
  - intros st st' H C.
    destruct C as [e _ _ _ _ _ | id old req F _ | id old F
                  | e d status emp att atts isNew F _ U];
      cbn [Username.attendance Username.employees].
    + intros a Ha. destruct (H a Ha) as [emp Hemp].
      exists emp. apply findById_app, Hemp.
    + intros a Ha. destruct (H a Ha) as [emp Hemp].
      apply (findById_updateFirst id _ _ _ emp); [reflexivity | exact Hemp].
    + intros a Ha. pose proof (deleteMany_none _ _ a Ha) as N.
      apply Nat.eqb_neq in N. unfold Mongo.deleteMany in Ha.
      apply filter_In in Ha. destruct Ha as [Ha _].
      rewrite (findById_deleteFirst id _ _ N). exact (H a Ha).
    + pose proof (upsert_all
                    (Username.onDay tz e (Username.startOfDay tz d))
                    (fun a => Username.mkAttendance (Username.a_id a) e
                                (Username.startOfDay tz d) status)
                    (Username.mkAttendance (Username.nextId st) e
                       (Username.startOfDay tz d) status)
                    (Username.attendance st)
                    (fun a => exists emp,
                         Username.findById (Username.employee a)
                           (Username.employees st) = Some emp)
                    H) as A.
      rewrite U in A. apply A; intros; simpl; eauto.
Qed.

Lemma username_attendance_names_stored_employees_witness :
  exists emp,
    Username.findById (Username.employee Demo.firstDay)
      (Username.employees (Username.run 0 Username.seeded Demo.scenario))
    = Some emp.
Proof.
  apply (username_attendance_names_stored_employees 0 Demo.scenario
           Demo.firstDay).
  vm_compute. auto.
Defined.

Lemma insertByDate_In a x l :
  In x (Username.insertByDate a l) -> x = a \/ In x l.
Proof.
  induction l as [|b l IH]; simpl.
  - intros [<- | []]. auto.
  - destruct (Username.date b <? Username.date a)%Z; simpl.
    + intros [<- | H]; auto.
    + intros [<- | H]; auto. destruct (IH H); auto.
Qed.

Lemma sortByDateDesc_In x l :
  In x (Username.sortByDateDesc l) -> In x l.
Proof.
  unfold Username.sortByDateDesc.
  induction l as [|a l IH]; simpl; [auto|].
  intros H. apply insertByDate_In in H. destruct H as [-> | H]; auto.
Qed.

Lemma present_plus_absent (l : list Username.Attendance) :
  (forall a, In a l ->
             Username.status a = "present" \/ Username.status a = "absent") ->
  List.length l
  = (List.length (filter (fun a => String.eqb (Username.status a) "present") l)
     + List.length (filter (fun a => String.eqb (Username.status a) "absent") l))%nat.
Proof.
  induction l as [|a l IH]; simpl; [reflexivity|].
  intros H. rewrite IH by (intros b Hb; apply H; auto).
  destruct (H a (or_introl eq_refl)) as [E | E]; rewrite E; simpl; lia.
Qed.

(** X7.  In every store the username based service reaches, every
    attendance record is present or absent; so in the summary of an
    attendance view (of an administrator for any employee, of an employee
    for itself, with or without month and year) the total of the records is
    the present days plus the absent days. *)
Theorem username_summary_adds_up :
  forall (LocalTZA : Z) (calls : list (Username.Route * Username.Request))
         (employeeId : Mongo.ObjectId) (req : Username.Request),
    (forall a,
        In a (Username.attendance
                (Username.run LocalTZA Username.seeded calls)) ->
        Username.status a = "present" \/ Username.status a = "absent")
    /\ List.length
         (Username.findAttendance LocalTZA
            (Username.run LocalTZA Username.seeded calls) employeeId req)
       = (List.length
            (filter (fun a => String.eqb (Username.status a) "present")
               (Username.findAttendance LocalTZA
                  (Username.run LocalTZA Username.seeded calls)
                  employeeId req))
          + List.length
              (filter (fun a => String.eqb (Username.status a) "absent")
                 (Username.findAttendance LocalTZA
                    (Username.run LocalTZA Username.seeded calls)
                    employeeId req)))%nat.
Proof.
  intros tz calls employeeId req.
  assert (S : forall a,
             In a (Username.attendance
                     (Username.run tz Username.seeded calls)) ->
             Username.status a = "present" \/ Username.status a = "absent").
  { apply (Username_reached tz
             (fun st => forall a, In a (Username.attendance st) ->
                                  Username.status a = "present"
                                  \/ Username.status a = "absent")).
    - simpl. contradiction.
    - intros st st' H C.
      destruct C as [e _ _ _ _ _ | id old r F _ | id old F
                    | e d status emp att atts isNew F Hs U];
        cbn [Username.attendance]; try exact H.
      + intros a Ha. unfold Mongo.deleteMany in Ha.
        apply filter_In in Ha. apply H, Ha.
      + pose proof (upsert_all
                      (Username.onDay tz e (Username.startOfDay tz d))
                      (fun a => Username.mkAttendance (Username.a_id a) e
                                  (Username.startOfDay tz d) status)
                      (Username.mkAttendance (Username.nextId st) e
                         (Username.startOfDay tz d) status)
                      (Username.attendance st)
                      (fun a => Username.status a = "present"
                                \/ Username.status a = "absent")
                      H) as A.
        rewrite U in A. apply A; intros; exact Hs. }
  split; [exact S|].
  apply present_plus_absent. intros a Ha.
  unfold Username.findAttendance in Ha. apply sortByDateDesc_In in Ha.
  unfold Mongo.findAll in Ha. apply filter_In in Ha. apply S, Ha.
Qed.

Lemma username_summary_adds_up_witness :
  List.length
    (Username.findAttendance 0 (Username.run 0 Username.seeded Demo.scenario)
       1%nat Demo.ownMarch)
  = (List.length
       (filter (fun a => String.eqb (Username.status a) "present")
          (Username.findAttendance 0
             (Username.run 0 Username.seeded Demo.scenario) 1%nat
             Demo.ownMarch))
     + List.length
         (filter (fun a => String.eqb (Username.status a) "absent")
            (Username.findAttendance 0
               (Username.run 0 Username.seeded Demo.scenario) 1%nat
               Demo.ownMarch)))%nat.
Proof.
  exact (proj2 (username_summary_adds_up 0 Demo.scenario 1%nat Demo.ownMarch)).
Defined.

(** X8.  In the username based service a request that changes the store is
    a request of an authenticated administrator to one of the four routes
    that create, update or delete an employee or mark attendance; every
    other request (a login, a view, a payslip, any request of an employee
    or of a caller that does not authenticate) leaves the store as it
    is. *)
Theorem username_only_an_administrator_changes_the_store :
  forall (LocalTZA : Z) (r : Username.Route) (st : Username.Store)
         (req : Username.Request),
    fst (Username.handle LocalTZA r st req) <> st ->
    (exists user,
        Username.authenticate st req = inl user
        /\ Username.role user = "admin")
    /\ (r = Username.Admin Username.EmployeesCreate
        \/ r = Username.Admin Username.EmployeesUpdate
        \/ r = Username.Admin Username.EmployeesDelete
        \/ r = Username.Admin Username.AttendanceMark).
Proof.
  intros tz r st req H. split.
  - destruct (Username_handle_changes tz r st req) as [E | [_ A]];
      [contradiction | exact A].
  - destruct r as [| |r|r]; simpl in H; try (exfalso; apply H; reflexivity).
    + unfold Username.guarded in H.
      destruct (Username.authenticate st req) as [user|];
        [|exfalso; apply H; reflexivity].
      destruct (Username.adminOnly user); [exfalso; apply H; reflexivity|].
      destruct r; auto; exfalso; apply H; simpl.
      * reflexivity.
      * unfold Username.getEmployee.
        destruct (Username.body_employeeId req); [|reflexivity].
        destruct (Username.findById _ _); reflexivity.
      * unfold Username.viewAttendance.
        destruct (Username.body_employeeId req); reflexivity.
      * apply Username_payslipFor_store.
      * apply Username_payslipFor_store.
    + unfold Username.guarded in H.
      destruct (Username.authenticate st req) as [user|];
        [|exfalso; apply H; reflexivity].
      destruct (Username.employeeOnly user); [exfalso; apply H; reflexivity|].
      exfalso. apply H.
      destruct r; simpl; try reflexivity; apply Username_payslipFor_store.
Qed.

Lemma username_only_an_administrator_changes_the_store_witness :
  fst (Username.handle 0 (Username.Admin Username.EmployeesCreate)
         Username.seeded Demo.createE1) <> Username.seeded
  /\ exists user,
       Username.authenticate Username.seeded Demo.createE1 = inl user
       /\ Username.role user = "admin".
Proof.
  assert (H : fst (Username.handle 0 (Username.Admin Username.EmployeesCreate)
                     Username.seeded Demo.createE1) <> Username.seeded).
  { intros E. apply (f_equal Username.nextId) in E. vm_compute in E.
    discriminate. }
  split; [exact H|].
  exact (proj1 (username_only_an_administrator_changes_the_store 0 _
                  Username.seeded Demo.createE1 H)).
Defined.

Lemma updateFirst_all {A : Type} (p : A -> bool) (u : A -> A) (c : list A)
  (Q : A -> Prop) :
  (forall x, In x c -> Q x) -> (forall x, Q x -> Q (u x)) ->
  forall x, In x (Mongo.updateFirst p u c) -> Q x.
Proof.
  intros Hc Hu. induction c as [|z c IH]; simpl; [contradiction|].
  destruct (p z); intros x [<- | Hx].
  - apply Hu, Hc. left. reflexivity.
  - apply Hc. right. exact Hx.
  - apply Hc. left. reflexivity.
  - apply IH; [|exact Hx]. intros w Hw. apply Hc. right. exact Hw.
Qed.

Lemma deleteFirst_In {A : Type} (p : A -> bool) (c : list A) (x : A) :
  In x (Mongo.deleteFirst p c) -> In x c.
Proof.
  induction c as [|z c IH]; simpl; [auto|].
  destruct (p z); [auto|]. intros [<- | H]; auto.
Qed.

(** X9.  In every store the username based service reaches, an employee
    with the role admin is the seeded administrator (id 0): the create
    route stores the role employee whatever the body, and no route changes
    a role or an id. *)
Theorem username_no_second_administrator :
  forall (LocalTZA : Z) (calls : list (Username.Route * Username.Request))
         (e : Username.Employee),
    In e (Username.employees (Username.run LocalTZA Username.seeded calls)) ->
    Username.role e = "employee"
    \/ (Username.role e = "admin" /\ Username._id e = 0%nat).
Proof.
  intros tz calls.
  apply (Username_reached tz
           (fun st => forall e, In e (Username.employees st) ->
                                Username.role e = "employee"
                                \/ (Username.role e = "admin"
                                    /\ Username._id e = 0%nat))).
  - intros e [<- | []]. right. split; reflexivity.
  - intros st st' H C.
    destruct C as [n _ Hr _ _ _ | id old req F _ | id old F
                  | e d status emp att atts isNew F _ U];
      cbn [Username.employees]; try exact H.
    + intros e He. apply in_app_or in He.
      destruct He as [He | [<- | []]]; auto.
    + apply updateFirst_all; [exact H|]. intros x Hx. exact Hx.
    + intros e He. apply H. exact (deleteFirst_In _ _ e He).
Qed.

Lemma username_no_second_administrator_witness :
  In Demo.userEmployee
    (Username.employees (Username.run 0 Username.seeded Demo.scenario))
  /\ (Username.role Demo.userEmployee = "employee"
      \/ (Username.role Demo.userEmployee = "admin"
          /\ Username._id Demo.userEmployee = 0%nat)).
Proof.
  assert (H : In Demo.userEmployee
                (Username.employees
                   (Username.run 0 Username.seeded Demo.scenario))).
  { vm_compute. auto. }
  split; [exact H|].
  exact (username_no_second_administrator 0 Demo.scenario Demo.userEmployee H).
Defined.

Lemma NoDup_map_snoc {A K : Type} (f : A -> K) (c : list A) (e : A) :
  NoDup (map f c) -> (forall x, In x c -> f x <> f e) ->
  NoDup (map f (c ++ [e])).
Proof.
  intros N H. rewrite map_app. simpl.
  apply Permutation_NoDup with (l := f e :: map f c).
  - apply Permutation_cons_append.
  - constructor; [|exact N]. rewrite in_map_iff.
    intros (x & Hx & Hin). exact (H x Hin Hx).
Qed.

Lemma NoDup_map_deleteFirst {A K : Type} (f : A -> K) (p : A -> bool)
  (c : list A) :
  NoDup (map f c) -> NoDup (map f (Mongo.deleteFirst p c)).
Proof.
  induction c as [|x c IH]; simpl; [auto|].
  intros N. apply NoDup_cons_iff in N. destruct N as [Hx N].
  destruct (p x); [exact N|]. simpl. constructor; [|auto].
  rewrite in_map_iff in *. intros (y & Hy & Hin).
  apply Hx. exists y. split; [exact Hy|]. exact (deleteFirst_In _ _ y Hin).
Qed.

Lemma updateFirst_In_inv {A : Type} (p : A -> bool) (u : A -> A)
  (c : list A) (y : A) :
  In y (Mongo.updateFirst p u c) ->
  In y c \/ exists z, find p c = Some z /\ y = u z.
Proof.
  induction c as [|x c IH]; simpl; [auto|].
  destruct (p x).
  - intros [<- | H]; [right; eauto | auto].
  - intros [<- | H]; [auto|]. destruct (IH H); auto.
Qed.

Lemma NoDup_map_updateFirst {K : Type} (f : Username.Employee -> K)
  (id : Mongo.ObjectId) (u : Username.Employee -> Username.Employee)
  (c : list Username.Employee) (old : Username.Employee) :
  NoDup (map Username._id c) -> NoDup (map f c) ->
  Username.findById id c = Some old ->
  (f (u old) = f old
   \/ forall x, In x c -> Username._id x <> id -> f x <> f (u old)) ->
  NoDup (map f (Mongo.updateFirst (fun e => (Username._id e =? id)%nat) u c)).
Proof.
  unfold Username.findById, Mongo.findOne.
  induction c as [|x c IH]; simpl; [auto|].
  intros Ni Nf F H.
  apply NoDup_cons_iff in Ni. destruct Ni as [Hi Ni].
  apply NoDup_cons_iff in Nf. destruct Nf as [Hf Nf].
  destruct (Username._id x =? id)%nat eqn:E.
  - injection F as <-. apply Nat.eqb_eq in E. simpl.
    constructor; [|exact Nf].
    destruct H as [H | H]; [rewrite H; exact Hf|].
    rewrite in_map_iff. intros (y & Hy & Hin).
    apply (H y (or_intror Hin)); [|exact Hy].
    intros Hid. apply Hi. rewrite in_map_iff. exists y. split; congruence.
  - apply Nat.eqb_neq in E. simpl. constructor.
    + rewrite in_map_iff. intros (y & Hy & Hin).
      destruct (find_some _ _ F) as [Hold _].
      apply updateFirst_In_inv in Hin. destruct Hin as [Hin | (z & Fz & ->)].
      * apply Hf. rewrite in_map_iff. exists y. auto.
      * rewrite F in Fz. injection Fz as <-.
        destruct H as [H | H].
        -- apply Hf. rewrite in_map_iff. exists old. split; congruence.
        -- apply (H x (or_introl eq_refl) E). congruence.
    + apply IH; auto.
      destruct H as [H | H]; [left; exact H | right].
      intros y Hy. apply H. right. exact Hy.
Qed.

Lemma orStr_nonempty (o : option string) (dflt : string) :
  dflt <> "" -> JS.orStr o dflt <> "".
Proof.
  intros H. unfold JS.orStr. destruct o as [s|]; [|exact H].
  destruct (s =? "") eqn:E; [exact H | apply String.eqb_neq, E].
Qed.

Lemma existsb_false {A : Type} (f : A -> bool) (c : list A) (x : A) :
  existsb f c = false -> In x c -> f x = false.
Proof.
  intros E Hx. destruct (f x) eqn:F; [|reflexivity].
  assert (T : existsb f c = true) by (apply existsb_exists; eauto).
  congruence.
Qed.

Lemma clashes_false id old new c :
  Username.clashes id old new c = false ->
  (Username.username new = Username.username old
   \/ forall x, In x c -> Username._id x <> id ->
                Username.username x <> Username.username new)
  /\ (Username.empId new = Username.empId old
      \/ forall x, In x c -> Username._id x <> id ->
                   Username.empId x <> Username.empId new).
Proof.
  intros C. unfold Username.clashes in C.
  assert (G : forall x, In x c -> Username._id x <> id ->
                        (negb (Username.username new =? Username.username old)
                         && (Username.username x =? Username.username new)
                         = false)
                        /\ (negb (Username.empId new =? Username.empId old)
                            && (Username.empId x =? Username.empId new)
                            = false)).
  { intros x Hx Hid.
    pose proof (existsb_false _ c x C Hx) as N. cbv beta in N.
    apply Nat.eqb_neq in Hid. rewrite Hid in N. simpl in N.
    apply orb_false_iff in N. exact N. }
  split.
  - destruct (Username.username new =? Username.username old) eqn:E.
    + left. apply String.eqb_eq, E.
    + right. intros x Hx Hid. destruct (G x Hx Hid) as [N _].
      simpl in N. apply String.eqb_neq, N.
  - destruct (Username.empId new =? Username.empId old) eqn:E.
    + left. apply String.eqb_eq, E.
    + right. intros x Hx Hid. destruct (G x Hx Hid) as [_ N].
      simpl in N. apply String.eqb_neq, N.
Qed.

(** The identities of the employees of a reached store. *)
Lemma Username_identities LocalTZA calls :
  let st := Username.run LocalTZA Username.seeded calls in
  NoDup (map Username._id (Username.employees st))
  /\ (forall e, In e (Username.employees st) ->
                (Username._id e < Username.nextId st)%nat)
  /\ NoDup (map Username.username (Username.employees st))
  /\ NoDup (map Username.empId (Username.employees st))
  /\ (forall e, In e (Username.employees st) ->
                Username.username e <> "" /\ Username.password e <> "").
Proof.
  apply (Username_reached LocalTZA
           (fun st =>
              NoDup (map Username._id (Username.employees st))
              /\ (forall e, In e (Username.employees st) ->
                            (Username._id e < Username.nextId st)%nat)
              /\ NoDup (map Username.username (Username.employees st))
              /\ NoDup (map Username.empId (Username.employees st))
              /\ (forall e, In e (Username.employees st) ->
                            Username.username e <> ""
                            /\ Username.password e <> ""))).
  - simpl. repeat split; try (constructor; [simpl; tauto | constructor]).
    + intros e [<- | []]. simpl. lia.
    + destruct H as [<- | []]. discriminate.
    + destruct H as [<- | []]. discriminate.
  - intros st st' (Ni & Hlt & Nu & Ne & Hne) C.
    destruct C as [n Hid _ Hun Hpw Huniq | id old req F C | id old F
                  | e d status emp att atts isNew F _ U];
      cbn [Username.employees Username.nextId].
    + repeat split.
      * apply NoDup_map_snoc; [exact Ni|]. intros x Hx.
        specialize (Hlt x Hx). lia.
      * intros e He. apply in_app_or in He.
        destruct He as [He | [<- | []]]; [specialize (Hlt e He)|]; lia.
      * apply NoDup_map_snoc; [exact Nu|]. intros x Hx.
        apply (Huniq x Hx).
      * apply NoDup_map_snoc; [exact Ne|]. intros x Hx.
        apply (Huniq x Hx).
      * apply in_app_or in H. destruct H as [H | [<- | []]];
          [apply (Hne e H) | exact Hun].
      * apply in_app_or in H. destruct H as [H | [<- | []]];
          [apply (Hne e H) | exact Hpw].
    + destruct (clashes_false _ _ _ _ C) as [Cu Ce].
      repeat split.
      * rewrite updateFirst_map; [exact Ni | reflexivity].
      * apply updateFirst_all; [exact Hlt | intros x Hx; exact Hx].
      * exact (NoDup_map_updateFirst Username.username id _ _ old Ni Nu F Cu).
      * exact (NoDup_map_updateFirst Username.empId id _ _ old Ni Ne F Ce).
      * revert e H. apply updateFirst_all; [apply Hne|].
        intros x Hx. simpl. apply orStr_nonempty, Hx.
      * revert e H. apply updateFirst_all; [apply Hne|].
        intros x Hx. simpl. apply orStr_nonempty, Hx.
    + repeat split; try (apply NoDup_map_deleteFirst; assumption).
      * intros e He. apply Hlt. exact (deleteFirst_In _ _ e He).
      * apply (Hne e). exact (deleteFirst_In _ _ e H).
      * apply (Hne e). exact (deleteFirst_In _ _ e H).
    + repeat split; auto; try (apply (Hne e0); assumption).
      intros x Hx. specialize (Hlt x Hx). destruct isNew; lia.
Qed.

(** X10.  In every store the username based service reaches, ids,
    usernames and employee IDs are unique: two stored employees that share
    one of the three are the same employee. *)
Theorem username_identifiers_are_unique :
  forall (LocalTZA : Z) (calls : list (Username.Route * Username.Request))
         (a b : Username.Employee),
    In a (Username.employees (Username.run LocalTZA Username.seeded calls)) ->
    In b (Username.employees (Username.run LocalTZA Username.seeded calls)) ->
    Username._id a = Username._id b
    \/ Username.username a = Username.username b
    \/ Username.empId a = Username.empId b ->
    a = b.
Proof.
  intros tz calls a b Ha Hb H.
  destruct (Username_identities tz calls) as (Ni & _ & Nu & Ne & _).
  destruct H as [H | [H | H]].
  - exact (NoDup_map_inj _ _ a b Ni Ha Hb H).
  - exact (NoDup_map_inj _ _ a b Nu Ha Hb H).
  - exact (NoDup_map_inj _ _ a b Ne Ha Hb H).
Qed.

Lemma username_identifiers_are_unique_witness :
  In Demo.userEmployee
    (Username.employees (Username.run 0 Username.seeded Demo.scenario))
  /\ Demo.userEmployee = Demo.userEmployee.
Proof.
  assert (H : In Demo.userEmployee
                (Username.employees
                   (Username.run 0 Username.seeded Demo.scenario))).
  { vm_compute. auto. }
  split; [exact H|].
  exact (username_identifiers_are_unique 0 Demo.scenario Demo.userEmployee
           Demo.userEmployee H H (or_introl eq_refl)).
Defined.

Lemma findOne_unique {A K : Type} (key : A -> K) (p : A -> bool)
  (c : list A) (a : A) :
  NoDup (map key c) -> In a c -> p a = true ->
  (forall x, p x = true -> key x = key a) ->
  Mongo.findOne p c = Some a.
Proof.
  intros N Ha Hp Hk. unfold Mongo.findOne.
  destruct (find p c) as [x|] eqn:F.
  - destruct (find_some _ _ F) as [Hx Px].
    f_equal. exact (NoDup_map_inj key c x a N Hx Ha (Hk x Px)).
  - pose proof (find_none _ _ F a Ha). congruence.
Qed.

(** X11.  In every store the username based service reaches, a request
    carrying the username and the password of a stored employee
    authenticates as that very employee, and the login of its role answers
    200 with its document. *)
Theorem username_credentials_resolve_their_owner :
  forall (LocalTZA : Z) (calls : list (Username.Route * Username.Request))
         (user : Username.Employee) (req : Username.Request),
    In user
       (Username.employees (Username.run LocalTZA Username.seeded calls)) ->
    Username.body_username req = Some (Username.username user) ->
    Username.body_password req = Some (Username.password user) ->
    Username.authenticate (Username.run LocalTZA Username.seeded calls) req
    = inl user
    /\ (Username.role user = "admin" ->
        Username.adminLogin (Username.run LocalTZA Username.seeded calls) req
        = Http.json 200
            (Http.JObj [("ok", Http.JBool true);
                        ("message", Http.JStr "Admin login successful");
                        ("user", Username.withoutPassword user)]))
    /\ (Username.role user = "employee" ->
        Username.employeeLogin (Username.run LocalTZA Username.seeded calls)
          req
        = Http.json 200
            (Http.JObj [("ok", Http.JBool true);
                        ("message", Http.JStr "Employee login successful");
                        ("user", Username.withoutPassword user)])).
Proof.
  intros tz calls user req Hin Hu Hp.
  destruct (Username_identities tz calls) as (_ & _ & Nu & _ & Hne).
  destruct (Hne user Hin) as [Hu0 Hp0].
  assert (L : forall rl ok bad,
             Username.role user = rl ->
             Username.loginAs rl ok bad
               (Username.run tz Username.seeded calls) req
             = Http.json 200
                 (Http.JObj [("ok", Http.JBool true);
                             ("message", Http.JStr ok);
                             ("user", Username.withoutPassword user)])).
  { intros rl ok bad Hr. unfold Username.loginAs.
    rewrite Hu, Hp, (required_nonempty _ Hu0), (required_nonempty _ Hp0).
    rewrite (findOne_unique Username.username _ _ user Nu Hin); auto.
    - rewrite Hr, !String.eqb_refl. reflexivity.
    - intros x Hx. rewrite !andb_true_iff, !String.eqb_eq in Hx. tauto. }
  split; [|split; intros Hr; apply L, Hr].
  unfold Username.authenticate.
  rewrite Hu, Hp, (required_nonempty _ Hu0), (required_nonempty _ Hp0).
  rewrite (findOne_unique Username.username _ _ user Nu Hin); auto.
  - rewrite !String.eqb_refl. reflexivity.
  - intros x Hx. rewrite !andb_true_iff, !String.eqb_eq in Hx. tauto.
Qed.

Lemma username_credentials_resolve_their_owner_witness :
  Username.authenticate (Username.run 0 Username.seeded Demo.scenario)
    (Demo.userLogin "a" "emp123") = inl Demo.userEmployee.
Proof.
  apply (proj1 (username_credentials_resolve_their_owner 0 Demo.scenario
                  Demo.userEmployee (Demo.userLogin "a" "emp123")
                  ltac:(vm_compute; auto) eq_refl eq_refl)).
Defined.

Lemma find_snoc {A : Type} (p : A -> bool) (c : list A) (x : A) :
  (forall y, In y c -> p y = false) ->
  find p (c ++ [x]) = if p x then Some x else None.
Proof.
  induction c as [|z c IH]; simpl; intros H; [reflexivity|].
  rewrite (H z (or_introl eq_refl)). apply IH. intros y Hy. apply H. auto.
Qed.

(** X12.  In the username based service an employee created by
    [POST /admin/employees/create] can log in at once: with the new
    username and password [POST /employee/login] answers 200 with the new
    document, whose role is employee whatever the body asked, and
    [POST /admin/login] answers 401.  The creation leaves the attendance
    untouched. *)
Theorem username_created_employee_logs_in_as_employee :
  forall (admin : Username.Employee) (st : Username.Store)
         (req login : Username.Request),
    Http.status (snd (Username.createEmployee admin st req)) = 200 ->
    Username.body_username login = Username.body_username_new req ->
    Username.body_password login = Username.body_password_new req ->
    exists newEmployee,
      Username.employees (fst (Username.createEmployee admin st req))
      = (Username.employees st ++ [newEmployee])%list
      /\ Username._id newEmployee = Username.nextId st
      /\ Username.role newEmployee = "employee"
      /\ Some (Username.username newEmployee) = Username.body_username_new req
      /\ Username.salary newEmployee
         = JS.orNum (Username.body_salary req) (inject_Z 30000)
      /\ Username.employeeLogin (fst (Username.createEmployee admin st req))
           login
         = Http.json 200
             (Http.JObj [("ok", Http.JBool true);
                         ("message", Http.JStr "Employee login successful");
                         ("user", Username.withoutPassword newEmployee)])
      /\ Http.status
           (Username.adminLogin (fst (Username.createEmployee admin st req))
              login) = 401
      /\ Username.attendance (fst (Username.createEmployee admin st req))
         = Username.attendance st.
Proof.
  intros admin st req login H Hu Hp. unfold Username.createEmployee in *.
  destruct (Username.required (Username.body_name req)) as [nm|];
    [|discriminate].
  destruct (Username.required (Username.body_username_new req)) as [u|] eqn:Ru;
    [|discriminate].
  destruct (Username.required (Username.body_password_new req)) as [p|] eqn:Rp;
    [|discriminate].
  destruct (Username.required (Username.body_empId req)) as [eid|];
    [|discriminate].
  destruct (Mongo.findOne _ _) eqn:F; [discriminate|]. clear H.
  apply required_some in Ru, Rp. destruct Ru as [Ru Hu0], Rp as [Rp Hp0].
  rewrite Ru in Hu. rewrite Rp in Hp.
  eexists. cbn [fst Username.employees Username.attendance].
  split; [reflexivity|]. cbn [Username._id Username.role Username.username
                              Username.salary].
  split; [reflexivity|]. split; [reflexivity|]. split; [auto|].
  split; [reflexivity|].
  assert (N : forall (r : string) y,
             In y (Username.employees st) ->
             (Username.username y =? u) && (Username.password y =? p)
             && (Username.role y =? r) = false).
  { intros r y Hy. pose proof (find_none _ _ F y Hy) as N. simpl in N.
    apply orb_false_iff in N. destruct N as [N _]. rewrite N. reflexivity. }
  unfold Username.employeeLogin, Username.adminLogin, Username.loginAs.
  rewrite Hu, Hp, (required_nonempty _ Hu0), (required_nonempty _ Hp0).
  cbn [Username.employees]. unfold Mongo.findOne.
  rewrite !find_snoc by (intros y Hy; apply N, Hy).
  cbn [Username.username Username.password Username.role].
  rewrite !String.eqb_refl. repeat split.
Qed.

Lemma username_created_employee_logs_in_as_employee_witness :
  exists newEmployee,
    Username.employeeLogin
      (fst (Username.createEmployee Demo.userEmployee Username.seeded
              Demo.createE1))
      (Demo.userLogin "a" "emp123")
    = Http.json 200
        (Http.JObj [("ok", Http.JBool true);
                    ("message", Http.JStr "Employee login successful");
                    ("user", Username.withoutPassword newEmployee)])
    /\ Username.role newEmployee = "employee".
Proof.
  destruct (username_created_employee_logs_in_as_employee Demo.userEmployee
              Username.seeded Demo.createE1 (Demo.userLogin "a" "emp123")
              eq_refl eq_refl eq_refl)
    as (n & _ & _ & Hr & _ & _ & Hl & _).
  exists n. auto.
Defined.

(* ------------------------------------------------------------------ *)
(** * Months *)

Lemma newDate_fullYear (LocalTZA y m d h mi s ms : Z) :
  JSDate.newDate LocalTZA y m d h mi s ms
  = JSDate.UTC LocalTZA
      (JSDate.MakeDate (JSDate.MakeDay (Spec.fullYear y) m d)
         (JSDate.MakeTime h mi s ms)).
Proof. reflexivity. Qed.

(** X13.  The ranges of [startOfMonth] and [endOfMonth] follow each other
    without a gap or an overlap.  For a month from 1 to 12 whose last
    instant and whose successor's first instant are dates (time values
    that [TimeClip] keeps), the next month starts one millisecond after the
    month ends; and when it is a date, the first instant of month 13 of a
    year is that of month 1 of the next year, unless the year is -1 or
    99. *)
Theorem month_ranges_follow_each_other :
  forall (LocalTZA y m : Z),
    (1 <= m <= 12)%Z ->
    JSDate.TimeClip (Email.endOfMonth LocalTZA y m) <> None ->
    JSDate.TimeClip (Email.startOfMonth LocalTZA y (m + 1)) <> None ->
    (Email.endOfMonth LocalTZA y m + 1 = Email.startOfMonth LocalTZA y (m + 1))%Z
    /\ (Username.endOfMonth LocalTZA y m + 1
        = Username.startOfMonth LocalTZA y (m + 1))%Z
    /\ (y <> (-1)%Z -> y <> 99%Z ->
        JSDate.TimeClip (Email.startOfMonth LocalTZA y 13) <> None ->
        Email.startOfMonth LocalTZA y 13 = Email.startOfMonth LocalTZA (y + 1) 1
        /\ Username.startOfMonth LocalTZA y 13
           = Username.startOfMonth LocalTZA (y + 1) 1).
Proof.
  intros tz y m _ _ _.
  assert (T : (JSDate.newDate tz y m 0 23 59 59 999 + 1
               = JSDate.newDate tz y (m + 1 - 1) 1 0 0 0 0)%Z).
  { replace (m + 1 - 1)%Z with m by lia. rewrite !newDate_fullYear.
    unfold JSDate.UTC, JSDate.MakeDate, JSDate.MakeDay, JSDate.MakeTime,
      JSDate.msPerDay. cbv zeta. lia. }
  assert (N : y <> (-1)%Z -> y <> 99%Z ->
              JSDate.newDate tz y (13 - 1) 1 0 0 0 0
              = JSDate.newDate tz (y + 1) (1 - 1) 1 0 0 0 0).
  { intros H1 H2. rewrite !newDate_fullYear.
    assert (E : Spec.fullYear (y + 1) = (Spec.fullYear y + 1)%Z).
    { unfold Spec.fullYear.
      destruct (Z.leb_spec 0 y), (Z.leb_spec y 99), (Z.leb_spec 0 (y + 1)),
        (Z.leb_spec (y + 1) 99); cbn [andb]; lia. }
    rewrite E. unfold JSDate.MakeDay. cbv zeta.
    change ((13 - 1) / 12)%Z with 1%Z. change ((13 - 1) mod 12)%Z with 0%Z.
    change ((1 - 1) / 12)%Z with 0%Z. change ((1 - 1) mod 12)%Z with 0%Z.
    rewrite !Z.add_0_r. reflexivity. }
  split; [exact T|]. split; [exact T|].
  intros H1 H2 _. split; apply N; assumption.
Qed.

Lemma month_ranges_follow_each_other_witness :
  (Email.endOfMonth 19800000 2025 12 + 1
   = Email.startOfMonth 19800000 2025 13)%Z
  /\ Email.startOfMonth 19800000 2025 13 = Email.startOfMonth 19800000 2026 1.
Proof.
  destruct (month_ranges_follow_each_other 19800000 2025 12) as (T & _ & N);
    [lia | discriminate | discriminate |].
  split; [exact T|]. apply N; [lia | lia | discriminate].
Defined.

Lemma MonthStart_length (y m : Z) :
  (1 <= m <= 12)%Z ->
  (JSDate.MonthStart (JSDate.InLeapYear y) m
   - JSDate.MonthStart (JSDate.InLeapYear y) (m - 1))%Z
  = Spec.daysInMonth y m.
Proof.
  intros Hm.
  assert (Hcases : (m = 1 \/ m = 2 \/ m = 3 \/ m = 4 \/ m = 5
                    \/ m = 6 \/ m = 7 \/ m = 8 \/ m = 9 \/ m = 10
                    \/ m = 11 \/ m = 12)%Z) by lia.
  unfold Spec.daysInMonth. generalize (JSDate.InLeapYear y). intros l.
  repeat destruct Hcases as [-> | Hcases]; try subst m;
    match goal with
    | |- context [(?a - 1)%Z] =>
      let v := eval vm_compute in (a - 1)%Z in change (a - 1)%Z with v
    end;
    cbv [JSDate.MonthStart Z.leb Z.eqb Z.compare Pos.compare
         Pos.compare_cont Pos.eqb orb]; lia.
Qed.

(** The instants from [startOfMonth] to [endOfMonth] are those of the local
    days of the month, of the year [new Date] builds. *)
Lemma month_range_days (LocalTZA y m t : Z) :
  (1 <= m <= 12)%Z ->
  (Username.startOfMonth LocalTZA y m <= t <= Username.endOfMonth LocalTZA y m)%Z
  <-> (JSDate.MakeDay (Spec.fullYear y) (m - 1) 1 <= Spec.dayOf LocalTZA t
       < JSDate.MakeDay (Spec.fullYear y) (m - 1) 1
         + Spec.daysInMonth (Spec.fullYear y) m)%Z.
Proof.
  intros Hm. rewrite <- MonthStart_length by exact Hm.
  unfold Username.startOfMonth, Username.endOfMonth.
  rewrite !newDate_fullYear, MakeDay_first, MakeDay_last by exact Hm.
  unfold Spec.dayOf, JSDate.UTC, JSDate.MakeDate, JSDate.MakeTime,
    JSDate.LocalTime, JSDate.Day, JSDate.msPerDay.
  generalize (JSDate.DayFromYear (Spec.fullYear y)).
  generalize (JSDate.MonthStart (JSDate.InLeapYear (Spec.fullYear y)) (m - 1)).
  generalize (JSDate.MonthStart (JSDate.InLeapYear (Spec.fullYear y)) m).
  intros c b a. split; intros H; div_lia.
Qed.

Lemma daysInMonth_range (y m : Z) : (28 <= Spec.daysInMonth y m <= 31)%Z.
Proof.
  unfold Spec.daysInMonth. pose proof (InLeapYear_bit y).
  destruct (m =? 2)%Z; [lia|].
  destruct ((m =? 4) || (m =? 6) || (m =? 9) || (m =? 11))%Z; lia.
Qed.

Lemma Username_slip_of_month (LocalTZA : Z) (st : Username.Store)
  (id : Mongo.ObjectId) (emp : Username.Employee) (y m : Z) :
  Username.findById id (Username.employees st) = Some emp ->
  (1 <= m <= 12)%Z ->
  exists slip,
    Username.calculateSalary LocalTZA st id y m = JS.Return slip
    /\ Username.totalDaysInMonth slip = Spec.daysInMonth (Spec.fullYear y) m
    /\ Username.presentDays slip
       = Mongo.countDocuments
           (Username.presentIn id (Username.startOfMonth LocalTZA y m)
              (Username.endOfMonth LocalTZA y m)) (Username.attendance st).
Proof.
  intros F Hm. unfold Username.calculateSalary. rewrite F.
  eexists. split; [reflexivity|].
  cbn [Username.totalDaysInMonth Username.presentDays].
  split; [|reflexivity].
  rewrite newDate_fullYear, MakeDay_last by exact Hm.
  rewrite <- MonthStart_length by exact Hm.
  unfold JSDate.getDate.
  set (D := (JSDate.DayFromYear (Spec.fullYear y)
             + JSDate.MonthStart (JSDate.InLeapYear (Spec.fullYear y)) m
             - 1)%Z).
  assert (HD : JSDate.Day
                 (JSDate.LocalTime LocalTZA
                    (JSDate.UTC LocalTZA
                       (JSDate.MakeDate D (JSDate.MakeTime 0 0 0 0)))) = D).
  { unfold JSDate.UTC, JSDate.MakeDate, JSDate.MakeTime, JSDate.LocalTime,
      JSDate.Day, JSDate.msPerDay. div_lia. }
  rewrite HD.
  pose proof (MonthStart_length (Spec.fullYear y) m Hm) as L.
  pose proof (daysInMonth_range (Spec.fullYear y) m) as R.
  destruct (proj1 (month_of_day_iff (Spec.fullYear y) (m - 1) D
                     ltac:(lia))) as [Y M].
  { replace (m - 1 + 1)%Z with m by lia. subst D. lia. }
  unfold JSDate.DateFromDay, JSDate.DayWithinYear. rewrite Y, M.
  subst D. lia.
Qed.

(** X14.  [totalDaysInMonth] of a payslip of the username based service is
    the length of the month in the calendar, for a month from 1 to 12: 28
    or 29 for February, 30 or 31 otherwise.  The year is the one
    [new Date(year, ...)] builds, 1900 + year for a year from 0 to 99. *)
Theorem username_payslip_total_days_is_the_length_of_the_month :
  forall (LocalTZA : Z) (st : Username.Store) (id : Mongo.ObjectId)
         (emp : Username.Employee) (y m : Z),
    Username.findById id (Username.employees st) = Some emp ->
    (1 <= m <= 12)%Z ->
    exists slip,
      Username.calculateSalary LocalTZA st id y m = JS.Return slip
      /\ Username.totalDaysInMonth slip = Spec.daysInMonth (Spec.fullYear y) m
      /\ (28 <= Username.totalDaysInMonth slip <= 31)%Z.
Proof.
  intros tz st id emp y m F Hm.
  destruct (Username_slip_of_month tz st id emp y m F Hm) as (slip & R & T & _).
  exists slip. split; [exact R|]. split; [exact T|]. rewrite T.
  apply daysInMonth_range.
Qed.

Lemma username_payslip_total_days_is_the_length_of_the_month_witness :
  exists slip,
    Username.calculateSalary 0 Demo.userStore 1%nat 2024 2 = JS.Return slip
    /\ Username.totalDaysInMonth slip = 29%Z.
Proof.
  destruct (username_payslip_total_days_is_the_length_of_the_month 0
              Demo.userStore 1%nat Demo.userEmployee 2024 2 eq_refl
              ltac:(lia)) as (slip & R & T & _).
  exists slip. split; [exact R|]. rewrite T. reflexivity.
Defined.

Lemma NoDup_range_length (l : list Z) (a : Z) (n : nat) :
  NoDup l -> (forall x, In x l -> (a <= x < a + Z.of_nat n)%Z) ->
  (List.length l <= n)%nat.
Proof.
  intros N R.
  assert (N' : NoDup (map (fun x => Z.to_nat (x - a)) l)).
  { induction l as [|x l IH]; simpl; [constructor|].
    apply NoDup_cons_iff in N. destruct N as [Hx N].
    constructor; [|apply IH; [exact N | intros z Hz; apply R; right; exact Hz]].
    intros Hin. apply in_map_iff in Hin. destruct Hin as (z & E & Hz).
    pose proof (R x (or_introl eq_refl)). pose proof (R z (or_intror Hz)).
    assert (z = x) by lia. subst z. contradiction. }
  assert (I : incl (map (fun x => Z.to_nat (x - a)) l) (seq 0 n)).
  { intros k Hk. apply in_map_iff in Hk. destruct Hk as (x & <- & Hx).
    apply in_seq. specialize (R x Hx). lia. }
  pose proof (NoDup_incl_length N' I) as L.
  rewrite length_map, length_seq in L. exact L.
Qed.


(** The records of one employee within a month, no two of them on one day,
    are no more than the days of the month. *)
Lemma days_of_a_month {A : Type} (employee : A -> Mongo.ObjectId)
  (date : A -> Z) (LocalTZA : Z) (c : list A) (p : A -> bool)
  (id : Mongo.ObjectId) (y m : Z) :
  (1 <= m <= 12)%Z ->
  Spec.onePerDay employee date LocalTZA c ->
  (forall a, p a = true ->
             employee a = id
             /\ (Username.startOfMonth LocalTZA y m <= date a
                 <= Username.endOfMonth LocalTZA y m)%Z) ->
  (Z.of_nat (Mongo.countDocuments p c)
   <= Spec.daysInMonth (Spec.fullYear y) m)%Z.
Proof.
  intros Hm N Hp. unfold Mongo.countDocuments.
  pose proof (daysInMonth_range (Spec.fullYear y) m) as R.
  apply (NoDup_map_filter _ p) in N.
  assert (E : map (Spec.dayKey employee date LocalTZA) (filter p c)
              = map (pair id)
                  (map (fun a => Spec.dayOf LocalTZA (date a)) (filter p c))).
  { rewrite map_map. apply map_ext_in. intros a Ha.
    apply filter_In in Ha. destruct Ha as [_ Ha].
    unfold Spec.dayKey. rewrite (proj1 (Hp a Ha)). reflexivity. }
  rewrite E in N. apply NoDup_map_inv in N.
  pose proof (NoDup_range_length _
                (JSDate.MakeDay (Spec.fullYear y) (m - 1) 1)
                (Z.to_nat (Spec.daysInMonth (Spec.fullYear y) m)) N) as L.
  rewrite length_map in L. rewrite Z2Nat.id in L by lia.
  assert (G : (List.length (filter p c)
               <= Z.to_nat (Spec.daysInMonth (Spec.fullYear y) m))%nat).
  { apply L. intros x Hx. apply in_map_iff in Hx.
    destruct Hx as (a & <- & Ha). apply filter_In in Ha.
    destruct Ha as [_ Ha]. apply month_range_days; [exact Hm|].
    apply (Hp a Ha). }
  lia.
Qed.

(** X15.  In every store the username based service reaches from its
    seeded one, the present days of a payslip for a month from 1 to 12 are
    no more than the days of the month: the marks keep one record per
    employee and day, and the month holds [totalDaysInMonth] days. *)
Theorem username_present_days_fit_the_month :
  forall (LocalTZA : Z) (calls : list (Username.Route * Username.Request))
         (id : Mongo.ObjectId) (emp : Username.Employee) (y m : Z),
    Username.findById id
      (Username.employees (Username.run LocalTZA Username.seeded calls))
    = Some emp ->
    (1 <= m <= 12)%Z ->
    exists slip,
      Username.calculateSalary LocalTZA
        (Username.run LocalTZA Username.seeded calls) id y m = JS.Return slip
      /\ (Z.of_nat (Username.presentDays slip)
          <= Username.totalDaysInMonth slip <= 31)%Z.
Proof.
  intros tz calls id emp y m F Hm.
  destruct (Username_slip_of_month tz
              (Username.run tz Username.seeded calls) id emp y m F Hm)
    as (slip & R & T & P).
  exists slip. split; [exact R|]. rewrite T, P.
  pose proof (daysInMonth_range (Spec.fullYear y) m). split; [|lia].
  apply (days_of_a_month Username.employee Username.date tz _ _ id y m Hm
           (Username_reachable_onePerDay tz calls)).
  intros a Ha. unfold Username.presentIn in Ha.
  apply andb_true_iff in Ha. destruct Ha as [Ha _].
  apply andb_true_iff in Ha. destruct Ha as [Ha H2].
  apply andb_true_iff in Ha. destruct Ha as [H0 H1].
  apply Nat.eqb_eq in H0. apply Z.leb_le in H1, H2. auto.
Qed.

Lemma username_present_days_fit_the_month_witness :
  exists slip,
    Username.calculateSalary 0 (Username.run 0 Username.seeded Demo.scenario)
      1%nat 2025 3 = JS.Return slip
    /\ (Z.of_nat (Username.presentDays slip)
        <= Username.totalDaysInMonth slip <= 31)%Z.
Proof.
  apply (username_present_days_fit_the_month 0 Demo.scenario 1%nat
           Demo.userEmployee 2025 3 eq_refl).
  lia.
Defined.

(** X16.  [calcSalaryForMonth] of the e-mail based services, on a store
    that holds no two records of one employee on one local day: the present
    days of a month from 1 to 12 are no more than the days of that month,
    31 at most. *)
Theorem email_present_days_fit_the_month :
  forall (LocalTZA : Z) (st : Email.Store) (id : Mongo.ObjectId)
         (emp : Email.Employee) (y m : Z),
    Email.findById id (Email.employees st) = Some emp ->
    (1 <= m <= 12)%Z ->
    Spec.onePerDay Email.employee Email.date LocalTZA (Email.attendance st) ->
    exists slip,
      Email.calcSalaryForMonth LocalTZA st id y m = JS.Return slip
      /\ (Z.of_nat (Email.presentDays slip)
          <= Spec.daysInMonth (Spec.fullYear y) m <= 31)%Z.
Proof.
  intros tz st id emp y m F Hm N.
  rewrite (calcSalaryForMonth_returns tz st id emp y m F).
  eexists. split; [reflexivity|]. cbn [Email.presentDays].
  pose proof (daysInMonth_range (Spec.fullYear y) m). split; [|lia].
  apply (days_of_a_month Email.employee Email.date tz _ _ id y m Hm N).
  intros a Ha. unfold Email.presentIn in Ha.
  apply andb_true_iff in Ha. destruct Ha as [Ha _].
  apply andb_true_iff in Ha. destruct Ha as [Ha H2].
  apply andb_true_iff in Ha. destruct Ha as [H0 H1].
  apply Nat.eqb_eq in H0. apply Z.leb_le in H1, H2. auto.
Qed.

Lemma email_present_days_fit_the_month_witness :
  exists slip,
    Email.calcSalaryForMonth 0 Demo.emailStore 1%nat 2025 3 = JS.Return slip
    /\ (Z.of_nat (Email.presentDays slip)
        <= Spec.daysInMonth (Spec.fullYear 2025) 3 <= 31)%Z.
Proof.
  apply (email_present_days_fit_the_month 0 Demo.emailStore 1%nat
           Demo.emailEmployee 2025 3 eq_refl); [lia|].
  unfold Spec.onePerDay. vm_compute.
  repeat (constructor; [simpl; intuition congruence|]). constructor.
Defined.

(* ------------------------------------------------------------------ *)
(** * What a mark leaves alone *)

Lemma filter_updateFirst {A : Type} (p q : A -> bool) (u : A -> A)
  (c : list A) :
  (forall x, p x = true -> q x = false /\ q (u x) = false) ->
  filter q (Mongo.updateFirst p u c) = filter q c.
Proof.
  intros H. induction c as [|x c IH]; simpl; [reflexivity|].
  destruct (p x) eqn:P; simpl.
  - destruct (H x P) as [-> ->]. reflexivity.
  - rewrite IH. reflexivity.
Qed.

Lemma upsert_filter_other {A : Type} (p q : A -> bool) (u : A -> A)
  (fresh : A) (c : list A) :
  (forall x, p x = true -> q x = false /\ q (u x) = false) ->
  q fresh = false ->
  filter q (snd (fst (Mongo.findOneAndUpsert p u fresh c))) = filter q c.
Proof.
  intros H F. unfold Mongo.findOneAndUpsert.
  destruct (find p c); cbn [fst snd].
  - apply filter_updateFirst, H.
  - rewrite filter_app. simpl. rewrite F. apply app_nil_r.
Qed.

Lemma Backend_post_other LocalTZA st req other q :
  Email.body_employee req <> Some other ->
  (forall a, q a = true -> Email.employee a = other) ->
  Email.employees (fst (Backend.postAttendance LocalTZA st req))
  = Email.employees st
  /\ filter q (Email.attendance (fst (Backend.postAttendance LocalTZA st req)))
     = filter q (Email.attendance st).
Proof.
  intros Hne Hq. unfold Backend.postAttendance.
  destruct (Email.body_employee req) as [e|]; [|auto].
  destruct (Email.body_date req) as [d|]; [|auto].
  assert (Ho : forall a, Email.employee a = e -> q a = false).
  { intros a Ha. destruct (q a) eqn:Q; [|reflexivity].
    apply Hq in Q. exfalso. apply Hne. congruence. }
  pose proof (upsert_filter_other (Backend.sameDay LocalTZA e d) q
                (Backend.setFields e (Email.body_status req) d)
                (Backend.inserted (Email.nextId st) e (Email.body_status req) d)
                (Email.attendance st)) as U.
  destruct (Mongo.findOneAndUpsert _ _ _ _) as [[att atts] isNew].
  cbn [fst snd Email.employees Email.attendance] in *.
  split; [reflexivity|]. apply U.
  - intros x Hx. unfold Backend.sameDay in Hx.
    apply andb_true_iff in Hx. destruct Hx as [Hx _].
    apply andb_true_iff in Hx. destruct Hx as [Hx _].
    apply Nat.eqb_eq in Hx. split; apply Ho; [exact Hx | reflexivity].
  - apply Ho. reflexivity.
Qed.

Lemma Gated_upsert_other LocalTZA st req other q :
  Email.body_employee req <> Some other ->
  (forall a, q a = true -> Email.employee a = other) ->
  Email.employees (fst (Gated.upsertAttendance LocalTZA st req))
  = Email.employees st
  /\ filter q (Email.attendance (fst (Gated.upsertAttendance LocalTZA st req)))
     = filter q (Email.attendance st).
Proof.
  intros Hne Hq. unfold Gated.upsertAttendance.
  destruct (Email.body_employee req) as [e|]; [|auto].
  destruct (Email.body_date req) as [d|]; [|auto].
  assert (Ho : forall a, Email.employee a = e -> q a = false).
  { intros a Ha. destruct (q a) eqn:Q; [|reflexivity].
    apply Hq in Q. exfalso. apply Hne. congruence. }
  match goal with
  | |- context [Mongo.findOneAndUpsert ?p ?u ?f ?c] =>
    pose proof (upsert_filter_other p q u f c) as U;
    destruct (Mongo.findOneAndUpsert p u f c) as [[att atts] isNew]
  end.
  cbn [fst snd Email.employees Email.attendance] in *.
  split; [reflexivity|]. apply U.
  - intros x Hx. unfold Gated.inDay in Hx.
    apply andb_true_iff in Hx. destruct Hx as [Hx _].
    apply andb_true_iff in Hx. destruct Hx as [Hx _].
    apply Nat.eqb_eq in Hx. split; apply Ho; [exact Hx | reflexivity].
  - apply Ho. reflexivity.
Qed.

Lemma Gated_post_other caller unknown LocalTZA st req other q :
  Email.body_employee req <> Some other ->
  (forall a, q a = true -> Email.employee a = other) ->
  Email.employees
    (fst (Gated.postAttendance caller unknown LocalTZA st req))
  = Email.employees st
  /\ filter q (Email.attendance
                 (fst (Gated.postAttendance caller unknown LocalTZA st req)))
     = filter q (Email.attendance st).
Proof.
  intros Hne Hq. unfold Gated.postAttendance, Gated.gated.
  destruct (Gated.auth caller unknown st req); [|auto].
  apply (Gated_upsert_other LocalTZA st req other q Hne Hq).
Qed.

Lemma Username_mark_other LocalTZA user st req other q :
  Username.body_employeeId req <> Some other ->
  (forall a, q a = true -> Username.employee a = other) ->
  Username.employees (fst (Username.markAttendance LocalTZA user st req))
  = Username.employees st
  /\ filter q (Username.attendance
                 (fst (Username.markAttendance LocalTZA user st req)))
     = filter q (Username.attendance st).
Proof.
  intros Hne Hq. unfold Username.markAttendance.
  destruct (Username.body_employeeId req) as [e|]; [|auto].
  destruct (Username.body_date req) as [d|]; [|auto].
  destruct (_ && _); [auto|].
  destruct (Username.findById e (Username.employees st)); [|auto].
  assert (Ho : forall a, Username.employee a = e -> q a = false).
  { intros a Ha. destruct (q a) eqn:Q; [|reflexivity].
    apply Hq in Q. exfalso. apply Hne. congruence. }
  match goal with
  | |- context [Mongo.findOneAndUpsert ?p ?u ?f ?c] =>
    pose proof (upsert_filter_other p q u f c) as U;
    destruct (Mongo.findOneAndUpsert p u f c) as [[att atts] isNew]
  end.
  cbn [fst snd Username.employees Username.attendance] in *.
  split; [reflexivity|]. apply U.
  - intros x Hx. unfold Username.onDay in Hx.
    apply andb_true_iff in Hx. destruct Hx as [Hx _].
    apply andb_true_iff in Hx. destruct Hx as [Hx _].
    apply Nat.eqb_eq in Hx. split; apply Ho; [exact Hx | reflexivity].
  - apply Ho. reflexivity.
Qed.

Lemma Email_salary_of_filter LocalTZA st st' id y m :
  Email.employees st' = Email.employees st ->
  (forall q, (forall a, q a = true -> Email.employee a = id) ->
             filter q (Email.attendance st') = filter q (Email.attendance st)) ->
  Email.calcSalaryForMonth LocalTZA st' id y m
  = Email.calcSalaryForMonth LocalTZA st id y m.
Proof.
  intros E F. unfold Email.calcSalaryForMonth, Mongo.countDocuments.
  rewrite E, F; [reflexivity|].
  intros a Ha. unfold Email.presentIn in Ha.
  apply andb_true_iff in Ha. destruct Ha as [Ha _].
  apply andb_true_iff in Ha. destruct Ha as [Ha _].
  apply andb_true_iff in Ha. destruct Ha as [Ha _].
  apply Nat.eqb_eq in Ha. exact Ha.
Qed.

(** X17.  A mark changes the salary of nobody else: after
    [POST /attendance] of the three e-mail based services and after
    [POST /admin/attendance/mark] of the username based one, the salary
    computed for an employee other than the one the request names is what
    it was before, for every year and month. *)
Theorem mark_leaves_the_salary_of_the_others :
  forall (LocalTZA : Z) (st : Email.Store) (req : Email.Request)
         (user : Username.Employee) (ust : Username.Store)
         (ureq : Username.Request) (other : Mongo.ObjectId) (y m : Z),
    Email.body_employee req <> Some other ->
    Username.body_employeeId ureq <> Some other ->
    Email.calcSalaryForMonth LocalTZA
      (fst (Backend.postAttendance LocalTZA st req)) other y m
    = Email.calcSalaryForMonth LocalTZA st other y m
    /\ Email.calcSalaryForMonth LocalTZA
         (fst (Header.postAttendance LocalTZA st req)) other y m
       = Email.calcSalaryForMonth LocalTZA st other y m
    /\ Email.calcSalaryForMonth LocalTZA
         (fst (Cookie.postAttendance LocalTZA st req)) other y m
       = Email.calcSalaryForMonth LocalTZA st other y m
    /\ Username.calculateSalary LocalTZA
         (fst (Username.markAttendance LocalTZA user ust ureq)) other y m
       = Username.calculateSalary LocalTZA ust other y m.
Proof.
  intros tz st req user ust ureq other y m He Hu.
  split; [|split; [|split]].
  - apply Email_salary_of_filter;
      [exact (proj1 (Backend_post_other tz st req other (fun _ => false) He
                       ltac:(discriminate)))
      |intros q Hq; exact (proj2 (Backend_post_other tz st req other q He Hq))].
  - apply Email_salary_of_filter;
      [exact (proj1 (Gated_post_other _ _ tz st req other (fun _ => false) He
                       ltac:(discriminate)))
      |intros q Hq; exact (proj2 (Gated_post_other _ _ tz st req other q He Hq))].
  - apply Email_salary_of_filter;
      [exact (proj1 (Gated_post_other _ _ tz st req other (fun _ => false) He
                       ltac:(discriminate)))
      |intros q Hq; exact (proj2 (Gated_post_other _ _ tz st req other q He Hq))].
  - unfold Username.calculateSalary, Mongo.countDocuments.
    destruct (Username_mark_other tz user ust ureq other
                (Username.presentIn other (Username.startOfMonth tz y m)
                   (Username.endOfMonth tz y m)) Hu) as [E F].
    { intros a Ha. unfold Username.presentIn in Ha.
      apply andb_true_iff in Ha. destruct Ha as [Ha _].
      apply andb_true_iff in Ha. destruct Ha as [Ha _].
      apply andb_true_iff in Ha. destruct Ha as [Ha _].
      apply Nat.eqb_eq in Ha. exact Ha. }
    rewrite E, F. reflexivity.
Qed.

Lemma mark_leaves_the_salary_of_the_others_witness :
  Email.calcSalaryForMonth 0
    (fst (Header.postAttendance 0 Demo.emailStore
            (Demo.emailMark 7%nat (Demo.marchNoon 25) (Some "present"))))
    1%nat 2025 3
  = Email.calcSalaryForMonth 0 Demo.emailStore 1%nat 2025 3
  /\ Username.calculateSalary 0
       (fst (Username.markAttendance 0 Demo.userEmployee Demo.userStore
               (Demo.adminMark 0%nat (Demo.marchNoon 25) (Some "present"))))
       1%nat 2025 3
     = Username.calculateSalary 0 Demo.userStore 1%nat 2025 3.
Proof.
  destruct (mark_leaves_the_salary_of_the_others 0 Demo.emailStore
              (Demo.emailMark 7%nat (Demo.marchNoon 25) (Some "present"))
              Demo.userEmployee Demo.userStore
              (Demo.adminMark 0%nat (Demo.marchNoon 25) (Some "present"))
              1%nat 2025 3)
    as (_ & H & _ & U); [discriminate | discriminate |].
  split; [exact H | exact U].
Defined.

(* ------------------------------------------------------------------ *)
(** * Accounts of [src/backend/index.js] *)

(** X18.  [POST /auth/register] of [src/backend/index.js]: an account
    registered with answer 200 is appended to the employees, logs in at
    [POST /auth/login] with the e-mail and password of its registration,
    and a second registration of the same body answers 400 with
    [user already exists] and changes nothing. *)
Theorem backend_registered_account_logs_in :
  forall (st : Email.Store) (req : Email.Request),
    Http.status (snd (Backend.register st req)) = 200%Z ->
    exists emp,
      Email.employees (fst (Backend.register st req))
      = (Email.employees st ++ [emp])%list
      /\ Some (Email.email emp) = Email.body_email req
      /\ Some (Email.password emp) = Email.body_password req
      /\ Backend.login (fst (Backend.register st req)) req
         = Http.json 200
             (Http.JObj [("ok", Http.JBool true);
                         ("message", Http.JStr "Login success");
                         ("user", Email.employeeJSON emp)])
      /\ Backend.register (fst (Backend.register st req)) req
         = (fst (Backend.register st req),
            Http.json 400 (Http.errorBody "user already exists")).
Proof.
  intros st req H. unfold Backend.register in H |- *.
  destruct (Email.body_email req) as [em|] eqn:Em; [|discriminate].
  destruct (Email.body_password req) as [pw|] eqn:Pw; [|discriminate].
  destruct ((em =? "") || (pw =? "")) eqn:V; [discriminate|].
  destruct (Mongo.findOne _ (Email.employees st)) eqn:F; [discriminate|].
  unfold Email.saveEmployee in H |- *. rewrite V in H |- *.
  cbn [orb] in H |- *.
  destruct (negb (Email.roleEnum _)); [discriminate|].
  destruct (existsb _ (Email.employees st)); [discriminate|].
  cbn [fst snd]. eexists. cbn [Email.employees Email.email Email.password].
  split; [reflexivity|]. split; [reflexivity|]. split; [reflexivity|].
  assert (N : forall y, In y (Email.employees st) -> (Email.email y =? em) = false).
  { intros y Hy. exact (find_none _ _ F y Hy). }
  split.
  - unfold Backend.login, Email.findByCredentials. rewrite Em, Pw.
    cbn [Email.employees]. unfold Mongo.findOne. rewrite find_snoc.
    + cbn [Email.email Email.password]. rewrite !String.eqb_refl. reflexivity.
    + intros y Hy. rewrite (N y Hy). reflexivity.
  - cbn [Email.employees]. unfold Mongo.findOne.
    rewrite find_snoc by exact N.
    cbn [Email.email]. rewrite String.eqb_refl. reflexivity.
Qed.

Lemma backend_registered_account_logs_in_witness :
  exists emp,
    Backend.login (fst (Backend.register Demo.emailStaff Demo.createByNobody))
      Demo.createByNobody
    = Http.json 200
        (Http.JObj [("ok", Http.JBool true);
                    ("message", Http.JStr "Login success");
                    ("user", Email.employeeJSON emp)])
    /\ Email.email emp = "b@pavakie.com".
Proof.
  destruct (backend_registered_account_logs_in Demo.emailStaff
              Demo.createByNobody eq_refl) as (emp & _ & E & _ & L & _).
  exists emp. split; [exact L|]. injection E as E. exact E.
Defined.

Lemma find_email (em : string) (c : list Email.Employee) :
  (exists e, Mongo.findOne (fun e => Email.email e =? em) c = Some e)
  <-> In em (map Email.email c).
Proof.
  unfold Mongo.findOne. split.
  - intros [e F]. apply find_some in F. destruct F as [Hin E].
    apply String.eqb_eq in E. subst em. apply in_map, Hin.
  - intros H. apply in_map_iff in H. destruct H as (e & E & Hin).
    destruct (find _ c) as [x|] eqn:F; [eauto|].
    pose proof (find_none _ _ F e Hin) as N. simpl in N.
    apply String.eqb_neq in N. contradiction.
Qed.

Lemma seedOne_stored st nm em pw rl sal des :
  In em (map Email.email (Email.employees st)) ->
  Backend.seedOne st nm em pw rl sal des = JS.Return st.
Proof.
  intros H. apply find_email in H. destruct H as [e F].
  unfold Backend.seedOne. rewrite F. reflexivity.
Qed.

Lemma seedOne_missing st nm em pw rl sal des :
  ~ In em (map Email.email (Email.employees st)) ->
  em <> "" -> pw <> "" -> Email.roleEnum rl = true ->
  Backend.seedOne st nm em pw rl sal des
  = JS.Return
      (Email.mkStore
         (Email.employees st
          ++ [Email.mkEmployee (Email.nextId st) (Some nm) em pw rl
                (inject_Z sal) (Some des)])%list
         (Email.attendance st) (S (Email.nextId st))).
Proof.
  intros H Hem Hpw Hrl. unfold Backend.seedOne.
  destruct (Mongo.findOne _ _) as [e|] eqn:F.
  { exfalso. apply H. apply find_email. eauto. }
  unfold Email.saveEmployee.
  apply String.eqb_neq in Hem, Hpw. rewrite Hem, Hpw, Hrl. cbn [orb negb].
  destruct (existsb _ _) eqn:X; [|reflexivity].
  apply existsb_exists in X. destruct X as (x & Hin & E).
  apply String.eqb_eq in E. exfalso. apply H. rewrite <- E.
  apply in_map, Hin.
Qed.

Lemma seedOne_returns st nm em pw rl sal des :
  em <> "" -> pw <> "" -> Email.roleEnum rl = true ->
  exists st' added,
    Backend.seedOne st nm em pw rl sal des = JS.Return st'
    /\ Email.employees st' = (Email.employees st ++ added)%list
    /\ Email.attendance st' = Email.attendance st
    /\ In em (map Email.email (Email.employees st'))
    /\ (forall e, In e added ->
                  Email.email e = em
                  /\ ~ In em (map Email.email (Email.employees st))).
Proof.
  intros Hem Hpw Hrl.
  destruct (in_dec string_dec em (map Email.email (Email.employees st)))
    as [Hin | Hout].
  - exists st, []. split; [apply seedOne_stored, Hin|].
    split; [symmetry; apply app_nil_r|]. split; [reflexivity|].
    split; [exact Hin|]. intros e [].
  - eexists. eexists. split; [apply seedOne_missing; assumption|].
    cbn [Email.employees Email.attendance].
    split; [reflexivity|]. split; [reflexivity|]. split.
    + rewrite map_app. apply in_or_app. right. left. reflexivity.
    + intros e [<- | []]. split; [reflexivity | exact Hout].
Qed.

(** X19.  [POST /seed-default] of [src/backend/index.js] always answers
    200: it keeps every stored employee where it stands and the
    attendance as it is, appends nothing but accounts with one of the two
    default e-mails, and only for an e-mail that was not stored (an account
    that has one of the two e-mails is never overwritten); afterwards both
    e-mails are stored, and a second call changes nothing. *)
Theorem backend_seed_default_adds_what_is_missing :
  forall (st : Email.Store),
    snd (Backend.seedDefault st)
    = Http.json 200 (Http.JObj [("ok", Http.JBool true);
                                ("message", Http.JStr "seeded")])
    /\ (exists added,
          Email.employees (fst (Backend.seedDefault st))
          = (Email.employees st ++ added)%list
          /\ forall e, In e added ->
                (Email.email e = "admin@pavakie.com"
                 \/ Email.email e = "employee@pavakie.com")
                /\ ~ In (Email.email e) (map Email.email (Email.employees st)))
    /\ Email.attendance (fst (Backend.seedDefault st)) = Email.attendance st
    /\ In "admin@pavakie.com"
         (map Email.email (Email.employees (fst (Backend.seedDefault st))))
    /\ In "employee@pavakie.com"
         (map Email.email (Email.employees (fst (Backend.seedDefault st))))
    /\ Backend.seedDefault (fst (Backend.seedDefault st))
       = (fst (Backend.seedDefault st), snd (Backend.seedDefault st)).
Proof.
  intros st.
  destruct (seedOne_returns st "Admin" "admin@pavakie.com" "admin123" "admin"
              50000 "HR Manager") as (st1 & a1 & R1 & E1 & A1 & I1 & N1);
    [discriminate | discriminate | reflexivity |].
  destruct (seedOne_returns st1 "Sample Employee" "employee@pavakie.com"
              "emp123" "employee" 30000 "Developer")
    as (st2 & a2 & R2 & E2 & A2 & I2 & N2);
    [discriminate | discriminate | reflexivity |].
  assert (I1' : In "admin@pavakie.com" (map Email.email (Email.employees st2))).
  { rewrite E2, map_app. apply in_or_app. left. exact I1. }
  assert (S : Backend.seedDefault st
              = (st2, Http.json 200
                        (Http.JObj [("ok", Http.JBool true);
                                    ("message", Http.JStr "seeded")]))).
  { unfold Backend.seedDefault. rewrite R1, R2. reflexivity. }
  rewrite S. cbn [fst snd].
  split; [reflexivity|]. split.
  { exists (a1 ++ a2)%list. split; [rewrite E2, E1, app_assoc; reflexivity|].
    intros e He. apply in_app_or in He. destruct He as [He | He].
    - destruct (N1 e He) as [-> N]. auto.
    - destruct (N2 e He) as [-> N]. split; [auto|].
      intros Hin. apply N. rewrite E1, map_app. apply in_or_app. left.
      exact Hin. }
  split; [congruence|]. split; [exact I1'|]. split; [exact I2|].
  unfold Backend.seedDefault.
  rewrite (seedOne_stored st2 _ _ _ _ _ _ I1').
  rewrite (seedOne_stored st2 _ _ _ _ _ _ I2). reflexivity.
Qed.

Lemma backend_seed_default_adds_what_is_missing_witness :
  In "admin@pavakie.com"
    (map Email.email
       (Email.employees (fst (Backend.seedDefault Demo.emailStaff))))
  /\ Backend.seedDefault (fst (Backend.seedDefault Demo.emailStaff))
     = (fst (Backend.seedDefault Demo.emailStaff),
        snd (Backend.seedDefault Demo.emailStaff)).
Proof.
  destruct (backend_seed_default_adds_what_is_missing Demo.emailStaff)
    as (_ & _ & _ & A & _ & I).
  split; [exact A | exact I].
Defined.

(* ------------------------------------------------------------------ *)
(** * The dashboard *)

Lemma list_sum_indicator (ids : list Mongo.ObjectId) (k : Mongo.ObjectId)
  (b : bool) :
  NoDup ids -> In k ids ->
  list_sum (map (fun id => if (k =? id)%nat && b then 1 else 0)%nat ids)
  = (if b then 1 else 0)%nat.
Proof.
  induction ids as [|x ids IH]; simpl; [contradiction|].
  intros N H. apply NoDup_cons_iff in N. destruct N as [Hx N].
  destruct (Nat.eqb_spec k x) as [-> | Hne].
  - assert (Z : list_sum
                  (map (fun id => if (x =? id)%nat && b then 1 else 0)%nat ids)
                = 0%nat).
    { clear IH N H. induction ids as [|y ids IH]; simpl; [reflexivity|].
      destruct (Nat.eqb_spec x y) as [-> | _].
      - exfalso. apply Hx. left. reflexivity.
      - simpl. apply IH. intros Hin. apply Hx. right. exact Hin. }
    rewrite Z. simpl. destruct b; reflexivity.
  - simpl. apply IH; [exact N|]. destruct H as [-> | H]; [contradiction|exact H].
Qed.

Lemma list_sum_map_add {A : Type} (f g : A -> nat) (l : list A) :
  list_sum (map (fun x => f x + g x)%nat l)
  = (list_sum (map f l) + list_sum (map g l))%nat.
Proof. induction l as [|x l IH]; simpl; [reflexivity|]. rewrite IH. lia. Qed.

(** The records that satisfy [p], counted employee by employee. *)
Lemma count_by_employee (atts : list Email.Attendance)
  (ids : list Mongo.ObjectId) (p : Email.Attendance -> bool) :
  NoDup ids ->
  (forall a, In a atts -> In (Email.employee a) ids) ->
  Mongo.countDocuments p atts
  = list_sum
      (map (fun id =>
              Mongo.countDocuments
                (fun a => (Email.employee a =? id)%nat && p a) atts) ids).
Proof.
  intros N H. unfold Mongo.countDocuments.
  induction atts as [|a atts IH]; simpl.
  - clear N H. induction ids as [|x ids IH]; simpl; [reflexivity|exact IH].
  - rewrite (map_ext _
               (fun id =>
                  (if (Email.employee a =? id)%nat && p a then 1 else 0)
                  + List.length
                      (filter (fun a => (Email.employee a =? id)%nat && p a)
                         atts))%nat).
    + rewrite list_sum_map_add, <- IH by (intros x Hx; apply H; right; exact Hx).
      rewrite list_sum_indicator by (auto; apply H; left; reflexivity).
      destruct (p a); reflexivity.
    + intros id. destruct ((Email.employee a =? id)%nat && p a); reflexivity.
Qed.

Lemma Email_findById_own (c : list Email.Employee) (e : Email.Employee) :
  NoDup (map Email._id c) -> In e c -> Email.findById (Email._id e) c = Some e.
Proof.
  intros N H. unfold Email.findById.
  apply (findOne_unique Email._id _ c e N H).
  - apply Nat.eqb_refl.
  - intros x Hx. apply Nat.eqb_eq in Hx. exact Hx.
Qed.

Lemma presentIn_withStatus id from to a :
  Email.presentIn id from to a
  = (Email.employee a =? id)%nat && Backend.withStatus from to "present" a.
Proof.
  unfold Email.presentIn, Backend.withStatus. rewrite !andb_assoc. reflexivity.
Qed.

(** X20.  [GET /dashboard] against [GET /salary/generate], on a store whose
    employees have distinct ids: [totalSalary] is the sum of the
    [calculatedSalary] of the salary slips of the month, one slip for each
    stored employee, added in the order of the employees as [+=] adds
    doubles: exactly, when the absolute values of the salaries add up to
    at most 2^53.  [present] is the sum of their [presentDays] when
    every attendance record names a stored employee. *)
Theorem backend_dashboard_totals_are_those_of_the_slips :
  forall (LocalTZA now : Z) (st : Email.Store) (req : Email.Request),
    NoDup (map Email._id (Email.employees st)) ->
    exists slips,
      Forall2
        (fun e slip =>
           Email.calcSalaryForMonth LocalTZA st (Email._id e)
             (Backend.dash_year (Backend.dashboardOf LocalTZA now st req))
             (Backend.dash_month (Backend.dashboardOf LocalTZA now st req))
           = JS.Return slip)
        (Email.employees st) slips
      /\ Backend.totalSalary (Backend.dashboardOf LocalTZA now st req)
         = fold_left JS.plus (map Email.calculatedSalary slips) (inject_Z 0)
      /\ ((fold_left Qplus
             (map Qabs (map Email.calculatedSalary slips)) (inject_Z 0)
           <= JS.pow2 53)%Q ->
          Backend.totalSalary (Backend.dashboardOf LocalTZA now st req)
          = fold_left Qplus (map Email.calculatedSalary slips) (inject_Z 0))
      /\ ((forall a, In a (Email.attendance st) ->
                     In (Email.employee a)
                       (map Email._id (Email.employees st))) ->
          Backend.present (Backend.dashboardOf LocalTZA now st req)
          = list_sum (map Email.presentDays slips)).
Proof.
  intros tz now st req N.
  unfold Backend.dashboardOf.
  cbn [Backend.dash_year Backend.dash_month Backend.totalSalary
       Backend.present].
  set (m := match Email.query_month req with
            | Some month => month
            | None => (JSDate.getMonth tz now + 1)%Z
            end).
  set (y := match Email.query_year req with
            | Some year => year
            | None => JSDate.getFullYear tz now
            end).
  set (from := Email.startOfMonth tz y m). set (to := Email.endOfMonth tz y m).
  assert (G : forall l,
             (forall e, In e l -> In e (Email.employees st)) ->
             exists slips,
               Forall2
                 (fun e slip =>
                    Email.calcSalaryForMonth tz st (Email._id e) y m
                    = JS.Return slip) l slips
               /\ (forall acc,
                      fold_left
                        (fun totalSalary e =>
                           JS.plus totalSalary
                             (JS.Math_round
                                (JS.times (Email.monthlySalary e)
                                   (JS.over
                                      (JS.ofNat
                                         (Mongo.countDocuments
                                            (Email.presentIn (Email._id e)
                                               from to)
                                            (Email.attendance st)))
                                      (inject_Z 30))))) l acc
                      = fold_left JS.plus (map Email.calculatedSalary slips)
                          acc)
               /\ map Email.presentDays slips
                  = map (fun e =>
                           Mongo.countDocuments
                             (Email.presentIn (Email._id e) from to)
                             (Email.attendance st)) l
               /\ Forall (fun v => v = inject_Z (Qfloor v))
                    (map Email.calculatedSalary slips)).
  { induction l as [|e l IH]; intros Hl.
    - exists []. split; [constructor|]. split; [reflexivity|].
      split; [reflexivity | constructor].
    - destruct IH as (slips & F & S & P & I);
        [intros x Hx; apply Hl; right; exact Hx|].
      pose proof (calcSalaryForMonth_returns tz st (Email._id e) e y m
                    (Email_findById_own _ e N (Hl e (or_introl eq_refl))))
        as R.
      eexists (_ :: slips). split; [constructor; [exact R | exact F]|].
      split.
      + intros acc. simpl. rewrite S. reflexivity.
      + split; [simpl; rewrite P; reflexivity|].
        simpl. constructor; [apply Math_round_integer | exact I]. }
  destruct (G (Email.employees st) (fun e H => H)) as (slips & F & S & P & I).
  exists slips. split; [exact F|]. split; [apply S|].
  split; [intros B; rewrite S; exact (plus_exact _ I B)|].
  intros H. rewrite P.
  rewrite (count_by_employee (Email.attendance st)
             (map Email._id (Email.employees st))
             (Backend.withStatus from to "present") N H).
  rewrite map_map. f_equal. apply map_ext. intros e.
  unfold Mongo.countDocuments. f_equal. apply filter_ext. intros a.
  symmetry. apply presentIn_withStatus.
Qed.

Lemma backend_dashboard_totals_are_those_of_the_slips_witness :
  exists slips,
    Backend.totalSalary
      (Backend.dashboardOf 0 (Demo.marchNoon 0) Demo.emailStore Email.noRequest)
    = fold_left JS.plus (map Email.calculatedSalary slips) (inject_Z 0)
    /\ Backend.totalSalary
         (Backend.dashboardOf 0 (Demo.marchNoon 0) Demo.emailStore
            Email.noRequest)
       = fold_left Qplus (map Email.calculatedSalary slips) (inject_Z 0)
    /\ Backend.present
         (Backend.dashboardOf 0 (Demo.marchNoon 0) Demo.emailStore
            Email.noRequest)
       = list_sum (map Email.presentDays slips).
Proof.
  destruct (backend_dashboard_totals_are_those_of_the_slips 0
              (Demo.marchNoon 0) Demo.emailStore Email.noRequest)
    as (slips & F & T & X & P).
  { simpl. repeat constructor. simpl. tauto. }
  exists slips. split; [exact T|]. split.
  - apply X.
    inversion F as [|e slip l l' H1 H2]; subst.
    inversion H2; subst.
    vm_compute in H1. injection H1 as <-. vm_compute. discriminate.
  - apply P.
    intros a Ha. simpl. left.
    simpl in Ha. repeat destruct Ha as [<- | Ha]; try reflexivity.
    contradiction.
Defined.

(* ------------------------------------------------------------------ *)
(** * Updates and deletions of [src/backend/index.js] *)





Lemma deleteFirst_none {A : Type} (p : A -> bool) (c : list A) :
  find p c = None -> Mongo.deleteFirst p c = c.
Proof.
  induction c as [|x c IH]; simpl; [reflexivity|].
  destruct (p x); [discriminate|]. intros H. rewrite IH by exact H.
  reflexivity.
Qed.

(** X22.  A deletion for an id that is not stored.  [DELETE /employees/:id]
    of [src/backend/index.js] answers 404 and keeps the employees, yet it
    has removed every attendance record that names the id (a mark can name
    an id that is no employee) and kept the others.  The header service
    and the username based one answer 404 and leave the store as it is. *)
Theorem delete_of_an_id_that_is_not_stored :
  forall (st : Email.Store) (req : Email.Request)
         (user : Username.Employee) (ust : Username.Store)
         (ureq : Username.Request) (id : Mongo.ObjectId),
    Email.findById (Email.params_id req) (Email.employees st) = None ->
    Username.body_employeeId ureq = Some id ->
    Username.findById id (Username.employees ust) = None ->
    (snd (Backend.deleteEmployee st req)
     = Http.json 404 (Http.errorBody "not found")
     /\ Email.employees (fst (Backend.deleteEmployee st req))
        = Email.employees st
     /\ Email.attendance (fst (Backend.deleteEmployee st req))
        = filter (fun a => negb (Email.employee a =? Email.params_id req)%nat)
            (Email.attendance st))
    /\ Header.removeEmployee st req
       = (st, Http.json 404 (Http.errorBody "Employee not found"))
    /\ Username.deleteEmployee user ust ureq
       = (ust, Http.json 404 (Http.failBody "Employee not found")).
Proof.
  intros st req user ust ureq id F B U.
  unfold Email.findById, Username.findById, Mongo.findOne in *.
  split; [|split].
  - unfold Backend.deleteEmployee, Mongo.findOneAndDelete. rewrite F.
    cbn [fst snd Email.employees Email.attendance].
    rewrite (deleteFirst_none _ _ F). auto.
  - unfold Header.removeEmployee, Mongo.findOneAndDelete. rewrite F.
    reflexivity.
  - unfold Username.deleteEmployee, Mongo.findOneAndDelete. rewrite B, U.
    reflexivity.
Qed.

Lemma delete_of_an_id_that_is_not_stored_witness :
  snd (Backend.deleteEmployee Demo.emailStore Email.noRequest)
  = Http.json 404 (Http.errorBody "not found")
  /\ Username.deleteEmployee Demo.userEmployee Demo.userStore
       (Demo.adminMark 9%nat 0 None)
     = (Demo.userStore, Http.json 404 (Http.failBody "Employee not found")).
Proof.
  destruct (delete_of_an_id_that_is_not_stored Demo.emailStore Email.noRequest
              Demo.userEmployee Demo.userStore (Demo.adminMark 9%nat 0 None)
              9%nat eq_refl eq_refl eq_refl) as ((H & _) & _ & U).
  split; [exact H | exact U].
Defined.

Lemma find_deleteFirst_key {A K : Type} (key : A -> K) (p q : A -> bool)
  (c : list A) (x : A) :
  NoDup (map key c) -> find p c = Some x ->
  (forall y, q y = true -> key y = key x) ->
  find q (Mongo.deleteFirst p c) = None.
Proof.
  intros N F Hq.
  destruct (find q (Mongo.deleteFirst p c)) as [y|] eqn:G; [|reflexivity].
  exfalso. apply find_some in G. destruct G as [Hin Hy].
  apply Hq in Hy. clear Hq.
  induction c as [|z c IH]; simpl in *; [discriminate|].
  apply NoDup_cons_iff in N. destruct N as [Hz N].
  destruct (p z) eqn:P.
  - injection F as ->. apply Hz. rewrite <- Hy. apply in_map, Hin.
  - destruct Hin as [-> | Hin].
    + apply find_some in F. destruct F as [Hx _].
      apply Hz. rewrite Hy. apply in_map, Hx.
    + exact (IH N F Hin).
Qed.

(** A username no stored employee has stays free under a request that
    does not carry it as [username_new]. *)
Lemma Username_admin_handler_keeps_free LocalTZA r user st req u :
  Username.body_username_new req <> Some u ->
  (forall e, In e (Username.employees st) -> Username.username e <> u) ->
  forall e,
    In e (Username.employees (fst (Username.adminHandler LocalTZA r user st req))) ->
    Username.username e <> u.
Proof.
  intros Hreq H. destruct r; simpl.
  - unfold Username.createEmployee.
    destruct (Username.required (Username.body_name req)); [|exact H].
    destruct (Username.required (Username.body_username_new req)) as [v|] eqn:Hv;
      [|exact H].
    destruct (Username.required (Username.body_password_new req)); [|exact H].
    destruct (Username.required (Username.body_empId req)); [|exact H].
    destruct (Mongo.findOne _ _); [exact H|].
    cbn [fst Username.employees]. intros e He. apply in_app_or in He.
    destruct He as [He | [<- | []]]; [exact (H e He)|].
    cbn [Username.username]. apply required_some in Hv. destruct Hv as [Hv _].
    intros ->. exact (Hreq Hv).
  - exact H.
  - unfold Username.getEmployee.
    destruct (Username.body_employeeId req); [|exact H].
    destruct (Username.findById _ _); exact H.
  - unfold Username.updateEmployee.
    destruct (Username.body_employeeId req); [|exact H].
    destruct (Username.findById _ _); [|exact H].
    destruct (Username.clashes _ _ _ _); [exact H|].
    cbn [fst Username.employees].
    apply updateFirst_all; [exact H|].
    intros x Hx. unfold Username.applyUpdate. cbn [Username.username].
    unfold JS.orStr.
    destruct (Username.body_username_new req) as [v|]; [|exact Hx].
    destruct (v =? ""); [exact Hx|].
    intros ->. apply Hreq. reflexivity.
  - unfold Username.deleteEmployee, Mongo.findOneAndDelete.
    destruct (Username.body_employeeId req); [|exact H].
    destruct (find _ _); [|exact H].
    cbn [fst Username.employees]. intros x Hx.
    exact (H x (deleteFirst_In _ _ x Hx)).
  - unfold Username.markAttendance.
    destruct (Username.body_employeeId req); [|exact H].
    destruct (Username.body_date req); [|exact H].
    destruct (_ && _); [exact H|].
    destruct (Username.findById _ _); [|exact H].
    destruct (Mongo.findOneAndUpsert _ _ _ _) as [[att atts] isNew].
    exact H.
  - unfold Username.viewAttendance.
    destruct (Username.body_employeeId req); exact H.
  - unfold Username.payslipGenerate. rewrite Username_payslipFor_store. exact H.
  - unfold Username.payslipPdf. rewrite Username_payslipFor_store. exact H.
Qed.

Lemma Username_handle_keeps_free LocalTZA r st req u :
  Username.body_username_new req <> Some u ->
  (forall e, In e (Username.employees st) -> Username.username e <> u) ->
  forall e,
    In e (Username.employees (fst (Username.handle LocalTZA r st req))) ->
    Username.username e <> u.
Proof.
  intros Hreq H.
  destruct r as [| |r|r]; simpl; try exact H; unfold Username.guarded.
  - destruct (Username.authenticate st req) as [user|]; [|exact H].
    destruct (Username.adminOnly user); [exact H|].
    apply Username_admin_handler_keeps_free; assumption.
  - destruct (Username.authenticate st req) as [user|]; [|exact H].
    destruct (Username.employeeOnly user); [exact H|].
    destruct r; simpl; try exact H;
      unfold Username.ownPayslip, Username.ownPayslipPdf;
      rewrite Username_payslipFor_store; exact H.
Qed.

Lemma Username_run_keeps_free LocalTZA calls st u :
  (forall c, In c calls -> Username.body_username_new (snd c) <> Some u) ->
  (forall e, In e (Username.employees st) -> Username.username e <> u) ->
  forall e,
    In e (Username.employees (Username.run LocalTZA st calls)) ->
    Username.username e <> u.
Proof.
  unfold Username.run. revert st.
  induction calls as [|c calls IH]; intros st Hc H; simpl; [exact H|].
  apply IH.
  - intros x Hx. apply Hc. right. exact Hx.
  - apply Username_handle_keeps_free; [|exact H].
    apply Hc. left. reflexivity.
Qed.

(** No lookup that asks for a username finds an employee where nobody has
    it. *)
Lemma Username_free_not_found (c : list Username.Employee) (u : string)
  (q : Username.Employee -> bool) :
  (forall e, In e c -> Username.username e <> u) ->
  (forall y, q y = true -> Username.username y = u) ->
  Mongo.findOne q c = None.
Proof.
  intros H Hq. unfold Mongo.findOne.
  destruct (find q c) as [y|] eqn:F; [|reflexivity].
  apply find_some in F. destruct F as [Hin Hy].
  exfalso. exact (H y Hin (Hq y Hy)).
Qed.

(** X23.  In every store the username based service reaches from its
    seeded one, once [POST /admin/employees/delete] has deleted an employee,
    no lookup by the id finds it, and after any further requests, as long
    as none of them carries its username as [username_new] (the create and
    update routes may give the free username to somebody else): no stored
    employee has the username, and a request that carries it is refused
    whatever its password, and also without one: [authenticate] answers
    401, the two logins 401 or, without a password, 400; with a password
    that is no string, [authenticate] lets nobody through and no login
    answers 200. *)
Theorem username_deleted_employee_is_refused :
  forall (LocalTZA : Z) (calls more : list (Username.Route * Username.Request))
         (admin emp : Username.Employee) (req later : Username.Request)
         (id : Mongo.ObjectId) (secret : option Mongo.Cond),
    Username.body_employeeId req = Some id ->
    Username.findById id
      (Username.employees (Username.run LocalTZA Username.seeded calls))
    = Some emp ->
    (forall c, In c more ->
               Username.body_username_new (snd c)
               <> Some (Username.username emp)) ->
    Username.body_username later = Some (Username.username emp) ->
    let deleted :=
      fst (Username.deleteEmployee admin
             (Username.run LocalTZA Username.seeded calls) req) in
    let st := Username.run LocalTZA deleted more in
    Username.findById id (Username.employees deleted) = None
    /\ (forall e, In e (Username.employees st) ->
                  Username.username e <> Username.username emp)
    /\ (exists r,
           Username.authenticate st later = inr r /\ Http.status r = 401%Z)
    /\ (Http.status (Username.employeeLogin st later) = 401%Z
        \/ (Username.required (Username.body_password later) = None
            /\ Http.status (Username.employeeLogin st later) = 400%Z))
    /\ (Http.status (Username.adminLogin st later) = 401%Z
        \/ (Username.required (Username.body_password later) = None
            /\ Http.status (Username.adminLogin st later) = 400%Z))
    /\ (exists r,
           Username.authenticateBody st
             (Some (Mongo.Str (Username.username emp))) secret
           = inr r)
    /\ Http.status
         (Username.employeeLoginBody st
            (Some (Mongo.Str (Username.username emp))) secret) <> 200%Z
    /\ Http.status
         (Username.adminLoginBody st
            (Some (Mongo.Str (Username.username emp))) secret) <> 200%Z.
Proof.
  intros tz calls more admin emp req later id secret B F Hmore Hu deleted st.
  destruct (Username_identities tz calls) as (Ni & _ & Nu & _ & Hne).
  assert (Hin : In emp (Username.employees
                          (Username.run tz Username.seeded calls))).
  { unfold Username.findById, Mongo.findOne in F.
    exact (proj1 (find_some _ _ F)). }
  destruct (Hne emp Hin) as [Hue _].
  assert (E : Username.employees deleted
              = Mongo.deleteFirst (fun e => (Username._id e =? id)%nat)
                  (Username.employees
                     (Username.run tz Username.seeded calls))).
  { unfold deleted, Username.deleteEmployee, Mongo.findOneAndDelete.
    rewrite B. unfold Username.findById, Mongo.findOne in F. rewrite F.
    reflexivity. }
  assert (G0 : forall e, In e (Username.employees deleted) ->
                         Username.username e <> Username.username emp).
  { rewrite E. intros e He Heq.
    unfold Username.findById, Mongo.findOne in F.
    pose proof (find_deleteFirst_key Username.username _
                  (fun y => Username.username y =? Username.username emp)
                  _ emp Nu F
                  (fun y Hy => proj1 (String.eqb_eq _ _) Hy)) as D.
    pose proof (find_none _ _ D e He) as N. simpl in N.
    rewrite Heq, String.eqb_refl in N. discriminate. }
  assert (G : forall e, In e (Username.employees st) ->
                        Username.username e <> Username.username emp).
  { exact (Username_run_keeps_free tz more deleted _ Hmore G0). }
  split; [|split; [exact G|]].
  { rewrite E. unfold Username.findById, Mongo.findOne.
    unfold Username.findById, Mongo.findOne in F.
    apply (find_deleteFirst_key Username._id _ _ _ emp Ni F).
    intros y Hy. apply Nat.eqb_eq in Hy.
    apply find_some in F. destruct F as [_ F]. apply Nat.eqb_eq in F.
    congruence. }
  clearbody st. clear E G0 deleted.
  assert (L : forall rl ok bad,
             Http.status (Username.loginAs rl ok bad st later) = 401%Z
             \/ (Username.required (Username.body_password later) = None
                 /\ Http.status (Username.loginAs rl ok bad st later)
                    = 400%Z)).
  { intros rl ok bad. unfold Username.loginAs. rewrite Hu.
    rewrite (required_nonempty _ Hue).
    destruct (Username.required (Username.body_password later)) as [pw|];
      [left | right; split; reflexivity].
    rewrite (Username_free_not_found _ (Username.username emp) _ G);
      [reflexivity|].
    intros y Hy. apply andb_true_iff in Hy. destruct Hy as [Hy _].
    apply andb_true_iff in Hy. destruct Hy as [Hy _].
    apply String.eqb_eq in Hy. exact Hy. }
  assert (LB : forall rl ok bad,
             Http.status
               (Username.loginAsBody rl ok bad st
                  (Some (Mongo.Str (Username.username emp))) secret)
             <> 200%Z).
  { intros rl ok bad. unfold Username.loginAsBody, Username.requiredCond.
    cbn [Mongo.truthy]. apply String.eqb_neq in Hue. rewrite Hue.
    cbn [negb].
    destruct secret as [c|]; [|discriminate].
    destruct (Mongo.truthy c); [|discriminate].
    destruct (_ && _); [|discriminate].
    rewrite (Username_free_not_found _ (Username.username emp) _ G);
      [discriminate|].
    intros y Hy. apply andb_true_iff in Hy. destruct Hy as [Hy _].
    apply andb_true_iff in Hy. destruct Hy as [Hy _].
    apply String.eqb_eq in Hy. exact Hy. }
  split; [|split; [apply L | split; [apply L|split; [|split; apply LB]]]].
  - unfold Username.authenticate. rewrite Hu.
    rewrite (required_nonempty _ Hue).
    destruct (Username.required (Username.body_password later)) as [pw|];
      [|eexists; split; reflexivity].
    rewrite (Username_free_not_found _ (Username.username emp) _ G).
    + eexists. split; reflexivity.
    + intros y Hy. apply andb_true_iff in Hy. destruct Hy as [Hy _].
      apply String.eqb_eq in Hy. exact Hy.
  - unfold Username.authenticateBody, Username.requiredCond.
    cbn [Mongo.truthy]. apply String.eqb_neq in Hue. rewrite Hue.
    cbn [negb].
    destruct secret as [c|]; [|eexists; reflexivity].
    destruct (Mongo.truthy c); [|eexists; reflexivity].
    destruct (_ && _); [|eexists; reflexivity].
    rewrite (Username_free_not_found _ (Username.username emp) _ G).
    + eexists. reflexivity.
    + intros y Hy. apply andb_true_iff in Hy. destruct Hy as [Hy _].
      apply String.eqb_eq in Hy. exact Hy.
Qed.

Lemma username_deleted_employee_is_refused_witness :
  exists r,
    Username.authenticate
      (Username.run 0
         (fst (Username.deleteEmployee Demo.userEmployee
                 (Username.run 0 Username.seeded Demo.scenario)
                 (Demo.adminMark 1%nat 0 None)))
         [(Username.Admin Username.AttendanceMark,
           Demo.adminMark 0%nat 0 None)])
      (Demo.userLogin "a" "emp123")
    = inr r
    /\ Http.status r = 401%Z.
Proof.
  assert (M : forall c,
             In c [(Username.Admin Username.AttendanceMark,
                    Demo.adminMark 0%nat 0 None)] ->
             Username.body_username_new (snd c)
             <> Some (Username.username Demo.userEmployee)).
  { intros c [<- | []]. discriminate. }
  exact (proj1 (proj2 (proj2
           (username_deleted_employee_is_refused 0 Demo.scenario
              [(Username.Admin Username.AttendanceMark,
                Demo.adminMark 0%nat 0 None)]
              Demo.userEmployee Demo.userEmployee (Demo.adminMark 1%nat 0 None)
              (Demo.userLogin "a" "emp123") 1%nat None eq_refl eq_refl
              M eq_refl)))).
Defined.

(* ------------------------------------------------------------------ *)
(** * Accounts of the header and cookie services *)

(** X24.  [POST /employees] of the header service, answered 200: the new
    employee is appended with the e-mail of the body; a password the body
    leaves out or empty is [emp123], a salary left out or 0 is 30000, a
    role left out or empty is [employee]; and [POST /auth/login] with the
    e-mail and that password answers 200 with the new employee. *)
Theorem header_created_employee_logs_in_with_the_default_password :
  forall (st : Email.Store) (req login : Email.Request),
    Http.status (snd (Header.createEmployee st req)) = 200%Z ->
    Email.body_email login = Email.body_email req ->
    Email.body_password login
    = Some (JS.orStr (Email.body_password req) "emp123") ->
    exists emp,
      Email.employees (fst (Header.createEmployee st req))
      = (Email.employees st ++ [emp])%list
      /\ Some (Email.email emp) = Email.body_email req
      /\ Email.password emp = JS.orStr (Email.body_password req) "emp123"
      /\ Email.role emp = JS.orStr (Email.body_role req) "employee"
      /\ Email.monthlySalary emp
         = JS.orNum (Email.body_monthlySalary req) (inject_Z 30000)
      /\ Header.login (fst (Header.createEmployee st req)) login
         = Http.json 200
             (Http.JObj [("ok", Http.JBool true);
                         ("message", Http.JStr "Login success");
                         ("user", Email.employeeJSON emp)]).
Proof.
  intros st req login H Hl Hp. unfold Header.createEmployee in H |- *.
  destruct (negb (JS.truthyStr (Email.body_name req))
            || negb (JS.truthyStr (Email.body_email req)));
    [discriminate|].
  unfold Email.saveEmployee in H |- *.
  destruct (Email.body_email req) as [em|] eqn:Em; [|discriminate].
  destruct ((em =? "") || _ || _); [discriminate|].
  destruct (existsb _ (Email.employees st)) eqn:X; [discriminate|].
  cbn [fst]. eexists.
  cbn [Email.employees Email.email Email.password Email.role
       Email.monthlySalary].
  do 5 (split; [reflexivity|]).
  unfold Header.login, Backend.login, Email.findByCredentials.
  rewrite Hl, Hp. cbn [Email.employees]. unfold Mongo.findOne.
  rewrite find_snoc.
  - cbn [Email.email Email.password]. rewrite !String.eqb_refl. reflexivity.
  - intros y Hy. pose proof (existsb_false _ _ y X Hy) as N. simpl in N.
    rewrite N. reflexivity.
Qed.

Lemma header_created_employee_logs_in_with_the_default_password_witness :
  exists emp,
    Header.login (fst (Header.createEmployee Demo.emailStaff Demo.hireC))
      (Demo.emailLogin "c@pavakie.com" "emp123")
    = Http.json 200
        (Http.JObj [("ok", Http.JBool true);
                    ("message", Http.JStr "Login success");
                    ("user", Email.employeeJSON emp)])
    /\ Email.password emp = "emp123".
Proof.
  destruct (header_created_employee_logs_in_with_the_default_password
              Demo.emailStaff Demo.hireC
              (Demo.emailLogin "c@pavakie.com" "emp123")
              eq_refl eq_refl eq_refl) as (emp & _ & _ & P & _ & _ & L).
  exists emp. split; [exact L | exact P].
Defined.

Lemma Gated_auth_by_email caller unknown st req (e : Email.Employee) :
  In e (Email.employees st) -> Email.email e <> "" ->
  caller req = Some (Email.email e) ->
  exists user,
    Gated.auth caller unknown st req = inl user
    /\ In user (Email.employees st) /\ Email.email user = Email.email e.
Proof.
  intros Hin Hne Hc. unfold Gated.auth. rewrite Hc.
  apply String.eqb_neq in Hne. rewrite Hne.
  destruct (Mongo.findOne _ _) as [user|] eqn:F.
  - apply findOne_some in F. destruct F as [Hu E].
    apply String.eqb_eq in E. eauto.
  - pose proof (find_none _ _ F e Hin) as N. simpl in N.
    rewrite String.eqb_refl in N. discriminate.
Qed.

(** X25.  The [auth] middleware of the header and cookie services asks for
    no password: a request whose [x-user-email] header, or [userEmail]
    cookie, is the (non-empty) e-mail of a stored employee passes as a
    stored employee of that e-mail.  A login of the cookie service sets exactly that cookie,
    so the request that returns it passes [auth]. *)
Theorem header_cookie_auth_goes_by_the_email_alone :
  forall (st : Email.Store) (e : Email.Employee) (req login : Email.Request),
    In e (Email.employees st) ->
    Email.email e <> "" ->
    (Email.header_x_user_email req = Some (Email.email e) ->
     exists user,
       Header.auth st req = inl user
       /\ In user (Email.employees st) /\ Email.email user = Email.email e)
    /\ (Email.cookie_userEmail req = Some (Email.email e) ->
        exists user,
          Cookie.auth st req = inl user
          /\ In user (Email.employees st) /\ Email.email user = Email.email e)
    /\ (Email.findByCredentials st login = Some e ->
        Http.cookies (Cookie.login st login)
        = [("userEmail", Some (Email.email e))]
        /\ Http.status (Cookie.login st login) = 200%Z).
Proof.
  intros st e req login Hin Hne. split; [|split].
  - apply Gated_auth_by_email; assumption.
  - apply Gated_auth_by_email; assumption.
  - intros F. unfold Cookie.login. rewrite F. split; reflexivity.
Qed.

Lemma header_cookie_auth_goes_by_the_email_alone_witness :
  (exists user,
      Cookie.auth Demo.emailStore Demo.createByEmployee = inl user
      /\ Email.email user = "a@pavakie.com")
  /\ Http.cookies
       (Cookie.login Demo.emailStore (Demo.emailLogin "a@pavakie.com" "emp123"))
     = [("userEmail", Some "a@pavakie.com")].
Proof.
  destruct (header_cookie_auth_goes_by_the_email_alone Demo.emailStore
              Demo.emailEmployee Demo.createByEmployee
              (Demo.emailLogin "a@pavakie.com" "emp123"))
    as (_ & C & L); [left; reflexivity | discriminate |].
  split.
  - destruct (C eq_refl) as (user & A & _ & E). exists user. auto.
  - exact (proj1 (L eq_refl)).
Defined.

(* ------------------------------------------------------------------ *)
(** * The self-service of the username based service *)

Lemma filter_filter_andb {A : Type} (p g : A -> bool) (l : list A) :
  filter (fun a => p a && g a) l = filter g (filter p l).
Proof.
  induction l as [|a l IH]; simpl; [reflexivity|].
  destruct (p a); simpl; [destruct (g a); rewrite IH; reflexivity | exact IH].
Qed.

Lemma Username_own_filter (id : Mongo.ObjectId) (g : Username.Attendance -> bool)
  (c c' : list Username.Attendance) :
  filter (fun a => (Username.employee a =? id)%nat) c
  = filter (fun a => (Username.employee a =? id)%nat) c' ->
  filter (fun a => (Username.employee a =? id)%nat && g a) c
  = filter (fun a => (Username.employee a =? id)%nat && g a) c'.
Proof.
  intros H.
  rewrite (filter_filter_andb (fun a => (Username.employee a =? id)%nat) g c).
  rewrite (filter_filter_andb (fun a => (Username.employee a =? id)%nat) g c').
  rewrite H. reflexivity.
Qed.

Lemma Username_presentIn_own id from to a :
  Username.presentIn id from to a
  = (Username.employee a =? id)%nat
    && ((from <=? Username.date a)%Z && (Username.date a <=? to)%Z
        && (Username.status a =? "present")).
Proof. unfold Username.presentIn. rewrite !andb_assoc. reflexivity. Qed.

Lemma Username_salary_of_own LocalTZA st st' id y m :
  Username.findById id (Username.employees st)
  = Username.findById id (Username.employees st') ->
  filter (fun a => (Username.employee a =? id)%nat) (Username.attendance st)
  = filter (fun a => (Username.employee a =? id)%nat) (Username.attendance st') ->
  Username.calculateSalary LocalTZA st id y m
  = Username.calculateSalary LocalTZA st' id y m.
Proof.
  intros E F. unfold Username.calculateSalary, Mongo.countDocuments.
  rewrite E.
  rewrite (filter_ext _ _ (Username_presentIn_own id _ _) (Username.attendance st)).
  rewrite (filter_ext _ _ (Username_presentIn_own id _ _) (Username.attendance st')).
  rewrite (Username_own_filter id _ _ _ F). reflexivity.
Qed.

(** X26.  The self-service routes of the username based service
    ([/employee/me], [/employee/attendance], [/employee/payslip] and its
    PDF) answer from the caller's own data alone: on two stores that hold
    the same document for the caller's id and the same attendance records
    of that id, the answer to a request is the same, whatever the two
    stores hold about anybody else. *)
Theorem username_self_service_answers_from_own_data :
  forall (LocalTZA : Z) (r : Username.EmployeeRoute)
         (user : Username.Employee) (st st' : Username.Store)
         (req : Username.Request),
    Username.findById (Username._id user) (Username.employees st)
    = Username.findById (Username._id user) (Username.employees st') ->
    filter (fun a => (Username.employee a =? Username._id user)%nat)
      (Username.attendance st)
    = filter (fun a => (Username.employee a =? Username._id user)%nat)
        (Username.attendance st') ->
    snd (Username.employeeHandler LocalTZA r user st req)
    = snd (Username.employeeHandler LocalTZA r user st' req).
Proof.
  intros tz r user st st' req E F.
  assert (P : forall render missing,
             snd (Username.payslipFor tz render missing
                    (Some (Username._id user)) st req)
             = snd (Username.payslipFor tz render missing
                      (Some (Username._id user)) st' req)).
  { intros render missing. unfold Username.payslipFor.
    destruct (_ && _); [|reflexivity].
    destruct (Username.body_month req) as [mo|]; [|reflexivity].
    destruct (Username.body_year req) as [ye|]; [|reflexivity].
    rewrite (Username_salary_of_own tz st st' _ ye mo E F).
    destruct (Username.calculateSalary _ _ _ _ _); reflexivity. }
  destruct r; cbn [Username.employeeHandler].
  - unfold Username.me. cbn [snd]. rewrite E. reflexivity.
  - unfold Username.ownAttendance, Username.findAttendance, Mongo.findAll.
    cbn [snd]. unfold Username.attendanceOf.
    rewrite (Username_own_filter (Username._id user) _ _ _ F). reflexivity.
  - apply P.
  - apply P.
Qed.

Lemma username_self_service_answers_from_own_data_witness :
  snd (Username.employeeHandler 0 Username.OwnPayslip Demo.userEmployee
         Demo.userStore Demo.ownMarch)
  = snd (Username.employeeHandler 0 Username.OwnPayslip Demo.userEmployee
           Demo.userStoreAfterOtherMark Demo.ownMarch)
  /\ Username.attendance Demo.userStore
     <> Username.attendance Demo.userStoreAfterOtherMark.
Proof.
  split.
  - apply (username_self_service_answers_from_own_data 0 Username.OwnPayslip
             Demo.userEmployee Demo.userStore Demo.userStoreAfterOtherMark
             Demo.ownMarch); vm_compute; reflexivity.
  - intros H. apply (f_equal (@List.length _)) in H. vm_compute in H.
    discriminate.
Defined.

(* ------------------------------------------------------------------ *)
(** * The salary grows with the present days *)

(** X27.  Of two salary computations for the same non-negative monthly
    salary, the one with more present days gives no smaller salary, and
    none is negative: the roundings of [calcSalaryForMonth] and of
    [calculateSalary] keep the order. *)
Theorem salary_grows_with_the_present_days :
  forall (LocalTZA : Z),
    (forall (st st' : Email.Store) (id id' : Mongo.ObjectId) (y m y' m' : Z)
            (slip slip' : Email.SalarySlip),
        Email.calcSalaryForMonth LocalTZA st id y m = JS.Return slip ->
        Email.calcSalaryForMonth LocalTZA st' id' y' m' = JS.Return slip' ->
        (Email.monthlySalary (Email.slip_employee slip)
         == Email.monthlySalary (Email.slip_employee slip'))%Q ->
        (0 <= Email.monthlySalary (Email.slip_employee slip))%Q ->
        (Email.presentDays slip <= Email.presentDays slip')%nat ->
        (0 <= Email.calculatedSalary slip
         /\ Email.calculatedSalary slip <= Email.calculatedSalary slip')%Q)
    /\ (forall (st st' : Username.Store) (id id' : Mongo.ObjectId)
               (y m y' m' : Z) (slip slip' : Username.Payslip),
           Username.calculateSalary LocalTZA st id y m = JS.Return slip ->
           Username.calculateSalary LocalTZA st' id' y' m' = JS.Return slip' ->
           (Username.baseSalary slip == Username.baseSalary slip')%Q ->
           (0 <= Username.baseSalary slip)%Q ->
           (Username.presentDays slip <= Username.presentDays slip')%nat ->
           (0 <= Username.calculatedSalary slip
            /\ Username.calculatedSalary slip
               <= Username.calculatedSalary slip')%Q).
Proof.
  intros tz. split.
  - intros st st' id id' y m y' m' slip slip' R R' E S N.
    unfold Email.calcSalaryForMonth in R, R'.
    destruct (Email.findById id _) as [emp|]; [|discriminate].
    destruct (Email.findById id' _) as [emp'|]; [|discriminate].
    injection R as <-. injection R' as <-.
    cbn [Email.calculatedSalary Email.presentDays Email.slip_employee
         Email.monthlySalary] in *.
    apply ofNat_le in N.
    generalize dependent (Mongo.countDocuments
                            (Email.presentIn id (Email.startOfMonth tz y m)
                               (Email.endOfMonth tz y m))
                            (Email.attendance st)).
    generalize dependent (Mongo.countDocuments
                            (Email.presentIn id' (Email.startOfMonth tz y' m')
                               (Email.endOfMonth tz y' m'))
                            (Email.attendance st')).
    intros n' n N.
    assert (P : (0 <= JS.ofNat n / inject_Z 30)%Q).
    { apply Qle_shift_div_l; [reflexivity|].
      rewrite Qmult_0_l. apply ofNat_nonneg. }
    assert (A : (0 <= JS.over (JS.ofNat n) (inject_Z 30))%Q)
      by (apply fl_nonneg; exact P).
    assert (M : (0 <= Email.monthlySalary emp
                      * JS.over (JS.ofNat n) (inject_Z 30))%Q)
      by (apply Qmult_le_0_compat; assumption).
    split.
    + change 0%Q with (JS.Math_round 0). apply Math_round_le.
      apply fl_nonneg. exact M.
    + unfold JS.times.
      rewrite (fl_compat
                 (Email.monthlySalary emp'
                  * JS.over (JS.ofNat n') (inject_Z 30))
                 (Email.monthlySalary emp
                  * JS.over (JS.ofNat n') (inject_Z 30)))
        by (rewrite E; reflexivity).
      apply Math_round_le, fl_mono; [exact M|].
      apply Qmult_le_nonneg_l; [exact S|].
      apply fl_mono; [exact P|].
      apply Qdiv_le_pos; [lia | exact N].
  - intros st st' id id' y m y' m' slip slip' R R' E S N.
    unfold Username.calculateSalary in R, R'.
    destruct (Username.findById id _) as [emp|]; [|discriminate].
    destruct (Username.findById id' _) as [emp'|]; [|discriminate].
    injection R as <-. injection R' as <-.
    cbn [Username.calculatedSalary Username.presentDays Username.baseSalary]
      in *.
    apply ofNat_le in N.
    generalize dependent (Mongo.countDocuments
                            (Username.presentIn id
                               (Username.startOfMonth tz y m)
                               (Username.endOfMonth tz y m))
                            (Username.attendance st)).
    generalize dependent (Mongo.countDocuments
                            (Username.presentIn id'
                               (Username.startOfMonth tz y' m')
                               (Username.endOfMonth tz y' m'))
                            (Username.attendance st')).
    intros n' n N.
    assert (D : JS.over (Username.salary emp') (inject_Z 30)
                = JS.over (Username.salary emp) (inject_Z 30)).
    { apply fl_compat. rewrite E. reflexivity. }
    rewrite D. clear D.
    assert (P : (0 <= JS.over (Username.salary emp) (inject_Z 30))%Q).
    { apply fl_nonneg. apply Qle_shift_div_l; [reflexivity|].
      rewrite Qmult_0_l. exact S. }
    set (d := JS.over (Username.salary emp) (inject_Z 30)) in *.
    assert (C : (0 <= d * JS.ofNat n)%Q)
      by (apply Qmult_le_0_compat; [exact P | apply ofNat_nonneg]).
    assert (H : (0 <= JS.times d (JS.ofNat n) * inject_Z 100)%Q)
      by (apply Qmult_le_0_compat; [apply fl_nonneg; exact C | discriminate]).
    assert (K : (0 <= JS.Math_round
                        (JS.times (JS.times d (JS.ofNat n)) (inject_Z 100))
                      / inject_Z 100)%Q).
    { apply Qle_shift_div_l; [reflexivity|]. rewrite Qmult_0_l.
      change 0%Q with (JS.Math_round 0). apply Math_round_le.
      apply fl_nonneg. exact H. }
    split.
    + apply fl_nonneg. exact K.
    + apply fl_mono; [exact K|].
      apply Qdiv_le_pos; [lia|].
      apply Math_round_le. apply fl_mono; [exact H|].
      apply Qmult_le_compat_r; [|discriminate].
      apply fl_mono; [exact C|].
      apply Qmult_le_nonneg_l; [exact P | exact N].
Qed.

Lemma salary_grows_with_the_present_days_witness :
  exists february march,
    Email.calcSalaryForMonth 0 Demo.emailStore 1%nat 2025 2
    = JS.Return february
    /\ Email.calcSalaryForMonth 0 Demo.emailStore 1%nat 2025 3
       = JS.Return march
    /\ (Email.calculatedSalary february <= Email.calculatedSalary march)%Q.
Proof.
  eexists. eexists. split; [reflexivity|]. split; [reflexivity|].
  apply (proj1 (salary_grows_with_the_present_days 0) Demo.emailStore
           Demo.emailStore 1%nat 1%nat 2025 2 2025 3 _ _ eq_refl eq_refl).
  - reflexivity.
  - discriminate.
  - vm_compute. lia.
Defined.
